(** * Book tracker: the record store (raw SQLite driver and Sequelize ORM)
      and the Express API in front of it

    The development follows the TypeScript sources:
    - [Raw]   : the store written against the [sqlite3] driver;
    - [Orm]   : the store of [backend/src/db.ts] over the Sequelize model of
                [backend/src/models/Book.ts];
    - [Api]   : the Express routes, parametric in the store they import.

    Conventions of the model.
    - A JavaScript number is [NaN], an infinity, or a finite number kept as
      the rational that is its value; zero has no sign.
    - A string is the UTF-8 text of the JavaScript string, byte by byte;
      white space is the class of ECMA-262, in its UTF-8 encodings.
    - The table [books] is a finite map from the primary key to the other
      columns, together with the AUTOINCREMENT counter of SQLite.  Both
      layers are run on the SQLite engine (the fallback of [db.ts]).
    - [createdAt] is stored as the instant it denotes, in milliseconds,
      whichever text a layer writes for it; the text handed to a caller
      records its format next to the instant.
    - The wall clock is an argument of the operations that read it. *)

From Stdlib Require Import ZArith QArith Qround String Ascii List Sorted Permutation Lia.
From stdpp Require Import gmap strings list sorting.

Close Scope Q_scope.
Local Open Scope Z_scope.

(** ** JavaScript values and conversions *)

Module JS.

Inductive jsnum : Type :=
| NaN
| Infinity (negative : bool)
| Fin (q : Q).

(** [Number.isNaN] *)
Definition isNaN (x : jsnum) : bool :=
  match x with NaN => true | _ => false end.

(** [x < y]: false as soon as one operand is [NaN]. *)
Definition lt (x y : jsnum) : bool :=
  match x, y with
  | NaN, _ | _, NaN => false
  | Infinity true, Infinity true => false
  | Infinity true, _ => true
  | _, Infinity true => false
  | Infinity false, _ => false
  | Fin _, Infinity false => true
  | Fin p, Fin q => negb (Qle_bool q p)
  end.

(** [x > y] *)
Definition gt (x y : jsnum) : bool := lt y x.

(** [x <= y] *)
Definition le (x y : jsnum) : bool :=
  match x, y with
  | NaN, _ | _, NaN => false
  | Infinity true, _ => true
  | _, Infinity false => true
  | _, Infinity true => false
  | Infinity false, _ => false
  | Fin p, Fin q => Qle_bool p q
  end.

(** [x >= y] *)
Definition ge (x y : jsnum) : bool := le y x.

Definition of_Z (z : Z) : jsnum := Fin (inject_Z z).

(** [Number.isInteger], with the integer when there is one. *)
Definition integer_value (x : jsnum) : option Z :=
  match x with
  | Fin q => let z := Qfloor q in
             if Qeq_bool q (inject_Z z) then Some z else None
  | _ => None
  end.

Definition isInteger (x : jsnum) : bool :=
  match integer_value x with Some _ => true | None => false end.

Definition negate (x : jsnum) : jsnum :=
  match x with
  | NaN => NaN
  | Infinity b => Infinity (negb b)
  | Fin q => Fin (Qopp q)
  end.

(** A string is the UTF-8 text of the JavaScript string, byte by byte (a
    string with a lone surrogate has no such text and is not represented).
    The white space and the line terminators that [trim] and [Number] strip
    (ECMA-262, WhiteSpace and LineTerminator) take one, two or three bytes.

    One byte: TAB, LF, VT, FF, CR, SP. *)
Definition is_ws (c : ascii) : bool :=
  let n := N_of_ascii c in
  ((9 <=? n) && (n <=? 13) || (n =? 32))%N.

(** Two bytes: NBSP (U+00A0, C2 A0). *)
Definition is_ws2 (c1 c2 : ascii) : bool :=
  ((N_of_ascii c1 =? 194) && (N_of_ascii c2 =? 160))%N.

(** Three bytes: U+1680 (E1 9A 80); U+2000 to U+200A, the line and the
    paragraph separator U+2028 and U+2029, U+202F (E2 80, then 80 to 8A, A8,
    A9, AF); U+205F (E2 81 9F); U+3000 (E3 80 80); U+FEFF (EF BB BF). *)
Definition is_ws3 (c1 c2 c3 : ascii) : bool :=
  let a := N_of_ascii c1 in
  let b := N_of_ascii c2 in
  let c := N_of_ascii c3 in
  ((a =? 225) && (b =? 154) && (c =? 128)
   || (a =? 226) && (b =? 128)
      && ((128 <=? c) && (c <=? 138) || (c =? 168) || (c =? 169) || (c =? 175))
   || (a =? 226) && (b =? 129) && (c =? 159)
   || (a =? 227) && (b =? 128) && (c =? 128)
   || (a =? 239) && (b =? 187) && (c =? 191))%N.

(** [s] without the white space at its start; [w2] and [w3] tell the white
    space of two and of three bytes. *)
Fixpoint strip (w2 : ascii -> ascii -> bool)
    (w3 : ascii -> ascii -> ascii -> bool) (s : string) : string :=
  match s with
  | String c1 r1 =>
      if is_ws c1 then strip w2 w3 r1
      else
        match r1 with
        | String c2 r2 =>
            if w2 c1 c2 then strip w2 w3 r2
            else
              match r2 with
              | String c3 r3 => if w3 c1 c2 c3 then strip w2 w3 r3 else s
              | EmptyString => s
              end
        | EmptyString => s
        end
  | EmptyString => s
  end.

Definition trimStart (s : string) : string := strip is_ws2 is_ws3 s.

(** The white space at the end is the white space at the start of the bytes
    read backwards, each white space with its bytes in the other order. *)
Definition trimEnd (s : string) : string :=
  String.rev (strip (fun c2 c1 => is_ws2 c1 c2)
                    (fun c3 c2 c1 => is_ws3 c1 c2 c3)
                    (String.rev s)).

(** [String.prototype.trim] *)
Definition trim (s : string) : string := trimEnd (trimStart s).

(** *** [StringToNumber] (ECMA-262, 7.1.4.1.1) *)

Definition digit (radix : N) (c : ascii) : option N :=
  let n := N_of_ascii c in
  let v := (if (48 <=? n) && (n <=? 57) then Some (n - 48)
            else if (97 <=? n) && (n <=? 102) then Some (n - 87)
            else if (65 <=? n) && (n <=? 70) then Some (n - 55)
            else None)%N in
  match v with
  | Some d => if (d <? radix)%N then Some d else None
  | None => None
  end.

(** The longest prefix of digits of [s]: the value accumulated onto [acc],
    the number of digits read onto [count], and what follows. *)
Fixpoint digits (radix : N) (s : string) (acc : N) (count : nat)
  : N * nat * string :=
  match s with
  | String c r =>
      match digit radix c with
      | Some d => digits radix r (acc * radix + d)%N (S count)
      | None => (acc, count, s)
      end
  | EmptyString => (acc, count, s)
  end.

(** [m * 10^k], exactly. *)
Definition scale10 (m : N) (k : Z) : Q :=
  if 0 <=? k then inject_Z (Z.of_N m * 10 ^ k)
  else Qred (Z.of_N m # Z.to_pos (10 ^ (- k))).

(** *** Rounding to a double (IEEE 754 binary64, ties to even) *)

(** Numerator and denominator of [(n/d) / 2^p]. *)
Definition div_pow2 (n : Z) (d : positive) (p : Z) : Z * Z :=
  if 0 <=? p then (n, Z.pos d * 2 ^ p) else (n * 2 ^ (- p), Z.pos d).

(** The integer nearest to [n/d], the even one of two that are as near. *)
Definition round_half_even (n d : Z) : Z :=
  let q := n / d in
  match 2 * (n mod d) ?= d with
  | Lt => q
  | Gt => q + 1
  | Eq => if Z.even q then q else q + 1
  end.

(** [floor (log2 (n/d))] for [n > 0]. *)
Definition floor_log2 (n : Z) (d : positive) : Z :=
  let e := Z.log2 n - Z.log2 (Z.pos d) in
  let '(a, b) := div_pow2 n d e in
  if b <=? a then e else e - 1.

(** [m * 2^p] as a reduced fraction. *)
Definition scale2 (m p : Z) : Q :=
  if 0 <=? p then inject_Z (m * 2 ^ p)
  else Qred (m # Z.to_pos (2 ^ (- p))).

(** The double nearest to [n/d] for [n >= 0]: 53 bits of precision, exponents
    down to the subnormal numbers, an infinity from [2^1024 - 2^970] on. *)
Definition round_magnitude (n : Z) (d : positive) : jsnum :=
  if n =? 0 then Fin 0 else
  let e := floor_log2 n d in
  if 1024 <=? e then Infinity false else
  let p := Z.max (e - 52) (-1074) in
  let '(a, b) := div_pow2 n d p in
  let m := round_half_even a b in
  if (p =? 971) && (m =? 2 ^ 53) then Infinity false
  else Fin (scale2 m p).

Definition ToDouble (q : Q) : jsnum :=
  if Qnum q <? 0 then negate (round_magnitude (- Qnum q) (Qden q))
  else round_magnitude (Qnum q) (Qden q).

Definition ExponentPart (s : string) : option Z :=
  let '(neg, r) := match s with
                   | String "+" r => (false, r)
                   | String "-" r => (true, r)
                   | _ => (false, s)
                   end%char in
  match digits 10 r 0 0 with
  | (_, O, _) => None
  | (e, _, EmptyString) => Some (if neg then - Z.of_N e else Z.of_N e)
  | _ => None
  end.

Definition StrUnsignedDecimalLiteral (s : string) : jsnum :=
  if String.eqb s "Infinity" then Infinity false else
  let '(i, ni, r1) := digits 10 s 0 0 in
  let '(m, nf, r2) := match r1 with
                      | String "." r => digits 10 r i 0
                      | _ => (i, O, r1)
                      end%char in
  match (ni + nf)%nat with
  | O => NaN
  | _ =>
      match r2 with
      | EmptyString => ToDouble (scale10 m (- Z.of_nat nf))
      | String c r3 =>
          if Ascii.eqb c "e" || Ascii.eqb c "E" then
            match ExponentPart r3 with
            | Some e => ToDouble (scale10 m (e - Z.of_nat nf))
            | None => NaN
            end
          else NaN
      end
  end.

Definition StrDecimalLiteral (s : string) : jsnum :=
  match s with
  | String "+" r => StrUnsignedDecimalLiteral r
  | String "-" r => negate (StrUnsignedDecimalLiteral r)
  | _ => StrUnsignedDecimalLiteral s
  end%char.

Definition NonDecimalIntegerLiteral (radix : N) (s : string) : jsnum :=
  match digits radix s 0 0 with
  | (_, O, _) => NaN
  | (v, _, EmptyString) => ToDouble (inject_Z (Z.of_N v))
  | _ => NaN
  end.

Definition StringToNumber (s : string) : jsnum :=
  match trim s with
  | EmptyString => Fin 0
  | String "0" (String c r) as t =>
      if Ascii.eqb c "x" || Ascii.eqb c "X" then NonDecimalIntegerLiteral 16 r
      else if Ascii.eqb c "o" || Ascii.eqb c "O" then NonDecimalIntegerLiteral 8 r
      else if Ascii.eqb c "b" || Ascii.eqb c "B" then NonDecimalIntegerLiteral 2 r
      else StrDecimalLiteral t
  | t => StrDecimalLiteral t
  end%char.

(** What a field of a parsed JSON body, or its absence, evaluates to.
    Arrays and objects are not represented. *)
Inductive value : Type :=
| Undefined
| Null
| Bool (b : bool)
| Num (n : jsnum)
| Str (s : string).

(** [Number(v)] *)
Definition Number (v : value) : jsnum :=
  match v with
  | Undefined => NaN
  | Null => Fin 0
  | Bool b => if b then Fin 1 else Fin 0
  | Num n => n
  | Str s => StringToNumber s
  end.

(** Truthiness: [!v] is [negb (ToBoolean v)]. *)
Definition ToBoolean (v : value) : bool :=
  match v with
  | Undefined | Null => false
  | Bool b => b
  | Num NaN => false
  | Num (Infinity _) => true
  | Num (Fin q) => negb (Qeq_bool q 0)
  | Str s => negb (String.eqb s "")
  end.

Section ToString.
(** [Number::toString] is left uninterpreted: the routes are verified for
    every rendering of numbers. *)
Variable NumberToString : jsnum -> string.

(** [String(v)] *)
Definition ToString (v : value) : string :=
  match v with
  | Undefined => "undefined"
  | Null => "null"
  | Bool b => if b then "true" else "false"
  | Num n => NumberToString n
  | Str s => s
  end.
End ToString.

End JS.

(** ** The data model *)

(** [BookStatus] of [types.ts] *)
Inductive BookStatus : Type := READ | UNREAD.

(** The text of a timestamp as a caller receives it: the format together
    with the instant written in it. *)
Inductive DateText : Type :=
| SqliteDatetime (ms : Z)   (* YYYY-MM-DD HH:MM:SS, the text SQLite keeps *)
| ISOString (ms : Z).       (* Date.prototype.toISOString *)

Definition instant (d : DateText) : Z :=
  match d with SqliteDatetime ms | ISOString ms => ms end.

(** The [Book] interface of [types.ts] *)
Module Book.
Record t : Type := mk {
  id : Z;
  title : string;
  author : string;
  status : BookStatus;
  createdAt : DateText;
  rating : JS.jsnum
}.
End Book.

(** A row of the table [books], without its primary key. *)
Module Row.
Record t : Type := mk {
  title : string;
  author : string;
  status : BookStatus;
  createdAt : Z;
  rating : JS.jsnum
}.
End Row.

(** The table and the largest key it ever handed out (the row SQLite keeps
    in [sqlite_sequence] for an AUTOINCREMENT key). *)
Record Store : Type := mkStore {
  books : gmap Z Row.t;
  sqlite_sequence : Z
}.

Definition empty_store : Store := mkStore ∅ 0.

Inductive Error : Type :=
| DatabaseError      (* the engine refused the statement *)
| ValidationError.   (* a validator of the model failed *)

(** How a promise settles. *)
Inductive Result (A : Type) : Type :=
| Resolve (a : A)
| Reject (e : Error).
Arguments Resolve {A} a.
Arguments Reject {A} e.

(** An asynchronous operation on the store: from the table it finds to the
    way its promise settles and the table it leaves. *)
Definition Promise (A : Type) : Type := Store -> Result A * Store.

(** ** The SQL statements the two layers issue *)

Module Sql.

(** The row that [WHERE id = ?] selects: the key is an integer column, so
    only a parameter that is an integer can match; [NaN] is bound as NULL. *)
Definition select_by_id (id : JS.jsnum) (s : Store) : option (Z * Row.t) :=
  match JS.integer_value id with
  | Some k => match books s !! k with
              | Some r => Some (k, r)
              | None => None
              end
  | None => None
  end.

(** [UPDATE books SET ... WHERE id = ?]: the number of rows changed.  [set]
    answers [None] when the new row violates a column constraint. *)
Definition update_by_id (set : Row.t -> option Row.t) (id : JS.jsnum)
  : Promise nat := fun s =>
  match select_by_id id s with
  | None => (Resolve 0%nat, s)
  | Some (k, r) =>
      match set r with
      | Some r' => (Resolve 1%nat, mkStore (<[k := r']> (books s)) (sqlite_sequence s))
      | None => (Reject DatabaseError, s)
      end
  end.

(** [DELETE FROM books WHERE id = ?]: the number of rows removed. *)
Definition delete_by_id (id : JS.jsnum) : Promise nat := fun s =>
  match select_by_id id s with
  | None => (Resolve 0%nat, s)
  | Some (k, _) => (Resolve 1%nat, mkStore (delete k (books s)) (sqlite_sequence s))
  end.

Definition max_rowid (t : gmap Z Row.t) (lo : Z) : Z :=
  foldr Z.max lo (fst <$> map_to_list t).

(** The key AUTOINCREMENT gives to the next row: one more than the largest
    key that ever was in the table. *)
Definition next_rowid (s : Store) : Z :=
  1 + max_rowid (books s) (sqlite_sequence s).

(** [INSERT INTO books ...] without a key: [lastID]. *)
Definition insert (r : Row.t) : Promise Z := fun s =>
  let k := next_rowid s in
  (Resolve k, mkStore (<[k := r]> (books s)) k).

Definition newer_first (a b : Z * Row.t) : Prop :=
  Row.createdAt (snd b) <= Row.createdAt (snd a).

#[global] Instance newer_first_dec a b : Decision (newer_first a b) :=
  Z_le_dec _ _.

(** [SELECT * FROM books ORDER BY createdAt DESC].  SQL leaves the order
    among rows of equal [createdAt] to the engine. *)
Definition select_all_newest_first (s : Store) : list (Z * Row.t) :=
  merge_sort newer_first (map_to_list (books s)).

(** [CURRENT_TIMESTAMP] has a resolution of one second. *)
Definition CURRENT_TIMESTAMP (now : Z) : Z := 1000 * (now / 1000).

(** [CASE WHEN status = 'READ' THEN 'UNREAD' ELSE 'READ' END] *)
Definition flipped (status : BookStatus) : BookStatus :=
  match status with READ => UNREAD | _ => READ end.

(** [SET status = CASE ... END] *)
Definition flip_status (r : Row.t) : Row.t :=
  Row.mk (Row.title r) (Row.author r) (flipped (Row.status r))
         (Row.createdAt r) (Row.rating r).

(** [SET rating = ?]: a [NaN] is bound as NULL, which the column refuses. *)
Definition set_rating (rating : JS.jsnum) (r : Row.t) : option Row.t :=
  if JS.isNaN rating then None
  else Some (Row.mk (Row.title r) (Row.author r) (Row.status r)
                    (Row.createdAt r) rating).

Definition set_status (st : BookStatus) (r : Row.t) : Row.t :=
  Row.mk (Row.title r) (Row.author r) st (Row.createdAt r) (Row.rating r).

End Sql.

(** The contract both layers export. *)
Record RecordStore : Type := {
  getAllBooks : Promise (list Book.t);
  createBook : string -> string -> Z -> Promise Book.t;
  toggleBookStatus : JS.jsnum -> Promise (option Book.t);
  deleteBook : JS.jsnum -> Promise bool;
  updateBookRating : JS.jsnum -> JS.jsnum -> Promise (option Book.t)
}.

(** ** The store over the [sqlite3] driver *)

Module Raw.

(** The column [rating] is NOT NULL, so that [row.rating ?? 0] is
    [row.rating]. *)
Definition mapRowToBook (row : Z * Row.t) : Book.t :=
  let '(id, r) := row in
  Book.mk id (Row.title r) (Row.author r) (Row.status r)
          (SqliteDatetime (Row.createdAt r))
          (JS.Number (JS.Num (Row.rating r))).

Definition getAllBooks : Promise (list Book.t) := fun s =>
  (Resolve (mapRowToBook <$> Sql.select_all_newest_first s), s).

(** [createdAt] takes the default of the column; the row is read back by
    [lastID]. *)
Definition createBook (title author : string) (now : Z) : Promise Book.t :=
  fun s =>
  match Sql.insert (Row.mk title author UNREAD (Sql.CURRENT_TIMESTAMP now) (JS.Fin 0)) s with
  | (Reject err, s') => (Reject err, s')
  | (Resolve lastID, s') =>
      match Sql.select_by_id (JS.of_Z lastID) s' with
      | Some row => (Resolve (mapRowToBook row), s')
      | None => (Reject DatabaseError, s')
      end
  end.

Definition toggleBookStatus (id : JS.jsnum) : Promise (option Book.t) :=
  fun s =>
  match Sql.update_by_id (fun r => Some (Sql.flip_status r)) id s with
  | (Reject err, s') => (Reject err, s')
  | (Resolve changes, s') =>
      if (changes =? 0)%nat then (Resolve None, s')
      else (Resolve (mapRowToBook <$> Sql.select_by_id id s'), s')
  end.

Definition deleteBook (id : JS.jsnum) : Promise bool := fun s =>
  match Sql.delete_by_id id s with
  | (Reject err, s') => (Reject err, s')
  | (Resolve changes, s') => (Resolve (0 <? changes)%nat, s')
  end.

Definition updateBookRating (id rating : JS.jsnum) : Promise (option Book.t) :=
  fun s =>
  match Sql.update_by_id (Sql.set_rating rating) id s with
  | (Reject err, s') => (Reject err, s')
  | (Resolve changes, s') =>
      if (changes =? 0)%nat then (Resolve None, s')
      else (Resolve (mapRowToBook <$> Sql.select_by_id id s'), s')
  end.

Definition store : RecordStore :=
  Build_RecordStore getAllBooks createBook toggleBookStatus deleteBook
                    updateBookRating.

End Raw.

(** ** The store over the Sequelize model *)

Module Orm.

Definition bind {A B} (p : Promise A) (k : A -> Promise B) : Promise B :=
  fun s =>
  match p s with
  | (Resolve a, s') => k a s'
  | (Reject err, s') => (Reject err, s')
  end.

Definition resolve {A} (a : A) : Promise A := fun s => (Resolve a, s).

Notation "'await' x <- p ; k" := (bind p (fun x => k))
  (at level 10, x name, p at level 100, k at level 200).

(** An instance of the model [Book]: the key and the other attributes,
    [createdAt] being a [Date]. *)
Definition Instance : Type := Z * Row.t.

(** [validate: { min: 0, max: 5 }] of the attribute [rating]; like the
    validators of Sequelize, each lets a value through that is not a
    number. *)
Definition validate_rating (rating : JS.jsnum) : bool :=
  (JS.isNaN rating || JS.ge rating (JS.Fin 0))
  && (JS.isNaN rating || JS.le rating (JS.Fin 5)).

(** [Book.findByPk(id)].  The key is written into the text of the SELECT,
    where [NaN] and the infinities are not numeric literals. *)
Definition findByPk (id : JS.jsnum) : Promise (option Instance) := fun s =>
  match id with
  | JS.Fin _ => (Resolve (Sql.select_by_id id s), s)
  | _ => (Reject DatabaseError, s)
  end.

(** [Book.findAll({ order: [['createdAt', 'DESC']] })] *)
Definition findAll_newest_first : Promise (list Instance) := fun s =>
  (Resolve (Sql.select_all_newest_first s), s).

(** [Book.create({ title, author, status, rating })]; [createdAt] takes its
    default, the time of the call. *)
Definition create (title author : string) (status : BookStatus)
    (rating : JS.jsnum) (now : Z) : Promise Instance := fun s =>
  let row := Row.mk title author status now rating in
  if negb (validate_rating rating) then (Reject ValidationError, s)
  else if JS.isNaN rating then (Reject DatabaseError, s)
  else
    match Sql.insert row s with
    | (Resolve lastID, s') => (Resolve (lastID, row), s')
    | (Reject err, s') => (Reject err, s')
    end.

(** [book.update({ status })] *)
Definition update_status (book : Instance) (status : BookStatus)
  : Promise Instance := fun s =>
  match Sql.update_by_id (fun r => Some (Sql.set_status status r))
                         (JS.of_Z (fst book)) s with
  | (Resolve _, s') => (Resolve (fst book, Sql.set_status status (snd book)), s')
  | (Reject err, s') => (Reject err, s')
  end.

(** [book.update({ rating })]: the attribute is validated, then written. *)
Definition update_rating (book : Instance) (rating : JS.jsnum)
  : Promise Instance := fun s =>
  if negb (validate_rating rating) then (Reject ValidationError, s)
  else
    match Sql.update_by_id (Sql.set_rating rating) (JS.of_Z (fst book)) s with
    | (Resolve _, s') =>
        (Resolve (fst book,
                  Row.mk (Row.title (snd book)) (Row.author (snd book))
                         (Row.status (snd book)) (Row.createdAt (snd book))
                         rating), s')
    | (Reject err, s') => (Reject err, s')
    end.

(** [book.destroy()] *)
Definition destroy (book : Instance) : Promise unit := fun s =>
  match Sql.delete_by_id (JS.of_Z (fst book)) s with
  | (Resolve _, s') => (Resolve tt, s')
  | (Reject err, s') => (Reject err, s')
  end.

(** The object literal every function of [db.ts] builds from an instance. *)
Definition plain (book : Instance) : Book.t :=
  Book.mk (fst book) (Row.title (snd book)) (Row.author (snd book))
          (Row.status (snd book)) (ISOString (Row.createdAt (snd book)))
          (Row.rating (snd book)).

Definition getAllBooks : Promise (list Book.t) :=
  await books <- findAll_newest_first;
  resolve (plain <$> books).

Definition createBook (title author : string) (now : Z) : Promise Book.t :=
  await book <- create (JS.trim title) (JS.trim author) UNREAD (JS.Fin 0) now;
  resolve (plain book).

(** [book.status === 'READ' ? 'UNREAD' : 'READ'] *)
Definition newStatus (book : Instance) : BookStatus :=
  match Row.status (snd book) with READ => UNREAD | _ => READ end.

Definition toggleBookStatus (id : JS.jsnum) : Promise (option Book.t) :=
  await found <- findByPk id;
  match found with
  | None => resolve None
  | Some book =>
      await book <- update_status book (newStatus book);
      resolve (Some (plain book))
  end.

Definition deleteBook (id : JS.jsnum) : Promise bool :=
  await found <- findByPk id;
  match found with
  | None => resolve false
  | Some book =>
      await _ <- destroy book;
      resolve true
  end.

Definition updateBookRating (id rating : JS.jsnum) : Promise (option Book.t) :=
  await found <- findByPk id;
  match found with
  | None => resolve None
  | Some book =>
      await book <- update_rating book rating;
      resolve (Some (plain book))
  end.

Definition store : RecordStore :=
  Build_RecordStore getAllBooks createBook toggleBookStatus deleteBook
                    updateBookRating.

End Orm.

(** The two layers of the repository. *)
Definition implementation (db : RecordStore) : Prop :=
  db = Raw.store \/ db = Orm.store.

(** ** The operations of the contract as data *)

Inductive Op : Type :=
| ListAll
| Create (title author : string) (now : Z)
| ToggleStatus (id : JS.jsnum)
| UpdateRating (id rating : JS.jsnum)
| Delete (id : JS.jsnum).

Inductive Answer : Type :=
| Books (l : list Book.t)
| Created (b : Book.t)
| Updated (b : option Book.t)
| Deleted (b : bool).

Definition answer {A} (f : A -> Answer) (p : Promise A) : Promise Answer :=
  fun s =>
  match p s with
  | (Resolve a, s') => (Resolve (f a), s')
  | (Reject err, s') => (Reject err, s')
  end.

Definition run (db : RecordStore) (op : Op) : Promise Answer :=
  match op with
  | ListAll => answer Books (getAllBooks db)
  | Create title author now => answer Created (createBook db title author now)
  | ToggleStatus id => answer Updated (toggleBookStatus db id)
  | UpdateRating id rating => answer Updated (updateBookRating db id rating)
  | Delete id => answer Deleted (deleteBook db id)
  end.

(** The states a store goes through from the empty table. *)
Inductive reachable : Store -> Prop :=
| reachable_empty : reachable empty_store
| reachable_step db op s :
    implementation db -> reachable s -> reachable (snd (run db op s)).

(** ** The Express routes *)

Module Api.

Inductive Body : Type :=
| JsonBooks (l : list Book.t)
| JsonBook (b : Book.t)
| JsonMessage (message : string)
| NoBody.

Record Response : Type := mkResponse {
  statusCode : Z;
  body : Body
}.

(** The calls a route makes on the store, in order. *)
Inductive StoreCall : Type :=
| getAllBooks_
| createBook_ (title author : string)
| toggleBookStatus_ (id : JS.jsnum)
| deleteBook_ (id : JS.jsnum)
| updateBookRating_ (id rating : JS.jsnum).

Definition Handler : Type := Store -> Response * Store * list StoreCall.

(** [res.status(code).json({ message })] before any call on the store *)
Definition refuse (code : Z) (message : string) : Handler :=
  fun s => (mkResponse code (JsonMessage message), s, []).

(** [try { const x = await call; respond(x) } catch { 500 }] *)
Definition invoke {A} (call : StoreCall) (p : Promise A)
    (respond : A -> Response) (failure : string) : Handler := fun s =>
  match p s with
  | (Resolve a, s') => (respond a, s', [call])
  | (Reject _, s') => (mkResponse 500 (JsonMessage failure), s', [call])
  end.

Section Routes.
Variable db : RecordStore.
Variable NumberToString : JS.jsnum -> string.

(** [GET /api/books] *)
Definition get_books : Handler :=
  invoke getAllBooks_ (getAllBooks db)
         (fun books => mkResponse 200 (JsonBooks books))
         "Failed to fetch books".

(** [POST /api/books] with the fields [title] and [author] of the body *)
Definition post_books (title author : JS.value) (now : Z) : Handler :=
  if negb (JS.ToBoolean title) || negb (JS.ToBoolean author) then
    refuse 400 "Title and author are required"
  else
    let title' := JS.trim (JS.ToString NumberToString title) in
    let author' := JS.trim (JS.ToString NumberToString author) in
    invoke (createBook_ title' author') (createBook db title' author' now)
           (fun book => mkResponse 201 (JsonBook book))
           "Failed to create book".

(** [PATCH /api/books/:id/toggle] *)
Definition patch_toggle (id_param : string) : Handler :=
  let id := JS.Number (JS.Str id_param) in
  if JS.isNaN id then refuse 400 "Invalid book id"
  else
    invoke (toggleBookStatus_ id) (toggleBookStatus db id)
           (fun book => match book with
                        | None => mkResponse 404 (JsonMessage "Book not found")
                        | Some b => mkResponse 200 (JsonBook b)
                        end)
           "Failed to update book".

(** [PATCH /api/books/:id/rating] with the field [rating] of the body *)
Definition patch_rating (id_param : string) (body_rating : JS.value)
  : Handler :=
  let id := JS.Number (JS.Str id_param) in
  let rating := JS.Number body_rating in
  if JS.isNaN id || JS.isNaN rating then refuse 400 "Invalid id or rating"
  else if JS.lt rating (JS.Fin 1) || JS.gt rating (JS.Fin 5) then
    refuse 400 "Rating must be between 1 and 5"
  else
    invoke (updateBookRating_ id rating) (updateBookRating db id rating)
           (fun book => match book with
                        | None => mkResponse 404 (JsonMessage "Book not found")
                        | Some b => mkResponse 200 (JsonBook b)
                        end)
           "Failed to update rating".

(** [DELETE /api/books/:id] *)
Definition delete_book (id_param : string) : Handler :=
  let id := JS.Number (JS.Str id_param) in
  if JS.isNaN id then refuse 400 "Invalid book id"
  else
    invoke (deleteBook_ id) (deleteBook db id)
           (fun deleted => if negb deleted
                           then mkResponse 404 (JsonMessage "Book not found")
                           else mkResponse 204 NoBody)
           "Failed to delete book".
End Routes.

End Api.

(** ** The server around the routes *)

Module Server.

(** [const PORT = Number(process.env.PORT) || 4000]; a variable of the
    environment is a string, or is not set. *)
Definition PORT (env_PORT : option string) : JS.jsnum :=
  let n := JS.Number (match env_PORT with
                      | Some text => JS.Str text
                      | None => JS.Undefined
                      end) in
  if JS.ToBoolean (JS.Num n) then n else JS.Fin 4000.

(** The requests that the five routes registered on [app] match. *)
Inductive Request : Type :=
| GET_books
| POST_books (title author : JS.value)
| PATCH_toggle (id : string)
| PATCH_rating (id : string) (rating : JS.value)
| DELETE_book (id : string).

(** The route of a request; [now] is the clock of the server. *)
Definition handle (db : RecordStore) (NumberToString : JS.jsnum -> string)
    (now : Z) (req : Request) : Api.Handler :=
  match req with
  | GET_books => Api.get_books db
  | POST_books title author => Api.post_books db NumberToString title author now
  | PATCH_toggle id => Api.patch_toggle db id
  | PATCH_rating id rating => Api.patch_rating db id rating
  | DELETE_book id => Api.delete_book db id
  end.

End Server.

(** ** The schema of the table, as the store over the driver sets it up *)

Module Schema.

(** A row of a table created before the column [rating] existed. *)
Record LegacyRow : Type := mkLegacyRow {
  title : string;
  author : string;
  status : BookStatus;
  createdAt : Z
}.

(** The file of the database: without the table, with the table of the
    first schema, or with the table that has the column [rating]. *)
Inductive Database : Type :=
| NoTable
| Legacy (rows : gmap Z LegacyRow) (sequence : Z)
| Current (s : Store).

(** [CREATE TABLE IF NOT EXISTS books (id, title, author, status,
    createdAt)]: nothing happens to a table that exists. *)
Definition create_table_if_not_exists (d : Database) : Database :=
  match d with
  | NoTable => Legacy ∅ 0
  | _ => d
  end.

(** [ALTER TABLE books ADD COLUMN rating INTEGER NOT NULL DEFAULT 0], the
    error of the engine ignored: every row takes the default; on a table
    that has the column the statement fails and changes nothing. *)
Definition add_column_rating (d : Database) : Database :=
  match d with
  | Legacy rows sequence =>
      Current (mkStore ((fun r => Row.mk (title r) (author r) (status r)
                                         (createdAt r) (JS.Fin 0)) <$> rows)
                       sequence)
  | _ => d
  end.

(** [db.serialize(() => { db.run(CREATE ...); db.run(ALTER ..., () => {}) })] *)
Definition initialize (d : Database) : Database :=
  add_column_rating (create_table_if_not_exists d).

End Schema.

(** ** The controller of the page ([App.tsx]) *)

#[global] Instance BookStatus_eq_dec : EqDecision BookStatus.
Proof. solve_decision. Defined.

Module Client.

(** The text of the error line: a text of the page, or the message of an
    exception that the runtime raised. *)
Inductive ErrorText : Type :=
| Text (message : string)
| RuntimeText.

(** The state of the component [App]. *)
Record State : Type := mk {
  books : list Book.t;
  loading : bool;
  error : ErrorText;
  title : string;
  author : string;
  highlightedId : option Z;
  toast : string
}.

Definition initial : State := mk [] true (Text "") "" "" None "".

Definition setBooks (f : list Book.t -> list Book.t) (c : State) : State :=
  mk (f (books c)) (loading c) (error c) (title c) (author c)
     (highlightedId c) (toast c).

Definition setLoading (b : bool) (c : State) : State :=
  mk (books c) b (error c) (title c) (author c) (highlightedId c) (toast c).

Definition setError (e : ErrorText) (c : State) : State :=
  mk (books c) (loading c) e (title c) (author c) (highlightedId c) (toast c).

Definition setTitle (t : string) (c : State) : State :=
  mk (books c) (loading c) (error c) t (author c) (highlightedId c) (toast c).

Definition setAuthor (a : string) (c : State) : State :=
  mk (books c) (loading c) (error c) (title c) a (highlightedId c) (toast c).

Definition setHighlightedId (h : option Z) (c : State) : State :=
  mk (books c) (loading c) (error c) (title c) (author c) h (toast c).

Definition setToast (t : string) (c : State) : State :=
  mk (books c) (loading c) (error c) (title c) (author c) (highlightedId c) t.

(** [res.ok] *)
Definition ok (res : Api.Response) : bool :=
  (200 <=? Api.statusCode res) && (Api.statusCode res <=? 299).

(** What [JSON.stringify] writes for a number: [null] for [NaN] and the
    infinities. *)
Definition stringify_number (n : JS.jsnum) : JS.value :=
  match n with
  | JS.Fin _ => JS.Num n
  | _ => JS.Null
  end.

Section Handlers.
Variable db : RecordStore.
Variable NumberToString : JS.jsnum -> string.

(** [fetch]: the request is answered by the routes of the server.  The body
    is read back from its JSON text; that gives the value that was written
    when the numbers of the books are finite. *)
Definition fetch (now : Z) (req : Server.Request) (s : Store)
  : Api.Response * Store :=
  let '(res, s', _) := Server.handle db NumberToString now req s in (res, s').

(** The page and the server.  A handler answers [None] when the body of a
    response is not of the type the handler casts it to. *)
Definition World : Type := State * Store.

Definition fetchBooks (now : Z) (w : World) : option World :=
  let '(c, s) := w in
  let c := setLoading true c in
  let '(res, s') := fetch now Server.GET_books s in
  if negb (ok res) then
    Some (setLoading false (setError (Text "無法取得書籍清單") c), s')
  else
    match Api.body res with
    | Api.JsonBooks data => Some (setLoading false (setBooks (fun _ => data) c), s')
    | Api.NoBody => Some (setLoading false (setError RuntimeText c), s')
    | _ => None
    end.

Definition handleAdd (now : Z) (w : World) : option World :=
  let '(c, s) := w in
  let c := setError (Text "") c in
  let trimmedTitle := JS.trim (title c) in
  let trimmedAuthor := JS.trim (author c) in
  if negb (JS.ToBoolean (JS.Str trimmedTitle))
     || negb (JS.ToBoolean (JS.Str trimmedAuthor)) then
    Some (setError (Text "請輸入書名與作者") c, s)
  else
    let '(res, s') :=
      fetch now (Server.POST_books (JS.Str trimmedTitle) (JS.Str trimmedAuthor)) s in
    if negb (ok res) then Some (setError (Text "新增失敗，請稍後重試") c, s')
    else
      match Api.body res with
      | Api.JsonBook newBook =>
          Some (setAuthor "" (setTitle "" (setBooks (cons newBook) c)), s')
      | Api.NoBody => Some (setError RuntimeText c, s')
      | _ => None
      end.

(** [prev.map((b) => (b.id === id ? updated : b))] *)
Definition replace_by_id (id : Z) (updated : Book.t) (prev : list Book.t)
  : list Book.t :=
  (fun b => if Z.eqb (Book.id b) id then updated else b) <$> prev.

Definition handleToggle (id : Z) (now : Z) (w : World) : option World :=
  let '(c, s) := w in
  let '(res, s') :=
    fetch now (Server.PATCH_toggle (NumberToString (JS.of_Z id))) s in
  if negb (ok res) then Some (setError (Text "更新狀態失敗") c, s')
  else
    match Api.body res with
    | Api.JsonBook updated => Some (setBooks (replace_by_id id updated) c, s')
    | Api.NoBody => Some (setError RuntimeText c, s')
    | _ => None
    end.

Definition handleDelete (id : Z) (now : Z) (w : World) : option World :=
  let '(c, s) := w in
  let '(res, s') :=
    fetch now (Server.DELETE_book (NumberToString (JS.of_Z id))) s in
  if negb (ok res) && negb (Api.statusCode res =? 204) then
    Some (setError (Text "刪除失敗") c, s')
  else
    Some (setBooks (List.filter (fun b => negb (Z.eqb (Book.id b) id))) c, s').

Definition handleRate (id : Z) (rating : JS.jsnum) (now : Z) (w : World)
  : option World :=
  let '(c, s) := w in
  let '(res, s') :=
    fetch now (Server.PATCH_rating (NumberToString (JS.of_Z id))
                                   (stringify_number rating)) s in
  if negb (ok res) then Some (setError (Text "評分更新失敗") c, s')
  else
    match Api.body res with
    | Api.JsonBook updated => Some (setBooks (replace_by_id id updated) c, s')
    | Api.NoBody => Some (setError RuntimeText c, s')
    | _ => None
    end.
End Handlers.

(** The five stars of the card of a book: a star is lit when
    [book.rating >= star]. *)
Definition stars (book : Book.t) : list bool :=
  (fun star => JS.ge (Book.rating book) (JS.of_Z star)) <$> [1; 2; 3; 4; 5].

(** [Math.floor(Math.random() * n)], [random] being the number that
    [Math.random()] returned: the product is rounded to a double, and is a
    number with a floor unless it is an infinity. *)
Definition random_index (random : Q) (n : nat) : option Z :=
  match JS.ToDouble (Qmult random (inject_Z (Z.of_nat n))) with
  | JS.Fin q => Some (Qfloor q)
  | _ => None
  end.

(** [Today's perfect read: ${pick.title}] *)
Definition perfect_read (pick : Book.t) : string :=
  String.append "Today's perfect read: " (Book.title pick).

(** [unread[i]]: [undefined] when the index is not one of the array. *)
Definition element (unread : list Book.t) (i : option Z) : option Book.t :=
  match i with
  | Some i => if i <? 0 then None else unread !! Z.to_nat i
  | None => None
  end.

(** [handleSurprise]; the timers that clear the toast are not part of the
    state.  Reading [pick.id] of a missing element raises an exception, and
    the state stays as it is. *)
Definition handleSurprise (random : Q) (c : State) : State :=
  let unread :=
    List.filter (fun b => bool_decide (Book.status b = UNREAD)) (books c) in
  if (length unread =? 0)%nat then setToast "沒有未讀的書籍了！" c
  else
    match element unread (random_index random (length unread)) with
    | Some pick => setToast (perfect_read pick) (setHighlightedId (Some (Book.id pick)) c)
    | None => c
    end.

End Client.

(** * The vocabulary of the properties *)

(** The store [s] with the table [t]. *)
Definition with_books (s : Store) (t : gmap Z Row.t) : Store :=
  mkStore t (sqlite_sequence s).

(** The row [r] with the rating [rating]. *)
Definition rated (rating : JS.jsnum) (r : Row.t) : Row.t :=
  Row.mk (Row.title r) (Row.author r) (Row.status r) (Row.createdAt r) rating.

(** Neither [NaN] nor an infinity. *)
Definition finite (x : JS.jsnum) : Prop :=
  match x with JS.Fin _ => True | _ => False end.

(** The inputs on which the layers are compared. *)
Definition admissible (op : Op) : Prop :=
  match op with
  | ListAll => True
  | Create title author now =>
      JS.trim title = title /\ JS.trim author = author /\ now mod 1000 = 0
  | ToggleStatus id | Delete id => finite id
  | UpdateRating id rating =>
      finite id /\ JS.le (JS.Fin 0) rating = true /\ JS.le rating (JS.Fin 5) = true
  end.

(** A book with its timestamp rewritten in the ISO format. *)
Definition in_iso_format (b : Book.t) : Book.t :=
  Book.mk (Book.id b) (Book.title b) (Book.author b) (Book.status b)
          (ISOString (instant (Book.createdAt b))) (Book.rating b).

(** The answer to an operation, the timestamps of its books rewritten. *)
Definition answer_in_iso_format (a : Result Answer) : Result Answer :=
  match a with
  | Resolve (Books l) => Resolve (Books (in_iso_format <$> l))
  | Resolve (Created b) => Resolve (Created (in_iso_format b))
  | Resolve (Updated b) => Resolve (Updated (in_iso_format <$> b))
  | other => other
  end.

(** Reduce the operations of a named layer to the functions of its module. *)
Ltac layer_ops :=
  cbn [run admissible getAllBooks createBook toggleBookStatus deleteBook
       updateBookRating Raw.store Orm.store] in *.

(** C1, as stated: on every operation and every input the two layers return
    equal results and leave equal stores. *)
Definition layers_identical : Prop :=
  forall op s, run Raw.store op s = run Orm.store op s.

(** The row a book was rendered from: its key and columns, the format of the
    timestamp forgotten. *)
Definition row_of_book (b : Book.t) : Z * Row.t :=
  (Book.id b,
   Row.mk (Book.title b) (Book.author b) (Book.status b)
          (instant (Book.createdAt b)) (Book.rating b)).

(** What the operations of a layer do to the table, given how the layer
    renders a row ([render]) and which row it writes for a new book
    ([new_row]). *)
Record contract (db : RecordStore) (render : Z * Row.t -> Book.t)
    (new_row : string -> string -> Z -> Row.t) : Prop := {
  render_row : forall x, row_of_book (render x) = x;
  new_row_defaults : forall title author now,
    Row.status (new_row title author now) = UNREAD
    /\ Row.rating (new_row title author now) = JS.Fin 0;
  new_row_text : forall title author now now',
    Row.title (new_row title author now) = Row.title (new_row title author now')
    /\ Row.author (new_row title author now) = Row.author (new_row title author now');
  list_all : forall s,
    getAllBooks db s = (Resolve (render <$> Sql.select_all_newest_first s), s);
  create_row : forall title author now s,
    createBook db title author now s =
    (Resolve (render (Sql.next_rowid s, new_row title author now)),
     mkStore (<[Sql.next_rowid s := new_row title author now]> (books s))
             (Sql.next_rowid s));
  toggle_row : forall k s,
    toggleBookStatus db (JS.of_Z k) s =
    match books s !! k with
    | Some r => (Resolve (Some (render (k, Sql.flip_status r))),
                 with_books s (<[k := Sql.flip_status r]> (books s)))
    | None => (Resolve None, s)
    end;
  rate_row : forall k rating s,
    JS.le (JS.Fin 0) rating = true -> JS.le rating (JS.Fin 5) = true ->
    updateBookRating db (JS.of_Z k) rating s =
    match books s !! k with
    | Some r => (Resolve (Some (render (k, rated rating r))),
                 with_books s (<[k := rated rating r]> (books s)))
    | None => (Resolve None, s)
    end;
  rate_row_frame : forall k r rating s,
    books s !! k = Some r ->
    snd (updateBookRating db (JS.of_Z k) rating s) = s
    \/ snd (updateBookRating db (JS.of_Z k) rating s)
       = with_books s (<[k := rated rating r]> (books s));
  delete_row : forall k s,
    deleteBook db (JS.of_Z k) s =
    match books s !! k with
    | Some _ => (Resolve true, with_books s (delete k (books s)))
    | None => (Resolve false, s)
    end
}.

(** A route that answers 400 with a message, without a call on the store. *)
Definition refused_400 (out : Api.Response * Store * list Api.StoreCall)
    (s : Store) : Prop :=
  Api.statusCode (fst (fst out)) = 400
  /\ (exists message, Api.body (fst (fst out)) = Api.JsonMessage message)
  /\ snd out = []
  /\ snd (fst out) = s.

(** An integer of 1..5. *)
Definition integer_in_1_5 (x : JS.jsnum) : bool :=
  match JS.integer_value x with
  | Some n => (1 <=? n) && (n <=? 5)
  | None => false
  end.

(** C3, as stated: an id that is not an integer, and a rating that is not an
    integer of 1..5, are answered 400 before any call on the store. *)
Definition non_integers_refused : Prop :=
  forall db id_param body_rating s,
    (JS.isInteger (JS.Number (JS.Str id_param)) = false ->
       refused_400 (Api.patch_toggle db id_param s) s
       /\ refused_400 (Api.patch_rating db id_param body_rating s) s
       /\ refused_400 (Api.delete_book db id_param s) s)
    /\ (integer_in_1_5 (JS.Number body_rating) = false ->
       refused_400 (Api.patch_rating db id_param body_rating s) s).

(** A store of one unread, unrated book. *)
Definition one_book : Store :=
  mkStore {[ 1 := Row.mk "Dune" "Herbert" UNREAD 0 (JS.Fin 0) ]} 1.

(** [a] comes before [b] when [a] is not older than [b]. *)
Definition newest_first (a b : Book.t) : Prop :=
  instant (Book.createdAt b) <= instant (Book.createdAt a).

(** Three books, the second one created with the earliest clock and the
    third with the latest, the first then toggled. *)
Definition three_books : Store :=
  snd (run Orm.store (ToggleStatus (JS.of_Z 1))
    (snd (run Raw.store (Create "Emma" "Austen" 9000)
      (snd (run Orm.store (Create "Ulysses" "Joyce" 1000)
        (snd (run Raw.store (Create "Dune" "Herbert" 5000) empty_store))))))).

(** The columns of two rows agree, the status apart. *)
Definition same_but_status (r r' : Row.t) : Prop :=
  Row.title r' = Row.title r /\ Row.author r' = Row.author r
  /\ Row.createdAt r' = Row.createdAt r /\ Row.rating r' = Row.rating r.

(** The columns of two rows agree, the rating apart. *)
Definition same_but_rating (r r' : Row.t) : Prop :=
  Row.title r' = Row.title r /\ Row.author r' = Row.author r
  /\ Row.createdAt r' = Row.createdAt r /\ Row.status r' = Row.status r.

(** [id] is the key of no row of the table. *)
Definition absent (id : JS.jsnum) (s : Store) : Prop :=
  forall k, JS.integer_value id = Some k -> books s !! k = None.

(** What an operation of a layer can do to the store: nothing, or what the
    operation is for.  A layer writes the title and the author it is given,
    or what [trim] makes of them. *)
Inductive effect (s : Store) : Op -> Store -> Prop :=
| effect_none op : effect s op s
| effect_insert title author now title' author' stamp :
    title' = title \/ title' = JS.trim title ->
    author' = author \/ author' = JS.trim author ->
    effect s (Create title author now)
           (mkStore (<[Sql.next_rowid s := Row.mk title' author' UNREAD stamp (JS.Fin 0)]>
                       (books s))
                    (Sql.next_rowid s))
| effect_toggle id k r :
    books s !! k = Some r ->
    effect s (ToggleStatus id) (with_books s (<[k := Sql.flip_status r]> (books s)))
| effect_rate id k r rating :
    books s !! k = Some r -> JS.isNaN rating = false ->
    effect s (UpdateRating id rating) (with_books s (<[k := rated rating r]> (books s)))
| effect_delete id k r :
    books s !! k = Some r ->
    effect s (Delete id) (with_books s (delete k (books s))).

(** The states a store goes through from [s]. *)
Inductive reachable_from (s : Store) : Store -> Prop :=
| reachable_here : reachable_from s s
| reachable_later db op s' :
    implementation db -> reachable_from s s' ->
    reachable_from s (snd (run db op s')).

(** The keys in use are keys that were handed out: positive, and not above
    the counter. *)
Definition keys_issued (s : Store) : Prop :=
  0 <= sqlite_sequence s
  /\ forall k r, books s !! k = Some r -> 1 <= k <= sqlite_sequence s.

(** The operation a request asks the store for, once the request has
    passed the tests of its route. *)
Definition requested (NumberToString : JS.jsnum -> string) (now : Z)
    (req : Server.Request) : option Op :=
  match req with
  | Server.GET_books => Some ListAll
  | Server.POST_books title author =>
      if JS.ToBoolean title && JS.ToBoolean author
      then Some (Create (JS.trim (JS.ToString NumberToString title))
                        (JS.trim (JS.ToString NumberToString author)) now)
      else None
  | Server.PATCH_toggle id =>
      if JS.isNaN (JS.Number (JS.Str id)) then None
      else Some (ToggleStatus (JS.Number (JS.Str id)))
  | Server.PATCH_rating id rating =>
      if JS.isNaN (JS.Number (JS.Str id)) || JS.isNaN (JS.Number rating) then None
      else if JS.le (JS.Fin 1) (JS.Number rating) && JS.le (JS.Number rating) (JS.Fin 5)
      then Some (UpdateRating (JS.Number (JS.Str id)) (JS.Number rating))
      else None
  | Server.DELETE_book id =>
      if JS.isNaN (JS.Number (JS.Str id)) then None
      else Some (Delete (JS.Number (JS.Str id)))
  end.

(** The stores that requests to the routes lead to, from the empty one. *)
Inductive served : Store -> Prop :=
| served_empty : served empty_store
| served_step db NumberToString now req s :
    implementation db -> served s ->
    served (snd (fst (Server.handle db NumberToString now req s))).

(** A row as the routes write rows: the rating is 0 or lies in [1,5], and
    the title and the author have no white space at either end. *)
Definition row_as_served (r : Row.t) : Prop :=
  (Row.rating r = JS.Fin 0
   \/ (JS.le (JS.Fin 1) (Row.rating r) = true /\ JS.le (Row.rating r) (JS.Fin 5) = true))
  /\ JS.trim (Row.title r) = Row.title r
  /\ JS.trim (Row.author r) = Row.author r.

(** A response, the timestamps of its books rewritten in the ISO format. *)
Definition response_in_iso_format (res : Api.Response) : Api.Response :=
  Api.mkResponse (Api.statusCode res)
    (match Api.body res with
     | Api.JsonBooks l => Api.JsonBooks (in_iso_format <$> l)
     | Api.JsonBook b => Api.JsonBook (in_iso_format b)
     | other => other
     end).

(** The requests on which the two layers are compared behind the routes:
    the id is not an infinity, and a book is created on a whole second. *)
Definition comparable (now : Z) (req : Server.Request) : Prop :=
  match req with
  | Server.GET_books => True
  | Server.POST_books _ _ => now mod 1000 = 0
  | Server.PATCH_toggle id | Server.PATCH_rating id _ | Server.DELETE_book id =>
      forall negative, JS.Number (JS.Str id) <> JS.Infinity negative
  end.

(** The operations that the routes ask for: a title and an author that are
    trimmed, a rating of [1,5]. *)
Definition op_as_served (op : Op) : Prop :=
  match op with
  | Create title author _ => JS.trim title = title /\ JS.trim author = author
  | UpdateRating _ rating =>
      JS.le (JS.Fin 1) rating = true /\ JS.le rating (JS.Fin 5) = true
  | _ => True
  end.

(** The status codes the routes answer with. *)
Definition status_codes : list Z := [200; 201; 204; 400; 404; 500].

(** The status code a route answers with, from the way the operation it
    asked for has settled. *)
Definition status_of (a : Result Answer) : Z :=
  match a with
  | Resolve (Books _) => 200
  | Resolve (Created _) => 201
  | Resolve (Updated (Some _)) => 200
  | Resolve (Updated None) => 404
  | Resolve (Deleted true) => 204
  | Resolve (Deleted false) => 404
  | Reject _ => 500
  end.

(** A store reached through the routes: one book, created with an
    ideographic space before its title and a space after it, then rated 4. *)
Definition served_example : Store :=
  snd (fst (Server.handle Raw.store (fun _ => "0"%string) 0
              (Server.PATCH_rating "1" (JS.Str "4"))
     (snd (fst (Server.handle Orm.store (fun _ => "0"%string) 0
                  (Server.POST_books (JS.Str "　Dune ") (JS.Str "Herbert"))
                  empty_store))))).

(** What the user does on the page. *)
Inductive Action : Type :=
| Load
| Add
| Toggle (id : Z)
| Rate (id : Z) (rating : JS.jsnum)
| Remove (id : Z).

(** The handler of the page for an action. *)
Definition act (db : RecordStore) (NumberToString : JS.jsnum -> string)
    (now : Z) (a : Action) : Client.World -> option Client.World :=
  match a with
  | Load => Client.fetchBooks db NumberToString now
  | Add => Client.handleAdd db NumberToString now
  | Toggle id => Client.handleToggle db NumberToString id now
  | Rate id rating => Client.handleRate db NumberToString id rating now
  | Remove id => Client.handleDelete db NumberToString id now
  end.

(** The id of an action, written into the path of its request, is read back
    by the route as the same number. *)
Definition path_round_trip (NumberToString : JS.jsnum -> string) (a : Action)
  : Prop :=
  match a with
  | Toggle id | Rate id _ | Remove id =>
      JS.Number (JS.Str (NumberToString (JS.of_Z id))) = JS.of_Z id
  | _ => True
  end.

(** The list of the page holds the books that the store would list, in some
    order. *)
Definition in_step (db : RecordStore) (c : Client.State) (s : Store) : Prop :=
  exists l, getAllBooks db s = (Resolve l, s) /\ Client.books c ≡ₚ l.

(** The text of the error line is a text of the page. *)
Definition page_text (e : Client.ErrorText) : Prop :=
  exists message, e = Client.Text message.

(** The page with three books, the second one READ. *)
Definition shelf : Client.State :=
  Client.mk [Book.mk 3 "Emma" "Austen" UNREAD (ISOString 9000) (JS.Fin 0);
             Book.mk 2 "Ulysses" "Joyce" READ (ISOString 1000) (JS.Fin 4);
             Book.mk 1 "Dune" "Herbert" UNREAD (ISOString 5000) (JS.Fin 0)]
            false (Client.Text "") "" "" None "".

(** * Properties *)

(** ** Numbers and keys *)

Lemma integer_value_of_Z (k : Z) : JS.integer_value (JS.of_Z k) = Some k.
Proof.
  unfold JS.integer_value, JS.of_Z. rewrite Qfloor_Z.
  assert (Qeq_bool (inject_Z k) (inject_Z k) = true) as ->; [|done].
  apply Qeq_bool_iff. reflexivity.
Qed.

Lemma select_by_id_of_Z (k : Z) (s : Store) :
  Sql.select_by_id (JS.of_Z k) s = pair k <$> books s !! k.
Proof.
  unfold Sql.select_by_id. rewrite integer_value_of_Z.
  by destruct (books s !! k).
Qed.

Lemma select_by_id_Some id s k r :
  Sql.select_by_id id s = Some (k, r) ->
  JS.integer_value id = Some k /\ books s !! k = Some r.
Proof.
  unfold Sql.select_by_id. destruct (JS.integer_value id) as [k'|]; [|done].
  destruct (books s !! k') as [r'|] eqn:E; [|done]. by intros [= <- <-].
Qed.

Lemma select_by_id_None id s :
  Sql.select_by_id id s = None ->
  forall k, JS.integer_value id = Some k -> books s !! k = None.
Proof.
  unfold Sql.select_by_id. intros H k Hk. rewrite Hk in H.
  by destruct (books s !! k).
Qed.

Lemma max_rowid_lower t lo : lo <= Sql.max_rowid t lo.
Proof.
  unfold Sql.max_rowid. induction (fst <$> map_to_list t) as [|x l IH]; simpl; lia.
Qed.

Lemma max_rowid_upper (t : gmap Z Row.t) lo k r :
  t !! k = Some r -> k <= Sql.max_rowid t lo.
Proof.
  intros H. apply elem_of_map_to_list in H.
  assert (k ∈ fst <$> map_to_list t) as Hk.
  { apply list_elem_of_fmap. by exists (k, r). }
  unfold Sql.max_rowid. clear H.
  induction (fst <$> map_to_list t) as [|x l IH]; [by apply elem_of_nil in Hk|].
  apply elem_of_cons in Hk as [<- | Hk]; simpl; [lia|].
  specialize (IH Hk). lia.
Qed.

(** The key of the next row is in use nowhere. *)
Lemma next_rowid_fresh (s : Store) : books s !! Sql.next_rowid s = None.
Proof.
  destruct (books s !! Sql.next_rowid s) as [r|] eqn:E; [|done].
  apply (max_rowid_upper _ (sqlite_sequence s)) in E.
  unfold Sql.next_rowid in E. lia.
Qed.

Lemma next_rowid_above_sequence (s : Store) : sqlite_sequence s < Sql.next_rowid s.
Proof.
  unfold Sql.next_rowid. pose proof (max_rowid_lower (books s) (sqlite_sequence s)). lia.
Qed.

(** ** The ordered listing *)

#[global] Instance newer_first_total : Total Sql.newer_first.
Proof. intros a b. unfold Sql.newer_first. lia. Qed.

#[global] Instance newer_first_trans : Transitive Sql.newer_first.
Proof. intros a b c. unfold Sql.newer_first. lia. Qed.

Lemma select_all_Permutation (s : Store) :
  Sql.select_all_newest_first s ≡ₚ map_to_list (books s).
Proof. apply merge_sort_Permutation. Qed.

Lemma select_all_sorted (s : Store) :
  StronglySorted Sql.newer_first (Sql.select_all_newest_first s).
Proof. apply StronglySorted_merge_sort; apply _. Qed.

Lemma select_all_insert (s : Store) k r q :
  books s !! k = None ->
  Sql.select_all_newest_first (mkStore (<[k := r]> (books s)) q)
  ≡ₚ (k, r) :: Sql.select_all_newest_first s.
Proof.
  intros H. rewrite !select_all_Permutation. simpl.
  by apply map_to_list_insert.
Qed.

Lemma elem_of_select_all (s : Store) k r :
  (k, r) ∈ Sql.select_all_newest_first s <-> books s !! k = Some r.
Proof. rewrite select_all_Permutation. apply elem_of_map_to_list. Qed.

(** ** What each operation of each layer computes *)

Lemma select_by_id_insert id k r (t : gmap Z Row.t) q :
  JS.integer_value id = Some k ->
  Sql.select_by_id id (mkStore (<[k := r]> t) q) = Some (k, r).
Proof.
  intros H. unfold Sql.select_by_id. rewrite H. simpl. by rewrite lookup_insert_eq.
Qed.

Lemma select_by_id_delete id k (t : gmap Z Row.t) q :
  JS.integer_value id = Some k ->
  Sql.select_by_id id (mkStore (delete k t) q) = None.
Proof.
  intros H. unfold Sql.select_by_id. rewrite H. simpl. by rewrite lookup_delete_eq.
Qed.

Lemma Raw_createBook_eq title author now s :
  Raw.createBook title author now s =
  (Resolve (Raw.mapRowToBook
              (Sql.next_rowid s,
               Row.mk title author UNREAD (Sql.CURRENT_TIMESTAMP now) (JS.Fin 0))),
   mkStore (<[Sql.next_rowid s :=
                Row.mk title author UNREAD (Sql.CURRENT_TIMESTAMP now) (JS.Fin 0)]>
              (books s))
           (Sql.next_rowid s)).
Proof.
  unfold Raw.createBook, Sql.insert.
  by rewrite (select_by_id_insert _ _ _ _ _ (integer_value_of_Z _)).
Qed.

Lemma Orm_createBook_eq title author now s :
  Orm.createBook title author now s =
  (Resolve (Orm.plain
              (Sql.next_rowid s,
               Row.mk (JS.trim title) (JS.trim author) UNREAD now (JS.Fin 0))),
   mkStore (<[Sql.next_rowid s :=
                Row.mk (JS.trim title) (JS.trim author) UNREAD now (JS.Fin 0)]>
              (books s))
           (Sql.next_rowid s)).
Proof. reflexivity. Qed.

Lemma Raw_toggle_found id k r s :
  Sql.select_by_id id s = Some (k, r) ->
  Raw.toggleBookStatus id s =
  (Resolve (Some (Raw.mapRowToBook (k, Sql.flip_status r))),
   with_books s (<[k := Sql.flip_status r]> (books s))).
Proof.
  intros H. unfold Raw.toggleBookStatus, Sql.update_by_id. rewrite H. simpl.
  apply select_by_id_Some in H as [H _].
  by rewrite (select_by_id_insert _ _ _ _ _ H).
Qed.

Lemma Raw_toggle_missing id s :
  Sql.select_by_id id s = None ->
  Raw.toggleBookStatus id s = (Resolve None, s).
Proof. intros H. unfold Raw.toggleBookStatus, Sql.update_by_id. by rewrite H. Qed.

Lemma Orm_toggle_found q k r s :
  Sql.select_by_id (JS.Fin q) s = Some (k, r) ->
  Orm.toggleBookStatus (JS.Fin q) s =
  (Resolve (Some (Orm.plain (k, Sql.flip_status r))),
   with_books s (<[k := Sql.flip_status r]> (books s))).
Proof.
  intros H. unfold Orm.toggleBookStatus, Orm.bind, Orm.findByPk. rewrite H.
  apply select_by_id_Some in H as [_ H].
  unfold Orm.update_status, Sql.update_by_id. simpl.
  by rewrite select_by_id_of_Z, H.
Qed.

Lemma Orm_toggle_missing q s :
  Sql.select_by_id (JS.Fin q) s = None ->
  Orm.toggleBookStatus (JS.Fin q) s = (Resolve None, s).
Proof. intros H. unfold Orm.toggleBookStatus, Orm.bind, Orm.findByPk. by rewrite H. Qed.

Lemma Raw_rating_found id k r rating s :
  Sql.select_by_id id s = Some (k, r) -> JS.isNaN rating = false ->
  Raw.updateBookRating id rating s =
  (Resolve (Some (Raw.mapRowToBook (k, rated rating r))),
   with_books s (<[k := rated rating r]> (books s))).
Proof.
  intros H Hn. unfold Raw.updateBookRating, Sql.update_by_id, Sql.set_rating.
  rewrite H, Hn. simpl. apply select_by_id_Some in H as [H _].
  by rewrite (select_by_id_insert _ _ _ _ _ H).
Qed.

Lemma Raw_rating_NaN id k r s :
  Sql.select_by_id id s = Some (k, r) ->
  Raw.updateBookRating id JS.NaN s = (Reject DatabaseError, s).
Proof.
  intros H. unfold Raw.updateBookRating, Sql.update_by_id, Sql.set_rating.
  by rewrite H.
Qed.

Lemma Raw_rating_missing id rating s :
  Sql.select_by_id id s = None ->
  Raw.updateBookRating id rating s = (Resolve None, s).
Proof. intros H. unfold Raw.updateBookRating, Sql.update_by_id. by rewrite H. Qed.

Lemma Orm_rating_found q k r rating s :
  Sql.select_by_id (JS.Fin q) s = Some (k, r) -> JS.isNaN rating = false ->
  Orm.validate_rating rating = true ->
  Orm.updateBookRating (JS.Fin q) rating s =
  (Resolve (Some (Orm.plain (k, rated rating r))),
   with_books s (<[k := rated rating r]> (books s))).
Proof.
  intros H Hn Hv.
  unfold Orm.updateBookRating, Orm.bind, Orm.findByPk. rewrite H.
  apply select_by_id_Some in H as [_ H].
  unfold Orm.update_rating, Sql.update_by_id, Sql.set_rating. simpl.
  by rewrite Hv, select_by_id_of_Z, H, Hn.
Qed.

Lemma Orm_rating_refused q k r rating s :
  Sql.select_by_id (JS.Fin q) s = Some (k, r) ->
  Orm.validate_rating rating = false ->
  Orm.updateBookRating (JS.Fin q) rating s = (Reject ValidationError, s).
Proof.
  intros H Hv.
  unfold Orm.updateBookRating, Orm.bind, Orm.findByPk, Orm.update_rating.
  by rewrite H, Hv.
Qed.

Lemma Orm_rating_NaN q k r s :
  Sql.select_by_id (JS.Fin q) s = Some (k, r) ->
  Orm.updateBookRating (JS.Fin q) JS.NaN s = (Reject DatabaseError, s).
Proof.
  intros H.
  unfold Orm.updateBookRating, Orm.bind, Orm.findByPk. rewrite H.
  apply select_by_id_Some in H as [_ H].
  unfold Orm.update_rating, Sql.update_by_id, Sql.set_rating. simpl.
  by rewrite select_by_id_of_Z, H.
Qed.

Lemma Orm_rating_missing q rating s :
  Sql.select_by_id (JS.Fin q) s = None ->
  Orm.updateBookRating (JS.Fin q) rating s = (Resolve None, s).
Proof. intros H. unfold Orm.updateBookRating, Orm.bind, Orm.findByPk. by rewrite H. Qed.

Lemma Raw_delete_eq id s :
  Raw.deleteBook id s =
  match Sql.select_by_id id s with
  | Some (k, _) => (Resolve true, with_books s (delete k (books s)))
  | None => (Resolve false, s)
  end.
Proof.
  unfold Raw.deleteBook, Sql.delete_by_id.
  by destruct (Sql.select_by_id id s) as [[k r]|].
Qed.

Lemma Orm_delete_eq q s :
  Orm.deleteBook (JS.Fin q) s =
  match Sql.select_by_id (JS.Fin q) s with
  | Some (k, _) => (Resolve true, with_books s (delete k (books s)))
  | None => (Resolve false, s)
  end.
Proof.
  unfold Orm.deleteBook, Orm.bind, Orm.findByPk.
  destruct (Sql.select_by_id (JS.Fin q) s) as [[k r]|] eqn:E; [|done].
  apply select_by_id_Some in E as [_ E].
  unfold Orm.destroy, Sql.delete_by_id. simpl.
  by rewrite select_by_id_of_Z, E.
Qed.

(** ** The two layers side by side (C1) *)

Lemma in_iso_format_mapRowToBook row :
  in_iso_format (Raw.mapRowToBook row) = Orm.plain row.
Proof. by destruct row. Qed.

Lemma in_iso_format_plain row : in_iso_format (Orm.plain row) = Orm.plain row.
Proof. by destruct row. Qed.

Lemma CURRENT_TIMESTAMP_whole_second now :
  now mod 1000 = 0 -> Sql.CURRENT_TIMESTAMP now = now.
Proof. intros H. unfold Sql.CURRENT_TIMESTAMP. pose proof (Z.div_mod now 1000). lia. Qed.

Lemma le_not_NaN x y : JS.le x y = true -> JS.isNaN x = false /\ JS.isNaN y = false.
Proof. by destruct x as [|[]|], y as [|[]|]. Qed.

(** C1 (counterexample): with a title that starts with a space the raw
    driver stores the title as given and the ORM stores it trimmed; and asked
    for the rating 7 on one and the same store, the raw driver writes it and
    the ORM rejects it. *)
Lemma C1_layers_differ :
  snd (run Raw.store (Create " Dune" "Herbert" 0) empty_store)
    = mkStore {[ 1 := Row.mk " Dune" "Herbert" UNREAD 0 (JS.Fin 0) ]} 1
  /\ snd (run Orm.store (Create " Dune" "Herbert" 0) empty_store)
    = mkStore {[ 1 := Row.mk "Dune" "Herbert" UNREAD 0 (JS.Fin 0) ]} 1
  /\ (let s := mkStore {[ 1 := Row.mk "Dune" "Herbert" UNREAD 0 (JS.Fin 0) ]} 1 in
      run Raw.store (UpdateRating (JS.of_Z 1) (JS.of_Z 7)) s
        = (Resolve (Updated (Some (Book.mk 1 "Dune" "Herbert" UNREAD
                                           (SqliteDatetime 0) (JS.of_Z 7)))),
           mkStore {[ 1 := Row.mk "Dune" "Herbert" UNREAD 0 (JS.of_Z 7) ]} 1)
      /\ run Orm.store (UpdateRating (JS.of_Z 1) (JS.of_Z 7)) s
        = (Reject ValidationError, s))
  /\ ~ layers_identical.
Proof.
  split; [by vm_compute|]. split; [by vm_compute|]. split; [by vm_compute|].
  intros H. specialize (H (Create " Dune" "Herbert" 0) empty_store).
  vm_compute in H. discriminate H.
Qed.

(** C1 (amended): on one and the same store, for a title and an author
    without white space at either end, a finite id, a rating in [0,5] and a
    clock on a whole second, the two layers leave equal stores and return
    the same answer once the timestamps are written in one format. *)
Theorem C1_layers_agree (op : Op) (s : Store) :
  admissible op ->
  snd (run Raw.store op s) = snd (run Orm.store op s)
  /\ answer_in_iso_format (fst (run Raw.store op s))
     = answer_in_iso_format (fst (run Orm.store op s)).
Proof.
  destruct op as [|title author now|id|id rating|id]; layer_ops.
  - intros _. split; [done|]. simpl. f_equal. f_equal.
    rewrite <- !list_fmap_compose. apply list_fmap_ext.
    intros _ row _. simpl.
    by rewrite in_iso_format_mapRowToBook, in_iso_format_plain.
  - intros (Ht & Ha & Hnow). unfold answer.
    rewrite Raw_createBook_eq, Orm_createBook_eq.
    rewrite Ht, Ha, (CURRENT_TIMESTAMP_whole_second _ Hnow). done.
  - destruct id as [| |q]; [done..|]. intros _. unfold answer.
    destruct (Sql.select_by_id (JS.Fin q) s) as [[k r]|] eqn:E.
    + by rewrite (Raw_toggle_found _ _ _ _ E), (Orm_toggle_found _ _ _ _ E).
    + by rewrite (Raw_toggle_missing _ _ E), (Orm_toggle_missing _ _ E).
  - destruct id as [| |q]; [intros []; done..|]. intros (_ & Hlo & Hhi).
    unfold answer.
    assert (JS.isNaN rating = false) as Hn by (by apply le_not_NaN in Hhi as []).
    assert (Orm.validate_rating rating = true) as Hv.
    { unfold Orm.validate_rating, JS.ge. by rewrite Hlo, Hhi, !orb_true_r. }
    destruct (Sql.select_by_id (JS.Fin q) s) as [[k r]|] eqn:E.
    + by rewrite (Raw_rating_found _ _ _ _ _ E Hn), (Orm_rating_found _ _ _ _ _ E Hn Hv).
    + by rewrite (Raw_rating_missing _ _ _ E), (Orm_rating_missing _ _ _ E).
  - destruct id as [| |q]; [done..|]. intros _. unfold answer.
    rewrite Raw_delete_eq, Orm_delete_eq.
    by destruct (Sql.select_by_id (JS.Fin q) s) as [[k r]|].
Qed.

(** C1 (witness): a rating of 4 for the book 1 of the store of one book, and
    a second book created on it at a whole second. *)
Lemma C1_layers_agree_witness :
  (snd (run Raw.store (UpdateRating (JS.of_Z 1) (JS.of_Z 4)) one_book)
   = snd (run Orm.store (UpdateRating (JS.of_Z 1) (JS.of_Z 4)) one_book)
   /\ answer_in_iso_format
        (fst (run Raw.store (UpdateRating (JS.of_Z 1) (JS.of_Z 4)) one_book))
      = answer_in_iso_format
          (fst (run Orm.store (UpdateRating (JS.of_Z 1) (JS.of_Z 4)) one_book)))
  /\ (snd (run Raw.store (Create "Emma" "Jane Austen" 86400000) one_book)
      = snd (run Orm.store (Create "Emma" "Jane Austen" 86400000) one_book)
      /\ answer_in_iso_format
           (fst (run Raw.store (Create "Emma" "Jane Austen" 86400000) one_book))
         = answer_in_iso_format
             (fst (run Orm.store (Create "Emma" "Jane Austen" 86400000) one_book))).
Proof.
  split.
  - apply (C1_layers_agree (UpdateRating (JS.of_Z 1) (JS.of_Z 4)) one_book).
    repeat split.
  - apply (C1_layers_agree (Create "Emma" "Jane Austen" 86400000) one_book).
    repeat split.
Defined.

(** ** The contract both layers meet *)

Lemma select_by_id_of_Z_Some k r s :
  books s !! k = Some r -> Sql.select_by_id (JS.of_Z k) s = Some (k, r).
Proof. intros H. by rewrite select_by_id_of_Z, H. Qed.

Lemma select_by_id_of_Z_None k s :
  books s !! k = None -> Sql.select_by_id (JS.of_Z k) s = None.
Proof. intros H. by rewrite select_by_id_of_Z, H. Qed.

Lemma validate_rating_in_range rating :
  JS.le (JS.Fin 0) rating = true -> JS.le rating (JS.Fin 5) = true ->
  Orm.validate_rating rating = true.
Proof.
  intros Hlo Hhi. unfold Orm.validate_rating, JS.ge.
  by rewrite Hlo, Hhi, !orb_true_r.
Qed.

Lemma Raw_contract :
  contract Raw.store Raw.mapRowToBook
           (fun title author now =>
              Row.mk title author UNREAD (Sql.CURRENT_TIMESTAMP now) (JS.Fin 0)).
Proof.
  split; layer_ops.
  - by intros [k []].
  - done.
  - done.
  - done.
  - apply Raw_createBook_eq.
  - intros k s. destruct (books s !! k) as [r|] eqn:E.
    + apply Raw_toggle_found. by apply select_by_id_of_Z_Some.
    + apply Raw_toggle_missing. by apply select_by_id_of_Z_None.
  - intros k rating s _ Hhi. destruct (books s !! k) as [r|] eqn:E.
    + apply Raw_rating_found; [by apply select_by_id_of_Z_Some|].
      by apply le_not_NaN in Hhi as [].
    + apply Raw_rating_missing. by apply select_by_id_of_Z_None.
  - intros k r rating s E. apply select_by_id_of_Z_Some in E.
    destruct (JS.isNaN rating) eqn:Hn.
    + left. destruct rating; try done. by rewrite (Raw_rating_NaN _ _ _ _ E).
    + right. by rewrite (Raw_rating_found _ _ _ _ _ E Hn).
  - intros k s. rewrite Raw_delete_eq, select_by_id_of_Z.
    by destruct (books s !! k).
Qed.

Lemma Orm_contract :
  contract Orm.store Orm.plain
           (fun title author now =>
              Row.mk (JS.trim title) (JS.trim author) UNREAD now (JS.Fin 0)).
Proof.
  split; layer_ops.
  - by intros [k []].
  - done.
  - done.
  - done.
  - apply Orm_createBook_eq.
  - intros k s. destruct (books s !! k) as [r|] eqn:E.
    + apply Orm_toggle_found. by apply select_by_id_of_Z_Some.
    + apply Orm_toggle_missing. by apply select_by_id_of_Z_None.
  - intros k rating s Hlo Hhi. destruct (books s !! k) as [r|] eqn:E.
    + apply Orm_rating_found; [by apply select_by_id_of_Z_Some| |].
      * by apply le_not_NaN in Hhi as [].
      * by apply validate_rating_in_range.
    + apply Orm_rating_missing. by apply select_by_id_of_Z_None.
  - intros k r rating s E. apply select_by_id_of_Z_Some in E.
    destruct (Orm.validate_rating rating) eqn:Hv.
    + destruct (JS.isNaN rating) eqn:Hn.
      * left. destruct rating; try done.
        unfold JS.of_Z. by rewrite (Orm_rating_NaN _ _ _ _ E).
      * right. unfold JS.of_Z. by rewrite (Orm_rating_found _ _ _ _ _ E Hn Hv).
    + left. unfold JS.of_Z. by rewrite (Orm_rating_refused _ _ _ _ _ E Hv).
  - intros k s. unfold JS.of_Z. rewrite Orm_delete_eq.
    fold (JS.of_Z k). rewrite select_by_id_of_Z.
    by destruct (books s !! k).
Qed.

Lemma implementation_contract db :
  implementation db -> exists render new_row, contract db render new_row.
Proof.
  intros [-> | ->]; eauto using Raw_contract, Orm_contract.
Qed.

(** ** The validation in the routes (C2, C3) *)

(** What the POST route does refuse: a field that is missing or falsy, the
    empty string included. *)
Lemma post_books_falsy_refused db NumberToString title author now s :
  JS.ToBoolean title = false \/ JS.ToBoolean author = false ->
  refused_400 (Api.post_books db NumberToString title author now s) s.
Proof.
  intros H. unfold Api.post_books.
  assert (negb (JS.ToBoolean title) || negb (JS.ToBoolean author) = true) as ->.
  { destruct H as [-> | ->]; [done | by rewrite orb_true_r]. }
  repeat split; eauto.
Qed.

Lemma post_books_falsy_refused_witness :
  refused_400 (Api.post_books Orm.store (fun _ => "0"%string) JS.Undefined
                              (JS.Str "Herbert") 0 empty_store) empty_store
  /\ refused_400 (Api.post_books Orm.store (fun _ => "0"%string) (JS.Str "Dune")
                                 (JS.Str "") 0 empty_store) empty_store.
Proof.
  split.
  - apply post_books_falsy_refused. left. reflexivity.
  - apply post_books_falsy_refused. right. reflexivity.
Defined.

(** C2 (the code at the failing input): a title of three spaces is blank
    after trimming, yet POST answers 201 and the store has created the book
    with an empty title; so it is with either layer behind the route. *)
Theorem C2_blank_title_is_created (NumberToString : JS.jsnum -> string) :
  JS.trim "   " = ""
  /\ Api.post_books Orm.store NumberToString (JS.Str "   ") (JS.Str "Herbert") 0
                    empty_store
     = (Api.mkResponse 201
          (Api.JsonBook (Book.mk 1 "" "Herbert" UNREAD (ISOString 0) (JS.Fin 0))),
        mkStore {[ 1 := Row.mk "" "Herbert" UNREAD 0 (JS.Fin 0) ]} 1,
        [Api.createBook_ "" "Herbert"])
  /\ Api.post_books Raw.store NumberToString (JS.Str "   ") (JS.Str "Herbert") 0
                    empty_store
     = (Api.mkResponse 201
          (Api.JsonBook (Book.mk 1 "" "Herbert" UNREAD (SqliteDatetime 0) (JS.Fin 0))),
        mkStore {[ 1 := Row.mk "" "Herbert" UNREAD 0 (JS.Fin 0) ]} 1,
        [Api.createBook_ "" "Herbert"]).
Proof. repeat split. Qed.

(** C3 (counterexample): the ids 1.5 and .5 are numbers and not integers;
    the toggle route and the delete route pass them to the store and answer
    404.  The rating 2.5 is a number of [1,5] and not an integer; the rating
    route passes it to the store, which writes it, and answers 200, with
    either layer. *)
Lemma C3_fraction_reaches_store :
  JS.isInteger (JS.Number (JS.Str "1.5")) = false
  /\ Api.patch_toggle Orm.store "1.5" empty_store
     = (Api.mkResponse 404 (Api.JsonMessage "Book not found"), empty_store,
        [Api.toggleBookStatus_ (JS.Fin (3 # 2))])
  /\ JS.isInteger (JS.Number (JS.Str ".5")) = false
  /\ Api.delete_book Orm.store ".5" one_book
     = (Api.mkResponse 404 (Api.JsonMessage "Book not found"), one_book,
        [Api.deleteBook_ (JS.Fin (1 # 2))])
  /\ integer_in_1_5 (JS.Number (JS.Num (JS.Fin (5 # 2)))) = false
  /\ Api.patch_rating Raw.store "1" (JS.Num (JS.Fin (5 # 2))) one_book
     = (Api.mkResponse 200
          (Api.JsonBook (Book.mk 1 "Dune" "Herbert" UNREAD (SqliteDatetime 0)
                                 (JS.Fin (5 # 2)))),
        mkStore {[ 1 := Row.mk "Dune" "Herbert" UNREAD 0 (JS.Fin (5 # 2)) ]} 1,
        [Api.updateBookRating_ (JS.Fin 1) (JS.Fin (5 # 2))])
  /\ Api.patch_rating Orm.store "1" (JS.Num (JS.Fin (5 # 2))) one_book
     = (Api.mkResponse 200
          (Api.JsonBook (Book.mk 1 "Dune" "Herbert" UNREAD (ISOString 0)
                                 (JS.Fin (5 # 2)))),
        mkStore {[ 1 := Row.mk "Dune" "Herbert" UNREAD 0 (JS.Fin (5 # 2)) ]} 1,
        [Api.updateBookRating_ (JS.Fin 1) (JS.Fin (5 # 2))])
  /\ ~ non_integers_refused.
Proof.
  repeat (split; [by vm_compute|]).
  intros H. destruct (H Orm.store "1.5"%string JS.Null empty_store) as [H1 _].
  destruct (H1 eq_refl) as [(H400 & _) _]. vm_compute in H400. discriminate H400.
Qed.

(** The rating route refuses a rating that is not a number, or below 1, or
    above 5. *)
Lemma rating_out_of_range_refused db id_param body_rating s :
  JS.isNaN (JS.Number body_rating) = true
  \/ JS.lt (JS.Number body_rating) (JS.Fin 1) || JS.gt (JS.Number body_rating) (JS.Fin 5) = true ->
  refused_400 (Api.patch_rating db id_param body_rating s) s.
Proof.
  intros H. unfold Api.patch_rating.
  destruct (JS.isNaN (JS.Number (JS.Str id_param)) || JS.isNaN (JS.Number body_rating))
    eqn:E; [repeat split; eauto|].
  apply orb_false_elim in E as [_ E].
  destruct H as [H | H]; [congruence|]. rewrite H. repeat split; eauto.
Qed.

(** C3 (amended): an id that is not a number ([Number] of the path segment
    is [NaN]) is answered 400 by the three routes before any call on the
    store; so is, by the rating route, a rating that is not a number, or
    below 1, or above 5. *)
Theorem C3_not_a_number_refused db id_param body_rating s :
  (JS.isNaN (JS.Number (JS.Str id_param)) = true ->
     refused_400 (Api.patch_toggle db id_param s) s
     /\ refused_400 (Api.patch_rating db id_param body_rating s) s
     /\ refused_400 (Api.delete_book db id_param s) s)
  /\ (JS.isNaN (JS.Number body_rating) = true
      \/ JS.lt (JS.Number body_rating) (JS.Fin 1) = true
      \/ JS.gt (JS.Number body_rating) (JS.Fin 5) = true ->
     refused_400 (Api.patch_rating db id_param body_rating s) s).
Proof.
  split.
  - intros H. unfold Api.patch_toggle, Api.patch_rating, Api.delete_book.
    rewrite H. repeat split; eauto.
  - intros H. apply rating_out_of_range_refused.
    destruct H as [H | [H | H]]; [by left| |]; right; rewrite H;
      by rewrite ?orb_true_r.
Qed.

(** C3 (witness): the segment abc, and a rating of 7. *)
Lemma C3_not_a_number_refused_witness :
  refused_400 (Api.patch_toggle Orm.store "abc" empty_store) empty_store
  /\ refused_400 (Api.patch_rating Orm.store "1" (JS.Num (JS.of_Z 7)) empty_store)
                 empty_store.
Proof.
  split.
  - apply (C3_not_a_number_refused Orm.store "abc" JS.Null empty_store).
    reflexivity.
  - apply (C3_not_a_number_refused Orm.store "1" (JS.Num (JS.of_Z 7)) empty_store).
    right. right. reflexivity.
Defined.

(** ** Ratings (C4) *)

Lemma le_of_Z a b : JS.le (JS.of_Z a) (JS.of_Z b) = (a <=? b).
Proof. unfold JS.le, JS.of_Z, Qle_bool. simpl. by rewrite !Z.mul_1_r. Qed.

Lemma lt_of_Z a b : JS.lt (JS.of_Z a) (JS.of_Z b) = (a <? b).
Proof.
  unfold JS.lt, JS.of_Z, Qle_bool. simpl. rewrite !Z.mul_1_r.
  by rewrite Z.ltb_antisym.
Qed.

Lemma store_eta s : mkStore (books s) (sqlite_sequence s) = s.
Proof. by destruct s. Qed.

(** The books of a listing are the renderings of the rows of the table. *)
Lemma elem_of_listing (render : Z * Row.t -> Book.t) s b :
  b ∈ render <$> Sql.select_all_newest_first s
  <-> exists k r, books s !! k = Some r /\ b = render (k, r).
Proof.
  rewrite list_elem_of_fmap. split.
  - intros ([k r] & -> & H). apply elem_of_select_all in H. eauto.
  - intros (k & r & H & ->). exists (k, r). by rewrite elem_of_select_all.
Qed.

Lemma render_id db render new_row k r :
  contract db render new_row -> Book.id (render (k, r)) = k.
Proof. intros C. exact (f_equal fst (render_row _ _ _ C (k, r))). Qed.

Lemma render_rating db render new_row k r :
  contract db render new_row -> Book.rating (render (k, r)) = Row.rating r.
Proof.
  intros C.
  exact (f_equal (fun x => Row.rating (snd x)) (render_row _ _ _ C (k, r))).
Qed.

Lemma render_status db render new_row k r :
  contract db render new_row -> Book.status (render (k, r)) = Row.status r.
Proof.
  intros C.
  exact (f_equal (fun x => Row.status (snd x)) (render_row _ _ _ C (k, r))).
Qed.

Lemma render_createdAt db render new_row k r :
  contract db render new_row ->
  instant (Book.createdAt (render (k, r))) = Row.createdAt r.
Proof.
  intros C.
  exact (f_equal (fun x => Row.createdAt (snd x)) (render_row _ _ _ C (k, r))).
Qed.

(** C4: with either layer, for a book in the store and an integer [n] of
    1..5, [updateBookRating] resolves to the book with rating [n], and the
    listing read afterwards shows that book, with rating [n]; and for an
    integer [m] outside 1..5 sent as the rating, the route answers 400, makes
    no call on the store and leaves it as it was. *)
Theorem C4_rating_update db s k n id_param body_rating m :
  (implementation db ->
   is_Some (books s !! k) ->
   1 <= n <= 5 ->
   exists b s' l,
     updateBookRating db (JS.of_Z k) (JS.of_Z n) s = (Resolve (Some b), s')
     /\ Book.id b = k /\ Book.rating b = JS.of_Z n
     /\ getAllBooks db s' = (Resolve l, s')
     /\ (exists b', b' ∈ l /\ Book.id b' = k)
     /\ (forall b', b' ∈ l -> Book.id b' = k -> Book.rating b' = JS.of_Z n))
  /\ (JS.Number body_rating = JS.of_Z m ->
      m < 1 \/ 5 < m ->
      refused_400 (Api.patch_rating db id_param body_rating s) s).
Proof.
  split.
  - intros Hdb [row Hrow] Hn.
    destruct (implementation_contract db Hdb) as (render & new_row & C).
    assert (JS.le (JS.Fin 0) (JS.of_Z n) = true) as Hlo.
    { change (JS.Fin 0) with (JS.of_Z 0). rewrite le_of_Z. lia. }
    assert (JS.le (JS.of_Z n) (JS.Fin 5) = true) as Hhi.
    { change (JS.Fin 5) with (JS.of_Z 5). rewrite le_of_Z. lia. }
    eexists _, _, _. rewrite (rate_row _ _ _ C k _ s Hlo Hhi), Hrow.
    split; [reflexivity|].
    split; [by rewrite (render_id _ _ _ _ _ C)|].
    split; [by rewrite (render_rating _ _ _ _ _ C)|].
    split; [apply (list_all _ _ _ C)|].
    split.
    + exists (render (k, rated (JS.of_Z n) row)). split.
      * apply elem_of_listing. exists k, (rated (JS.of_Z n) row).
        split; [|done]. simpl. by rewrite lookup_insert_eq.
      * by rewrite (render_id _ _ _ _ _ C).
    + intros b' Hb' Hid. apply elem_of_listing in Hb' as (k' & r' & Hr' & ->).
      rewrite (render_id _ _ _ _ _ C) in Hid. subst k'.
      simpl in Hr'. rewrite lookup_insert_eq in Hr'. injection Hr' as <-.
      by rewrite (render_rating _ _ _ _ _ C).
  - intros Hm Hout. apply rating_out_of_range_refused. right. rewrite Hm.
    change (JS.Fin 1) with (JS.of_Z 1). change (JS.Fin 5) with (JS.of_Z 5).
    unfold JS.gt. rewrite !lt_of_Z. lia.
Qed.

(** C4 (witness): rating 5 for the book 1, and a request for rating 7. *)
Lemma C4_rating_update_witness :
  (exists b s' l,
     updateBookRating Orm.store (JS.of_Z 1) (JS.of_Z 5) one_book
       = (Resolve (Some b), s')
     /\ Book.id b = 1 /\ Book.rating b = JS.of_Z 5
     /\ getAllBooks Orm.store s' = (Resolve l, s')
     /\ (exists b', b' ∈ l /\ Book.id b' = 1)
     /\ (forall b', b' ∈ l -> Book.id b' = 1 -> Book.rating b' = JS.of_Z 5))
  /\ refused_400 (Api.patch_rating Orm.store "1" (JS.Str "7") one_book) one_book.
Proof.
  destruct (C4_rating_update Orm.store one_book 1 5 "1" (JS.Str "7") 7)
    as [Hstore Hroute].
  split.
  - apply Hstore; [by right | by eexists | lia].
  - apply Hroute; [reflexivity | lia].
Defined.

(** ** What an operation does to the store *)

(** The store an operation leaves, when the operation is one of a layer. *)
Lemma run_effect db op s : implementation db -> effect s op (snd (run db op s)).
Proof.
  intros [-> | ->]; destruct op as [|title author now|id|id rating|id];
    layer_ops; unfold answer.
  - constructor.
  - rewrite Raw_createBook_eq. apply effect_insert; by left.
  - destruct (Sql.select_by_id id s) as [[k r]|] eqn:E.
    + rewrite (Raw_toggle_found _ _ _ _ E).
      apply effect_toggle. by apply select_by_id_Some in E as [_ E].
    + rewrite (Raw_toggle_missing _ _ E). constructor.
  - destruct (Sql.select_by_id id s) as [[k r]|] eqn:E.
    + destruct (JS.isNaN rating) eqn:Hn.
      * destruct rating; try done. rewrite (Raw_rating_NaN _ _ _ _ E). constructor.
      * rewrite (Raw_rating_found _ _ _ _ _ E Hn).
        apply effect_rate; [|done]. by apply select_by_id_Some in E as [_ E].
    + rewrite (Raw_rating_missing _ _ _ E). constructor.
  - rewrite Raw_delete_eq. destruct (Sql.select_by_id id s) as [[k r]|] eqn:E.
    + apply (effect_delete _ _ _ r). by apply select_by_id_Some in E as [_ E].
    + constructor.
  - constructor.
  - rewrite Orm_createBook_eq. apply effect_insert; by right.
  - destruct id as [| |q]; [constructor..|].
    destruct (Sql.select_by_id (JS.Fin q) s) as [[k r]|] eqn:E.
    + rewrite (Orm_toggle_found _ _ _ _ E).
      apply effect_toggle. by apply select_by_id_Some in E as [_ E].
    + rewrite (Orm_toggle_missing _ _ E). constructor.
  - destruct id as [| |q]; [constructor..|].
    destruct (Sql.select_by_id (JS.Fin q) s) as [[k r]|] eqn:E.
    + destruct (Orm.validate_rating rating) eqn:Hv.
      * destruct (JS.isNaN rating) eqn:Hn.
        -- destruct rating; try done. rewrite (Orm_rating_NaN _ _ _ _ E). constructor.
        -- rewrite (Orm_rating_found _ _ _ _ _ E Hn Hv).
           apply effect_rate; [|done]. by apply select_by_id_Some in E as [_ E].
      * rewrite (Orm_rating_refused _ _ _ _ _ E Hv). constructor.
    + rewrite (Orm_rating_missing _ _ _ E). constructor.
  - destruct id as [| |q]; [constructor..|]. rewrite Orm_delete_eq.
    destruct (Sql.select_by_id (JS.Fin q) s) as [[k r]|] eqn:E.
    + apply (effect_delete _ _ _ r). by apply select_by_id_Some in E as [_ E].
    + constructor.
Qed.

(** No operation lowers the key counter. *)
Lemma effect_counter s op s' :
  effect s op s' -> sqlite_sequence s <= sqlite_sequence s'.
Proof.
  intros [op'|title author now title' author' stamp _ _|id k r Hk
          |id k r rating Hk Hn|id k r Hk]; simpl; try lia.
  pose proof (next_rowid_above_sequence s). lia.
Qed.

Lemma reachable_from_counter s s' :
  reachable_from s s' -> sqlite_sequence s <= sqlite_sequence s'.
Proof.
  induction 1 as [|db op s' Hdb _ IH]; [lia|].
  pose proof (effect_counter _ _ _ (run_effect db op s' Hdb)). lia.
Qed.

(** ** Creation (C5, C10) *)

(** C5: with either layer and on every store, [createBook] resolves to a
    book that is unread and unrated; the listing read afterwards is the
    listing read before with that one book added.  The id of the book is the
    id of no book listed before: it is above every key of the table and
    above the key counter, which then stands at that id; and whatever
    operations of either layer follow, deletions of the book included, a
    book created later has a larger id, so that no id is given twice. *)
Theorem C5_create_adds_one_fresh_book db title author now s :
  implementation db ->
  exists b s' l l',
    createBook db title author now s = (Resolve b, s')
    /\ getAllBooks db s = (Resolve l, s)
    /\ getAllBooks db s' = (Resolve l', s')
    /\ l' ≡ₚ b :: l
    /\ Book.status b = UNREAD
    /\ Book.rating b = JS.Fin 0
    /\ (forall b0, b0 ∈ l -> Book.id b0 <> Book.id b)
    /\ (forall k r, books s !! k = Some r -> k < Book.id b)
    /\ sqlite_sequence s < Book.id b
    /\ sqlite_sequence s' = Book.id b
    /\ (forall s'' db2 title2 author2 now2 b2 s2,
          reachable_from s' s'' -> implementation db2 ->
          createBook db2 title2 author2 now2 s'' = (Resolve b2, s2) ->
          Book.id b < Book.id b2).
Proof.
  intros Hdb. destruct (implementation_contract db Hdb) as (render & new_row & C).
  eexists _, _, _, _.
  split; [apply (create_row _ _ _ C)|].
  split; [apply (list_all _ _ _ C)|].
  split; [apply (list_all _ _ _ C)|].
  destruct (new_row_defaults _ _ _ C title author now) as [Hst Hrt].
  rewrite (render_id _ _ _ _ _ C).
  split; [|split; [|split; [|split; [|split; [|split; [|split]]]]]].
  - rewrite select_all_insert by apply next_rowid_fresh. by rewrite fmap_cons.
  - by rewrite (render_status _ _ _ _ _ C).
  - by rewrite (render_rating _ _ _ _ _ C).
  - intros b0 Hb0 Heq. apply elem_of_listing in Hb0 as (k & r & Hr & ->).
    rewrite (render_id _ _ _ _ _ C) in Heq. subst k.
    by rewrite next_rowid_fresh in Hr.
  - intros k r Hk. apply (max_rowid_upper _ (sqlite_sequence s)) in Hk.
    unfold Sql.next_rowid. lia.
  - apply next_rowid_above_sequence.
  - done.
  - intros s'' db2 title2 author2 now2 b2 s2 Hlater Hdb2 Hcreate.
    destruct (implementation_contract db2 Hdb2) as (render2 & new_row2 & C2).
    rewrite (create_row _ _ _ C2) in Hcreate. injection Hcreate as <- _.
    rewrite (render_id _ _ _ _ _ C2).
    apply reachable_from_counter in Hlater. simpl in Hlater.
    pose proof (next_rowid_above_sequence s''). lia.
Qed.

(** C5 (witness): a second book on the store of one book. *)
Lemma C5_create_adds_one_fresh_book_witness :
  exists b s' l l',
    createBook Raw.store "Emma" "Austen" 86400000 one_book = (Resolve b, s')
    /\ getAllBooks Raw.store one_book = (Resolve l, one_book)
    /\ getAllBooks Raw.store s' = (Resolve l', s')
    /\ l' ≡ₚ b :: l
    /\ Book.status b = UNREAD
    /\ Book.rating b = JS.Fin 0
    /\ (forall b0, b0 ∈ l -> Book.id b0 <> Book.id b)
    /\ (forall k r, books one_book !! k = Some r -> k < Book.id b)
    /\ sqlite_sequence one_book < Book.id b
    /\ sqlite_sequence s' = Book.id b
    /\ (forall s'' db2 title2 author2 now2 b2 s2,
          reachable_from s' s'' -> implementation db2 ->
          createBook db2 title2 author2 now2 s'' = (Resolve b2, s2) ->
          Book.id b < Book.id b2).
Proof.
  apply (C5_create_adds_one_fresh_book Raw.store "Emma" "Austen" 86400000 one_book).
  left. reflexivity.
Defined.

(** C10: with either layer, two calls of [createBook] in a row with one and
    the same title and author both resolve, to books of different ids with
    the same title and author; both rows are in the table, and the listing
    read afterwards holds both books. *)
Theorem C10_same_title_twice db title author now1 now2 s :
  implementation db ->
  exists b1 s1 b2 s2 l,
    createBook db title author now1 s = (Resolve b1, s1)
    /\ createBook db title author now2 s1 = (Resolve b2, s2)
    /\ Book.id b1 <> Book.id b2
    /\ Book.title b1 = Book.title b2 /\ Book.author b1 = Book.author b2
    /\ is_Some (books s2 !! Book.id b1) /\ is_Some (books s2 !! Book.id b2)
    /\ getAllBooks db s2 = (Resolve l, s2)
    /\ b1 ∈ l /\ b2 ∈ l.
Proof.
  intros Hdb. destruct (implementation_contract db Hdb) as (render & new_row & C).
  eexists _, _, _, _, _.
  split; [apply (create_row _ _ _ C)|].
  split; [apply (create_row _ _ _ C)|].
  set (k1 := Sql.next_rowid s).
  set (s1 := mkStore (<[k1 := new_row title author now1]> (books s)) k1).
  set (k2 := Sql.next_rowid s1).
  assert (k1 <> k2) as Hne.
  { pose proof (next_rowid_above_sequence s1) as H. simpl in H. fold k2 in H. lia. }
  assert (books s1 !! k1 = Some (new_row title author now1)) as H1
    by (simpl; by rewrite lookup_insert_eq).
  rewrite !(render_id _ _ _ _ _ C).
  pose proof (render_row _ _ _ C (k1, new_row title author now1)) as R1.
  pose proof (render_row _ _ _ C (k2, new_row title author now2)) as R2.
  destruct (new_row_text _ _ _ C title author now1 now2) as [Ht Ha].
  split; [done|].
  split.
  { transitivity (Row.title (new_row title author now1)).
    - exact (f_equal (fun x => Row.title (snd x)) R1).
    - rewrite Ht. symmetry. exact (f_equal (fun x => Row.title (snd x)) R2). }
  split.
  { transitivity (Row.author (new_row title author now1)).
    - exact (f_equal (fun x => Row.author (snd x)) R1).
    - rewrite Ha. symmetry. exact (f_equal (fun x => Row.author (snd x)) R2). }
  split; [simpl; rewrite lookup_insert_ne by done; eauto|].
  split; [simpl; rewrite lookup_insert_eq; eauto|].
  split; [apply (list_all _ _ _ C)|].
  split; apply elem_of_listing.
  - exists k1, (new_row title author now1). split; [|done].
    simpl. by rewrite lookup_insert_ne.
  - exists k2, (new_row title author now2). split; [|done].
    simpl. by rewrite lookup_insert_eq.
Qed.

(** C10 (witness): the same book twice, on the empty store. *)
Lemma C10_same_title_twice_witness :
  exists b1 s1 b2 s2 l,
    createBook Orm.store "Dune" "Herbert" 0 empty_store = (Resolve b1, s1)
    /\ createBook Orm.store "Dune" "Herbert" 5 s1 = (Resolve b2, s2)
    /\ Book.id b1 <> Book.id b2
    /\ Book.title b1 = Book.title b2 /\ Book.author b1 = Book.author b2
    /\ is_Some (books s2 !! Book.id b1) /\ is_Some (books s2 !! Book.id b2)
    /\ getAllBooks Orm.store s2 = (Resolve l, s2)
    /\ b1 ∈ l /\ b2 ∈ l.
Proof.
  apply (C10_same_title_twice Orm.store "Dune" "Herbert" 0 5 empty_store).
  right. reflexivity.
Defined.

(** ** Toggling (C6) *)

Lemma flipped_involutive status : Sql.flipped (Sql.flipped status) = status.
Proof. by destruct status. Qed.

Lemma flipped_changes status : Sql.flipped status <> status.
Proof. by destruct status. Qed.

Lemma flip_status_involutive r : Sql.flip_status (Sql.flip_status r) = r.
Proof. destruct r. unfold Sql.flip_status. simpl. by rewrite flipped_involutive. Qed.

Lemma newStatus_flipped book : Orm.newStatus book = Sql.flipped (Row.status (snd book)).
Proof. reflexivity. Qed.

(** C6: with either layer, for a book in the store, two calls of
    [toggleBookStatus] in a row both resolve to the book; the first shows the
    other status, the second the status the book had, and the store is back
    where it was.  The flip of each layer (the CASE of the SQL statement, the
    conditional of [db.ts]) is an involution of the two statuses that fixes
    neither. *)
Theorem C6_toggle_twice db s k row :
  (implementation db ->
   books s !! k = Some row ->
   exists b1 s1 b2 s2,
     toggleBookStatus db (JS.of_Z k) s = (Resolve (Some b1), s1)
     /\ toggleBookStatus db (JS.of_Z k) s1 = (Resolve (Some b2), s2)
     /\ Book.status b1 <> Row.status row
     /\ Book.status b2 = Row.status row
     /\ s2 = s)
  /\ (forall status, Sql.flipped (Sql.flipped status) = status
                     /\ Sql.flipped status <> status)
  /\ (forall book,
       Orm.newStatus (fst book, Sql.set_status (Orm.newStatus book) (snd book))
       = Row.status (snd book)
       /\ Orm.newStatus book <> Row.status (snd book)).
Proof.
  split; [|split].
  - intros Hdb Hrow.
    destruct (implementation_contract db Hdb) as (render & new_row & C).
    eexists _, _, _, _.
    rewrite (toggle_row _ _ _ C k s), Hrow. split; [reflexivity|].
    rewrite (toggle_row _ _ _ C). simpl. rewrite lookup_insert_eq.
    split; [reflexivity|].
    rewrite !(render_status _ _ _ _ _ C). simpl.
    split; [apply flipped_changes|].
    split; [apply flipped_involutive|].
    unfold with_books. simpl.
    rewrite insert_insert_eq, flip_status_involutive, insert_id by done.
    apply store_eta.
  - intros status. split; [apply flipped_involutive | apply flipped_changes].
  - intros [k' r]. rewrite !newStatus_flipped. simpl.
    split; [apply flipped_involutive | apply flipped_changes].
Qed.

(** C6 (witness): the book 1 of the store of one book. *)
Lemma C6_toggle_twice_witness :
  exists b1 s1 b2 s2,
    toggleBookStatus Raw.store (JS.of_Z 1) one_book = (Resolve (Some b1), s1)
    /\ toggleBookStatus Raw.store (JS.of_Z 1) s1 = (Resolve (Some b2), s2)
    /\ Book.status b1 <> UNREAD
    /\ Book.status b2 = UNREAD
    /\ s2 = one_book.
Proof.
  apply (C6_toggle_twice Raw.store one_book 1
           (Row.mk "Dune" "Herbert" UNREAD 0 (JS.Fin 0))).
  - left. reflexivity.
  - reflexivity.
Defined.

(** ** Deletion (C7) *)

(** C7: with either layer, [deleteBook] resolves to [true] exactly when a
    row with that id is in the table; the table is then the old one without
    that row, and nothing else changes.  A second call resolves to [false]
    and leaves the store as the first call left it.  Through the route: 204
    when the row was there and 404 when not, and 404 the second time. *)
Theorem C7_delete_twice db s k :
  implementation db ->
  exists deleted s1,
    deleteBook db (JS.of_Z k) s = (Resolve deleted, s1)
    /\ (deleted = true <-> is_Some (books s !! k))
    /\ books s1 = delete k (books s)
    /\ sqlite_sequence s1 = sqlite_sequence s
    /\ deleteBook db (JS.of_Z k) s1 = (Resolve false, s1)
    /\ (forall id_param,
         JS.Number (JS.Str id_param) = JS.of_Z k ->
         Api.delete_book db id_param s
         = (if deleted then Api.mkResponse 204 Api.NoBody
            else Api.mkResponse 404 (Api.JsonMessage "Book not found"),
            s1, [Api.deleteBook_ (JS.of_Z k)])
         /\ Api.delete_book db id_param s1
            = (Api.mkResponse 404 (Api.JsonMessage "Book not found"),
               s1, [Api.deleteBook_ (JS.of_Z k)])).
Proof.
  intros Hdb.
  destruct (implementation_contract db Hdb) as (render & new_row & C).
  unfold Api.delete_book, Api.invoke.
  rewrite (delete_row _ _ _ C k s).
  destruct (books s !! k) as [r|] eqn:E.
  - eexists _, _. split; [reflexivity|].
    rewrite (delete_row _ _ _ C). simpl. rewrite lookup_delete_eq.
    split; [split; eauto|]. split; [done|]. split; [done|]. split; [done|].
    intros id_param ->. simpl.
    rewrite (delete_row _ _ _ C k s), E, (delete_row _ _ _ C). simpl.
    by rewrite lookup_delete_eq.
  - eexists _, _. split; [reflexivity|].
    rewrite (delete_row _ _ _ C), E.
    split; [split; [done | by intros [? ?]]|].
    split; [by rewrite delete_id|]. split; [done|]. split; [done|].
    intros id_param ->. simpl.
    by rewrite (delete_row _ _ _ C k s), E.
Qed.

(** C7 (witness): the book 1 of the store of one book, deleted twice. *)
Lemma C7_delete_twice_witness :
  exists deleted s1,
    deleteBook Raw.store (JS.of_Z 1) one_book = (Resolve deleted, s1)
    /\ (deleted = true <-> is_Some (books one_book !! 1))
    /\ books s1 = delete 1 (books one_book)
    /\ sqlite_sequence s1 = sqlite_sequence one_book
    /\ deleteBook Raw.store (JS.of_Z 1) s1 = (Resolve false, s1)
    /\ (forall id_param,
         JS.Number (JS.Str id_param) = JS.of_Z 1 ->
         Api.delete_book Raw.store id_param one_book
         = (if deleted then Api.mkResponse 204 Api.NoBody
            else Api.mkResponse 404 (Api.JsonMessage "Book not found"),
            s1, [Api.deleteBook_ (JS.of_Z 1)])
         /\ Api.delete_book Raw.store id_param s1
            = (Api.mkResponse 404 (Api.JsonMessage "Book not found"),
               s1, [Api.deleteBook_ (JS.of_Z 1)])).
Proof.
  apply (C7_delete_twice Raw.store one_book 1).
  left. reflexivity.
Defined.

(** ** The order of the listing (C8) *)

(** On every store, reachable or not, the listing is the table, newest
    first. *)
Lemma listing_newest_first db render new_row s :
  contract db render new_row ->
  getAllBooks db s = (Resolve (render <$> Sql.select_all_newest_first s), s)
  /\ StronglySorted newest_first (render <$> Sql.select_all_newest_first s)
  /\ row_of_book <$> (render <$> Sql.select_all_newest_first s)
     ≡ₚ map_to_list (books s).
Proof.
  intros C. split; [apply (list_all _ _ _ C)|]. split.
  - apply (StronglySorted_fmap _ Sql.newer_first); [|apply select_all_sorted].
    intros [k1 r1] [k2 r2]. unfold newest_first, Sql.newer_first.
    by rewrite !(render_createdAt _ _ _ _ _ C).
  - rewrite <- list_fmap_compose.
    rewrite (list_fmap_ext _ id (Sql.select_all_newest_first s)).
    + rewrite list_fmap_id. apply select_all_Permutation.
    + intros _ x _. apply (render_row _ _ _ C).
Qed.

(** C8: with either layer, on every store reached from the empty one by
    operations of the layers, the listing resolves to books in the order of
    [createdAt], newest first, one for each row of the table. *)
Theorem C8_listing_is_newest_first db s :
  implementation db ->
  reachable s ->
  exists l,
    getAllBooks db s = (Resolve l, s)
    /\ StronglySorted newest_first l
    /\ row_of_book <$> l ≡ₚ map_to_list (books s).
Proof.
  intros Hdb _. destruct (implementation_contract db Hdb) as (render & new_row & C).
  eexists. apply (listing_newest_first _ _ _ _ C).
Qed.

Lemma three_books_reachable : reachable three_books.
Proof.
  unfold three_books.
  repeat (apply reachable_step; [first [by left | by right]|]).
  apply reachable_empty.
Qed.

(** C8 (witness): the listing of [three_books]. *)
Lemma C8_listing_is_newest_first_witness :
  exists l,
    getAllBooks Raw.store three_books = (Resolve l, three_books)
    /\ StronglySorted newest_first l
    /\ row_of_book <$> l ≡ₚ map_to_list (books three_books).
Proof.
  apply (C8_listing_is_newest_first Raw.store three_books).
  - left. reflexivity.
  - apply three_books_reachable.
Defined.

Example three_books_listing :
  fst (getAllBooks Raw.store three_books)
  = Resolve [ Book.mk 3 "Emma" "Austen" UNREAD (SqliteDatetime 9000) (JS.Fin 0);
              Book.mk 1 "Dune" "Herbert" READ (SqliteDatetime 5000) (JS.Fin 0);
              Book.mk 2 "Ulysses" "Joyce" UNREAD (SqliteDatetime 1000) (JS.Fin 0) ].
Proof. by vm_compute. Qed.

(** ** Single-field updates (C9) *)

(** C9: with either layer, for a book in the store, [toggleBookStatus]
    leaves a store in which the row of that id differs from the old one in
    its status and in nothing else, and [updateBookRating], whatever the
    rating, a store in which it differs at most in its rating; every other
    row and the key counter are as before. *)
Theorem C9_single_field_updates db s k row rating :
  implementation db ->
  books s !! k = Some row ->
  (let s' := snd (toggleBookStatus db (JS.of_Z k) s) in
   sqlite_sequence s' = sqlite_sequence s
   /\ (forall k', k' <> k -> books s' !! k' = books s !! k')
   /\ exists row', books s' !! k = Some row'
                   /\ same_but_status row row'
                   /\ Row.status row' <> Row.status row)
  /\ (let s' := snd (updateBookRating db (JS.of_Z k) rating s) in
      sqlite_sequence s' = sqlite_sequence s
      /\ (forall k', k' <> k -> books s' !! k' = books s !! k')
      /\ exists row', books s' !! k = Some row' /\ same_but_rating row row').
Proof.
  intros Hdb Hrow.
  destruct (implementation_contract db Hdb) as (render & new_row & C).
  split; cbv zeta.
  - rewrite (toggle_row _ _ _ C k s), Hrow. simpl.
    split; [done|]. split; [by intros k' Hk'; rewrite lookup_insert_ne|].
    exists (Sql.flip_status row). rewrite lookup_insert_eq.
    split; [done|]. split; [done|]. apply flipped_changes.
  - destruct (rate_row_frame _ _ _ C k row rating s Hrow) as [-> | ->].
    + split; [done|]. split; [done|]. by exists row.
    + simpl. split; [done|]. split; [by intros k' Hk'; rewrite lookup_insert_ne|].
      exists (rated rating row). by rewrite lookup_insert_eq.
Qed.

(** C9 (witness): the book 1 of the store of one book, toggled, and rated 3. *)
Lemma C9_single_field_updates_witness :
  (let s' := snd (toggleBookStatus Orm.store (JS.of_Z 1) one_book) in
   sqlite_sequence s' = sqlite_sequence one_book
   /\ (forall k', k' <> 1 -> books s' !! k' = books one_book !! k')
   /\ exists row', books s' !! 1 = Some row'
                   /\ same_but_status (Row.mk "Dune" "Herbert" UNREAD 0 (JS.Fin 0)) row'
                   /\ Row.status row' <> UNREAD)
  /\ (let s' := snd (updateBookRating Orm.store (JS.of_Z 1) (JS.of_Z 3) one_book) in
      sqlite_sequence s' = sqlite_sequence one_book
      /\ (forall k', k' <> 1 -> books s' !! k' = books one_book !! k')
      /\ exists row', books s' !! 1 = Some row'
                      /\ same_but_rating (Row.mk "Dune" "Herbert" UNREAD 0 (JS.Fin 0)) row').
Proof.
  apply (C9_single_field_updates Orm.store one_book 1
           (Row.mk "Dune" "Herbert" UNREAD 0 (JS.Fin 0)) (JS.of_Z 3)).
  - right. reflexivity.
  - reflexivity.
Defined.

(** ** The scenario of the specification, through the routes *)

(** Create Dune by Herbert: 201, unread and unrated.  Toggle it: READ.  Rate
    it 5: rating 5.  Rate it 7: 400.  Delete it: 204.  Delete it again: 404. *)
Example scenario_dune (NumberToString : JS.jsnum -> string) :
  let '(r1, s1, _) :=
    Api.post_books Orm.store NumberToString (JS.Str "Dune") (JS.Str "Herbert") 0
                   empty_store in
  let '(r2, s2, _) := Api.patch_toggle Orm.store "1" s1 in
  let '(r3, s3, _) := Api.patch_rating Orm.store "1" (JS.Num (JS.of_Z 5)) s2 in
  let '(r4, s4, c4) := Api.patch_rating Orm.store "1" (JS.Num (JS.of_Z 7)) s3 in
  let '(r5, s5, _) := Api.delete_book Orm.store "1" s4 in
  let '(r6, s6, _) := Api.delete_book Orm.store "1" s5 in
  r1 = Api.mkResponse 201
         (Api.JsonBook (Book.mk 1 "Dune" "Herbert" UNREAD (ISOString 0) (JS.Fin 0)))
  /\ r2 = Api.mkResponse 200
         (Api.JsonBook (Book.mk 1 "Dune" "Herbert" READ (ISOString 0) (JS.Fin 0)))
  /\ r3 = Api.mkResponse 200
         (Api.JsonBook (Book.mk 1 "Dune" "Herbert" READ (ISOString 0) (JS.Fin 5)))
  /\ r4 = Api.mkResponse 400 (Api.JsonMessage "Rating must be between 1 and 5")
  /\ c4 = [] /\ s4 = s3
  /\ r5 = Api.mkResponse 204 Api.NoBody
  /\ r6 = Api.mkResponse 404 (Api.JsonMessage "Book not found")
  /\ s6 = mkStore ∅ 1.
Proof. by vm_compute. Qed.

(** * Beyond the claims *)

(** ** [trim] *)

Lemma rev_app_append s t u :
  String.rev_app s (String.append t u) = String.append (String.rev_app s t) u.
Proof. revert t. induction s as [|a s IH]; intros t; simpl; [done|]. apply (IH (String a t)). Qed.

Lemma rev_cons a s :
  String.rev (String a s) = String.append (String.rev s) (String a "").
Proof. unfold String.rev. simpl. apply (rev_app_append s "" (String a "")). Qed.

Lemma rev_app_snoc s a t :
  String.rev_app (String.append s (String a "")) t = String a (String.rev_app s t).
Proof. revert t. induction s as [|b s IH]; intros t; simpl; [done|]. apply IH. Qed.

Lemma rev_involutive s : String.rev (String.rev s) = s.
Proof.
  induction s as [|a s IH]; [done|].
  rewrite rev_cons. unfold String.rev at 1. rewrite rev_app_snoc.
  fold (String.rev (String.rev s)). by rewrite IH.
Qed.

Lemma append_nil_r s : String.append s "" = s.
Proof. induction s as [|a s IH]; [done|]. exact (f_equal (String a) IH). Qed.

Lemma append_assoc s t u :
  String.append (String.append s t) u = String.append s (String.append t u).
Proof. induction s as [|a s IH]; [done|]. exact (f_equal (String a) IH). Qed.

Lemma length_append s t :
  String.length (String.append s t) = (String.length s + String.length t)%nat.
Proof. induction s as [|a s IH]; [done|]. exact (f_equal S IH). Qed.

Lemma rev_append s t :
  String.rev (String.append s t) = String.append (String.rev t) (String.rev s).
Proof.
  induction s as [|a s IH].
  - change (String.rev "") with ""%string. by rewrite append_nil_r.
  - change (String.append (String a s) t) with (String a (String.append s t)).
    rewrite !rev_cons, IH. by rewrite append_assoc.
Qed.

Lemma string_ind_length (P : string -> Prop) :
  (forall s, (forall t, (String.length t < String.length s)%nat -> P t) -> P s) ->
  forall s, P s.
Proof. intros H. apply (induction_ltof1 _ String.length). exact H. Qed.

Section Strip.
Variable w2 : ascii -> ascii -> bool.
Variable w3 : ascii -> ascii -> ascii -> bool.

Lemma strip_eq s :
  JS.strip w2 w3 s
  = match s with
    | String c1 r1 =>
        if JS.is_ws c1 then JS.strip w2 w3 r1
        else
          match r1 with
          | String c2 r2 =>
              if w2 c1 c2 then JS.strip w2 w3 r2
              else
                match r2 with
                | String c3 r3 => if w3 c1 c2 c3 then JS.strip w2 w3 r3 else s
                | EmptyString => s
                end
          | EmptyString => s
          end
    | EmptyString => s
    end.
Proof. by destruct s. Qed.

(** Stripping leaves an end of the string. *)
Lemma strip_suffix s : exists p, s = String.append p (JS.strip w2 w3 s).
Proof.
  induction s as [s IH] using string_ind_length.
  rewrite (strip_eq s).
  destruct s as [|c1 r1]; [by exists ""%string|].
  destruct (JS.is_ws c1).
  { destruct (IH r1) as [p Hp]; [simpl; lia|].
    exists (String c1 p). exact (f_equal (String c1) Hp). }
  destruct r1 as [|c2 r2]; [by exists ""%string|].
  destruct (w2 c1 c2).
  { destruct (IH r2) as [p Hp]; [simpl; lia|].
    exists (String c1 (String c2 p)).
    exact (f_equal (fun x => String c1 (String c2 x)) Hp). }
  destruct r2 as [|c3 r3]; [by exists ""%string|].
  destruct (w3 c1 c2 c3); [|by exists ""%string].
  destruct (IH r3) as [p Hp]; [simpl; lia|].
  exists (String c1 (String c2 (String c3 p))).
  exact (f_equal (fun x => String c1 (String c2 (String c3 x))) Hp).
Qed.

Lemma strip_length s :
  (String.length (JS.strip w2 w3 s) <= String.length s)%nat.
Proof.
  destruct (strip_suffix s) as [p Hp]. rewrite Hp at 2.
  rewrite length_append. lia.
Qed.

(** What stripping leaves has no white space at its start. *)
Lemma strip_fixed s : JS.strip w2 w3 (JS.strip w2 w3 s) = JS.strip w2 w3 s.
Proof.
  induction s as [s IH] using string_ind_length.
  rewrite (strip_eq s).
  destruct s as [|c1 r1]; [done|].
  destruct (JS.is_ws c1) eqn:E1; [apply IH; simpl; lia|].
  destruct r1 as [|c2 r2]; [by rewrite strip_eq, E1|].
  destruct (w2 c1 c2) eqn:E2; [apply IH; simpl; lia|].
  destruct r2 as [|c3 r3]; [by rewrite strip_eq, E1, E2|].
  destruct (w3 c1 c2 c3) eqn:E3; [apply IH; simpl; lia|].
  by rewrite strip_eq, E1, E2, E3.
Qed.

(** A start of a string without white space at its start has none. *)
Lemma strip_prefix s q :
  JS.strip w2 w3 (String.append s q) = String.append s q -> JS.strip w2 w3 s = s.
Proof.
  assert (forall t u, JS.strip w2 w3 t <> String.append u t \/ u = ""%string)
    as Hshort.
  { intros t [|c u]; [by right | left]. intros H.
    pose proof (strip_length t) as Hl. rewrite H in Hl.
    rewrite length_append in Hl. simpl in Hl. lia. }
  rewrite (strip_eq s), (strip_eq (String.append s q)).
  destruct s as [|c1 r1]; [done|].
  change (String.append (String c1 r1) q) with (String c1 (String.append r1 q)).
  cbv beta match.
  destruct (JS.is_ws c1).
  { intros H. destruct (Hshort (String.append r1 q) (String c1 "")) as [Hne|Hne]; [destruct (Hne H) | discriminate Hne]. }
  destruct r1 as [|c2 r2]; [done|].
  change (String.append (String c2 r2) q) with (String c2 (String.append r2 q)).
  cbv beta match.
  destruct (w2 c1 c2).
  { intros H. destruct (Hshort (String.append r2 q) (String c1 (String c2 ""))) as [Hne|Hne]; [destruct (Hne H) | discriminate Hne]. }
  destruct r2 as [|c3 r3]; [done|].
  change (String.append (String c3 r3) q) with (String c3 (String.append r3 q)).
  cbv beta match.
  destruct (w3 c1 c2 c3); [|done].
  intros H.
  destruct (Hshort (String.append r3 q) (String c1 (String c2 (String c3 "")))) as [Hne|Hne]; [destruct (Hne H) | discriminate Hne].
Qed.
End Strip.

(** Trimming the end leaves a start of the string. *)
Lemma trimEnd_prefix s : exists q, s = String.append (JS.trimEnd s) q.
Proof.
  unfold JS.trimEnd.
  destruct (strip_suffix (fun c2 c1 => JS.is_ws2 c1 c2)
              (fun c3 c2 c1 => JS.is_ws3 c1 c2 c3) (String.rev s)) as [p Hp].
  exists (String.rev p). rewrite <- rev_append, <- Hp. by rewrite rev_involutive.
Qed.

Lemma trimEnd_fixed s : JS.trimEnd (JS.trimEnd s) = JS.trimEnd s.
Proof. unfold JS.trimEnd. by rewrite rev_involutive, strip_fixed. Qed.

(** Trimming twice is trimming once. *)
Lemma trim_idempotent s : JS.trim (JS.trim s) = JS.trim s.
Proof.
  unfold JS.trim at 1.
  assert (JS.trimStart (JS.trim s) = JS.trim s) as ->.
  { unfold JS.trim. destruct (trimEnd_prefix (JS.trimStart s)) as [q Hq].
    apply (strip_prefix _ _ _ q). rewrite <- Hq. apply strip_fixed. }
  apply trimEnd_fixed.
Qed.

(** White space of more than one byte is stripped (the ideographic space,
    NBSP, the byte order mark, the line separator); a character that ends in
    the byte A0 is kept, and so is the zero width space, which is no white
    space. *)
Example trim_beyond_ascii :
  JS.trim "　Dune ﻿  " = "Dune"%string
  /\ JS.trim "　" = ""%string
  /\ JS.trim "你" = "你"%string
  /\ JS.trim "​Dune" = "​Dune"%string
  /\ JS.StringToNumber "　" = JS.Fin 0
  /\ JS.StringToNumber "　4 " = JS.Fin 4.
Proof. by vm_compute. Qed.

(** The layers on text beyond ASCII: both keep 你 as it is; of the
    ideographic space before Dune the store over the model keeps nothing and
    the store over the driver all three bytes; the route trims it for both;
    and a form whose title is one ideographic space is blank to the page. *)
Example text_beyond_ascii :
  fst (Orm.createBook "你" "Herbert" 0 empty_store)
  = Resolve (Book.mk 1 "你" "Herbert" UNREAD (ISOString 0) (JS.Fin 0))
  /\ fst (Raw.createBook "你" "Herbert" 0 empty_store)
     = Resolve (Book.mk 1 "你" "Herbert" UNREAD (SqliteDatetime 0) (JS.Fin 0))
  /\ fst (Orm.createBook "　Dune" "Herbert" 0 empty_store)
     = Resolve (Book.mk 1 "Dune" "Herbert" UNREAD (ISOString 0) (JS.Fin 0))
  /\ fst (Raw.createBook "　Dune" "Herbert" 0 empty_store)
     = Resolve (Book.mk 1 "　Dune" "Herbert" UNREAD (SqliteDatetime 0) (JS.Fin 0))
  /\ fst (fst (Api.post_books Raw.store (fun _ => "0"%string) (JS.Str "　Dune")
                 (JS.Str "Herbert") 0 empty_store))
     = Api.mkResponse 201
         (Api.JsonBook (Book.mk 1 "Dune" "Herbert" UNREAD (SqliteDatetime 0) (JS.Fin 0)))
  /\ Client.handleAdd Raw.store (fun _ => "0"%string) 0
       (Client.mk [] false (Client.Text "") "　" "Herbert" None "", empty_store)
     = Some (Client.mk [] false (Client.Text "請輸入書名與作者") "　" "Herbert" None "",
             empty_store).
Proof. by vm_compute. Qed.

(** ** Every operation, on every id *)

Lemma absent_select id s : absent id s <-> Sql.select_by_id id s = None.
Proof.
  unfold absent, Sql.select_by_id. destruct (JS.integer_value id) as [k|].
  - destruct (books s !! k) as [r|] eqn:E.
    + split; [|done]. intros H. by rewrite (H k eq_refl) in E.
    + split; [done|]. by intros _ k' [= <-].
  - split; [done|]. by intros _ k.
Qed.

Lemma validate_rating_false rating :
  JS.lt rating (JS.Fin 0) = true \/ JS.gt rating (JS.Fin 5) = true ->
  Orm.validate_rating rating = false.
Proof.
  unfold Orm.validate_rating, JS.gt, JS.ge.
  destruct rating as [|[]|q]; simpl; intros [H|H]; try done.
  - apply negb_true_iff in H. by rewrite H.
  - apply negb_true_iff in H. rewrite H. by rewrite andb_false_r.
Qed.

(** ** An id that is not in the table *)

(** With the store over the driver, an id that is the key of no row (a
    fraction, [NaN] and the infinities are such ids) makes toggle and rating
    resolve to null and delete to false, and the store stays as it is; so it
    is with the store over the model for a finite id; and each of the three
    routes then answers 404 after its one call, the store unchanged. *)
Theorem absent_id_is_not_found db id rating id_param body_rating s :
  absent id s ->
  (Raw.toggleBookStatus id s = (Resolve None, s)
   /\ Raw.updateBookRating id rating s = (Resolve None, s)
   /\ Raw.deleteBook id s = (Resolve false, s))
  /\ (finite id ->
      Orm.toggleBookStatus id s = (Resolve None, s)
      /\ Orm.updateBookRating id rating s = (Resolve None, s)
      /\ Orm.deleteBook id s = (Resolve false, s))
  /\ (implementation db -> finite id ->
      JS.Number (JS.Str id_param) = id ->
      JS.le (JS.Fin 1) (JS.Number body_rating) = true ->
      JS.le (JS.Number body_rating) (JS.Fin 5) = true ->
      Api.patch_toggle db id_param s
      = (Api.mkResponse 404 (Api.JsonMessage "Book not found"), s,
         [Api.toggleBookStatus_ id])
      /\ Api.patch_rating db id_param body_rating s
         = (Api.mkResponse 404 (Api.JsonMessage "Book not found"), s,
            [Api.updateBookRating_ id (JS.Number body_rating)])
      /\ Api.delete_book db id_param s
         = (Api.mkResponse 404 (Api.JsonMessage "Book not found"), s,
            [Api.deleteBook_ id])).
Proof.
  intros H. apply absent_select in H.
  assert (Raw.toggleBookStatus id s = (Resolve None, s)
          /\ Raw.updateBookRating id rating s = (Resolve None, s)
          /\ Raw.deleteBook id s = (Resolve false, s)) as HR.
  { rewrite Raw_delete_eq, H.
    by rewrite (Raw_toggle_missing _ _ H), (Raw_rating_missing _ _ _ H). }
  assert (forall rating', finite id ->
          Orm.toggleBookStatus id s = (Resolve None, s)
          /\ Orm.updateBookRating id rating' s = (Resolve None, s)
          /\ Orm.deleteBook id s = (Resolve false, s)) as HO.
  { intros rating' Hf. destruct id as [| |q]; [done..|]. rewrite Orm_delete_eq, H.
    by rewrite (Orm_toggle_missing _ _ H), (Orm_rating_missing _ _ _ H). }
  split; [exact HR|]. split; [apply HO|].
  intros Hdb Hf Hid Hlo Hhi.
  assert (JS.isNaN id = false) as Hn by (by destruct id).
  assert (JS.isNaN (JS.Number body_rating) = false) as Hnr
    by (by apply le_not_NaN in Hhi as []).
  assert (JS.lt (JS.Number body_rating) (JS.Fin 1)
          || JS.gt (JS.Number body_rating) (JS.Fin 5) = false) as Hrange.
  { unfold JS.gt. destruct (JS.Number body_rating) as [|[]|q]; try done.
    simpl in *. by rewrite Hlo, Hhi. }
  unfold Api.patch_toggle, Api.patch_rating, Api.delete_book, Api.invoke.
  rewrite Hid, Hn, Hnr, Hrange. simpl.
  destruct Hdb as [-> | ->]; layer_ops.
  - destruct HR as (-> & _ & ->).
    by rewrite (Raw_rating_missing _ _ _ H).
  - destruct (HO (JS.Number body_rating) Hf) as (-> & -> & ->). done.
Qed.

Lemma absent_id_is_not_found_witness :
  Api.patch_toggle Orm.store "2.5" one_book
  = (Api.mkResponse 404 (Api.JsonMessage "Book not found"), one_book,
     [Api.toggleBookStatus_ (JS.Fin (5 # 2))])
  /\ Api.patch_rating Orm.store "2.5" (JS.Str "3") one_book
     = (Api.mkResponse 404 (Api.JsonMessage "Book not found"), one_book,
        [Api.updateBookRating_ (JS.Fin (5 # 2)) (JS.Number (JS.Str "3"))])
  /\ Api.delete_book Orm.store "2.5" one_book
     = (Api.mkResponse 404 (Api.JsonMessage "Book not found"), one_book,
        [Api.deleteBook_ (JS.Fin (5 # 2))]).
Proof.
  apply (absent_id_is_not_found Orm.store (JS.Fin (5 # 2)) (JS.Fin 3) "2.5"
           (JS.Str "3") one_book).
  - intros k Hk. vm_compute in Hk. discriminate Hk.
  - by right.
  - exact I.
  - reflexivity.
  - reflexivity.
  - reflexivity.
Defined.

(** ** Ratings outside the range of the model *)

(** For a book in the store and a rating that is a number below 0 or above
    5, the store over the model rejects the update with a validation error
    and changes nothing, and the store over the driver writes the rating as
    it is given. *)
Theorem rating_out_of_range_by_layer k r rating s :
  books s !! k = Some r ->
  JS.isNaN rating = false ->
  JS.lt rating (JS.Fin 0) = true \/ JS.gt rating (JS.Fin 5) = true ->
  Orm.updateBookRating (JS.of_Z k) rating s = (Reject ValidationError, s)
  /\ Raw.updateBookRating (JS.of_Z k) rating s
     = (Resolve (Some (Book.mk k (Row.title r) (Row.author r) (Row.status r)
                               (SqliteDatetime (Row.createdAt r)) rating)),
        with_books s (<[k := rated rating r]> (books s))).
Proof.
  intros Hr Hn Hout. apply select_by_id_of_Z_Some in Hr. split.
  - apply (Orm_rating_refused _ _ _ _ _ Hr). by apply validate_rating_false.
  - by rewrite (Raw_rating_found _ _ _ _ _ Hr Hn).
Qed.

Lemma rating_out_of_range_by_layer_witness :
  Orm.updateBookRating (JS.of_Z 1) (JS.of_Z (-3)) one_book
  = (Reject ValidationError, one_book)
  /\ Raw.updateBookRating (JS.of_Z 1) (JS.of_Z (-3)) one_book
     = (Resolve (Some (Book.mk 1 "Dune" "Herbert" UNREAD (SqliteDatetime 0)
                               (JS.of_Z (-3)))),
        with_books one_book
          (<[1 := rated (JS.of_Z (-3)) (Row.mk "Dune" "Herbert" UNREAD 0 (JS.Fin 0))]>
             (books one_book))).
Proof.
  apply (rating_out_of_range_by_layer 1 (Row.mk "Dune" "Herbert" UNREAD 0 (JS.Fin 0))
           (JS.of_Z (-3)) one_book).
  - reflexivity.
  - reflexivity.
  - by left.
Defined.

(** ** The keys *)

Lemma effect_keys_issued s op s' : effect s op s' -> keys_issued s -> keys_issued s'.
Proof.
  intros E [H0 H].
  destruct E as [op|title author now title' author' stamp _ _|id k r Hk
                 |id k r rating Hk Hn|id k r Hk]; simpl.
  - done.
  - pose proof (next_rowid_above_sequence s) as Hnext.
    split; simpl; [lia|]. intros k r.
    destruct (decide (k = Sql.next_rowid s)) as [->|Hne].
    + rewrite lookup_insert_eq. intros _. lia.
    + rewrite lookup_insert_ne by done. intros Hk. specialize (H k r Hk). lia.
  - split; [done|]. simpl. intros k' r'.
    destruct (decide (k' = k)) as [->|Hne].
    + intros _. by apply (H k r).
    + rewrite lookup_insert_ne by done. apply H.
  - split; [done|]. simpl. intros k' r'.
    destruct (decide (k' = k)) as [->|Hne].
    + intros _. by apply (H k r).
    + rewrite lookup_insert_ne by done. apply H.
  - split; [done|]. simpl. intros k' r'.
    destruct (decide (k' = k)) as [->|Hne].
    + by rewrite lookup_delete_eq.
    + rewrite lookup_delete_ne by done. apply H.
Qed.

Lemma reachable_keys_issued s : reachable s -> keys_issued s.
Proof.
  induction 1 as [|db op s Hdb _ IH].
  - split; [done|]. intros k r Hk. simpl in Hk. by rewrite lookup_empty in Hk.
  - exact (effect_keys_issued _ _ _ (run_effect db op s Hdb) IH).
Qed.

Lemma keys_issued_max s : keys_issued s -> Sql.next_rowid s = sqlite_sequence s + 1.
Proof.
  intros [_ H]. unfold Sql.next_rowid.
  assert (Sql.max_rowid (books s) (sqlite_sequence s) = sqlite_sequence s) as ->; [|lia].
  unfold Sql.max_rowid.
  assert (Forall (fun k => k <= sqlite_sequence s) (fst <$> map_to_list (books s))) as HF.
  { apply Forall_forall. intros k Hk. apply list_elem_of_fmap in Hk as ([k' r] & -> & Hk).
    apply elem_of_map_to_list in Hk. apply (H _ _ Hk). }
  induction HF as [|x l Hx _ IH]; simpl; lia.
Qed.

(** On a store reached from the empty one, every key is positive and not
    above the counter; no operation lowers the counter; and a new book takes
    the key after the counter, which is above every key the table ever held:
    the key of a deleted book is not given again. *)
Theorem keys_are_never_reused db op title author now s :
  implementation db ->
  reachable s ->
  keys_issued s
  /\ sqlite_sequence s <= sqlite_sequence (snd (run db op s))
  /\ exists b s',
       createBook db title author now s = (Resolve b, s')
       /\ Book.id b = sqlite_sequence s + 1
       /\ sqlite_sequence s' = Book.id b
       /\ forall k r, books s !! k = Some r -> k < Book.id b.
Proof.
  intros Hdb Hs. pose proof (reachable_keys_issued s Hs) as HK.
  split; [exact HK|]. split.
  - destruct (run_effect db op s Hdb); simpl; try lia.
    pose proof (next_rowid_above_sequence s). lia.
  - destruct (implementation_contract db Hdb) as (render & new_row & C).
    eexists _, _. split; [apply (create_row _ _ _ C)|].
    rewrite (render_id _ _ _ _ _ C), (keys_issued_max s HK). simpl.
    split; [done|]. split; [done|].
    intros k r Hk. destruct HK as [_ HK]. specialize (HK k r Hk). lia.
Qed.

Lemma keys_are_never_reused_witness :
  keys_issued three_books
  /\ sqlite_sequence three_books
     <= sqlite_sequence (snd (run Raw.store (Delete (JS.of_Z 3)) three_books))
  /\ exists b s',
       createBook Raw.store "Emma" "Austen" 0 three_books = (Resolve b, s')
       /\ Book.id b = sqlite_sequence three_books + 1
       /\ sqlite_sequence s' = Book.id b
       /\ forall k r, books three_books !! k = Some r -> k < Book.id b.
Proof.
  apply (keys_are_never_reused Raw.store (Delete (JS.of_Z 3)) "Emma" "Austen" 0
           three_books).
  - by left.
  - apply three_books_reachable.
Defined.

(** ** The routes and the operations they ask for *)

Lemma lt_is_not_le x y :
  JS.isNaN x = false -> JS.isNaN y = false -> JS.lt x y = negb (JS.le y x).
Proof. by destruct x as [|[]|p], y as [|[]|q]. Qed.

(** The test of the rating route on a rating that is a number. *)
Lemma rating_test rating :
  JS.isNaN rating = false ->
  JS.lt rating (JS.Fin 1) || JS.gt rating (JS.Fin 5)
  = negb (JS.le (JS.Fin 1) rating && JS.le rating (JS.Fin 5)).
Proof.
  intros Hn. unfold JS.gt. rewrite !lt_is_not_le by done.
  by rewrite negb_andb.
Qed.

Lemma snd_answer {A} (f : A -> Answer) (p : Promise A) s :
  snd (answer f p s) = snd (p s).
Proof. unfold answer. by destruct (p s) as [[a|e] s']. Qed.

Lemma invoke_store {A} call (p : Promise A) respond failure s :
  snd (fst (Api.invoke call p respond failure s)) = snd (p s)
  /\ snd (Api.invoke call p respond failure s) = [call].
Proof. unfold Api.invoke. by destruct (p s) as [[a|e] s']. Qed.

(** A route leaves the store that the operation it asks for leaves, and the
    store as it is when it asks for none; it calls the store once in the
    first case and not at all in the second. *)
Lemma handle_store db NumberToString now req s :
  snd (fst (Server.handle db NumberToString now req s))
  = match requested NumberToString now req with
    | Some op => snd (run db op s)
    | None => s
    end
  /\ length (snd (Server.handle db NumberToString now req s))
     = match requested NumberToString now req with Some _ => 1%nat | None => 0%nat end.
Proof.
  destruct req as [|title author|id|id rating|id];
    unfold Server.handle, requested.
  - unfold Api.get_books. cbn [run]. rewrite snd_answer.
    by destruct (invoke_store Api.getAllBooks_ (getAllBooks db)
                   (fun books => Api.mkResponse 200 (Api.JsonBooks books))
                   "Failed to fetch books" s) as [-> ->].
  - unfold Api.post_books.
    destruct (JS.ToBoolean title), (JS.ToBoolean author); simpl; try done.
    cbn [run]. rewrite snd_answer.
    match goal with |- context [Api.invoke ?c ?p ?r ?f s] =>
      by destruct (invoke_store c p r f s) as [-> ->] end.
  - unfold Api.patch_toggle, Api.refuse. cbv zeta.
    destruct (JS.isNaN (JS.Number (JS.Str id))); [done|]. cbn [run]. rewrite snd_answer.
    match goal with |- context [Api.invoke ?c ?p ?r ?f s] =>
      by destruct (invoke_store c p r f s) as [-> ->] end.
  - unfold Api.patch_rating, Api.refuse. cbv zeta.
    destruct (JS.isNaN (JS.Number (JS.Str id))); [done|].
    rewrite !orb_false_l.
    destruct (JS.isNaN (JS.Number rating)) eqn:Hn; [done|].
    rewrite (rating_test _ Hn).
    destruct (JS.le (JS.Fin 1) (JS.Number rating) && JS.le (JS.Number rating) (JS.Fin 5));
      simpl; [|done].
    cbn [run]. rewrite snd_answer.
    match goal with |- context [Api.invoke ?c ?p ?r ?f s] =>
      by destruct (invoke_store c p r f s) as [-> ->] end.
  - unfold Api.delete_book, Api.refuse. cbv zeta.
    destruct (JS.isNaN (JS.Number (JS.Str id))); [done|]. cbn [run]. rewrite snd_answer.
    match goal with |- context [Api.invoke ?c ?p ?r ?f s] =>
      by destruct (invoke_store c p r f s) as [-> ->] end.
Qed.

Lemma requested_as_served NumberToString now req op :
  requested NumberToString now req = Some op -> op_as_served op.
Proof.
  destruct req as [|title author|id|id rating|id]; unfold requested.
  - by intros [= <-].
  - destruct (JS.ToBoolean title && JS.ToBoolean author); [|done].
    intros [= <-]. simpl. by rewrite !trim_idempotent.
  - destruct (JS.isNaN (JS.Number (JS.Str id))); [done|]. by intros [= <-].
  - destruct (JS.isNaN (JS.Number (JS.Str id)) || JS.isNaN (JS.Number rating)); [done|].
    destruct (JS.le (JS.Fin 1) (JS.Number rating)) eqn:Hlo; [|done].
    destruct (JS.le (JS.Number rating) (JS.Fin 5)) eqn:Hhi; [|done].
    by intros [= <-].
  - destruct (JS.isNaN (JS.Number (JS.Str id))); [done|]. by intros [= <-].
Qed.

(** ** What the routes keep true of every row *)

Lemma effect_rows_as_served s op s' :
  effect s op s' -> op_as_served op ->
  (forall k r, books s !! k = Some r -> row_as_served r) ->
  forall k r, books s' !! k = Some r -> row_as_served r.
Proof.
  intros E Hop H.
  destruct E as [op|title author now title' author' stamp Ht Ha|id k0 r0 Hk
                 |id k0 r0 rating Hk Hn|id k0 r0 Hk]; simpl; intros k r.
  - apply H.
  - destruct Hop as [Htt Haa].
    destruct (decide (k = Sql.next_rowid s)) as [->|Hne].
    + rewrite lookup_insert_eq. intros [= <-]. split; [by left|]. simpl. split.
      * destruct Ht as [-> | ->]; [done | by rewrite trim_idempotent].
      * destruct Ha as [-> | ->]; [done | by rewrite trim_idempotent].
    + rewrite lookup_insert_ne by done. apply H.
  - destruct (decide (k = k0)) as [->|Hne].
    + rewrite lookup_insert_eq. intros [= <-]. apply (H _ _ Hk).
    + rewrite lookup_insert_ne by done. apply H.
  - destruct (decide (k = k0)) as [->|Hne].
    + rewrite lookup_insert_eq. intros [= <-].
      destruct (H _ _ Hk) as (_ & Htt & Haa). split; [by right|]. done.
    + rewrite lookup_insert_ne by done. apply H.
  - destruct (decide (k = k0)) as [->|Hne].
    + by rewrite lookup_delete_eq.
    + rewrite lookup_delete_ne by done. apply H.
Qed.

Lemma served_rows s : served s -> forall k r, books s !! k = Some r -> row_as_served r.
Proof.
  induction 1 as [|db nts now req s Hdb _ IH].
  - intros k r Hk. simpl in Hk. by rewrite lookup_empty in Hk.
  - destruct (handle_store db nts now req s) as [-> _].
    destruct (requested nts now req) as [op|] eqn:Hreq; [|exact IH].
    apply (effect_rows_as_served s op); [by apply run_effect | | exact IH].
    by apply (requested_as_served nts now req).
Qed.

(** In a store that requests to the routes have led to, with either layer
    behind them, every rating is 0 or a number of [1,5]. *)
Theorem served_ratings_in_range s k r :
  served s ->
  books s !! k = Some r ->
  Row.rating r = JS.Fin 0
  \/ (JS.le (JS.Fin 1) (Row.rating r) = true /\ JS.le (Row.rating r) (JS.Fin 5) = true).
Proof. intros Hs Hk. by destruct (served_rows s Hs k r Hk) as [H _]. Qed.

(** In a store that requests to the routes have led to, with either layer
    behind them, no title and no author starts or ends with white space. *)
Theorem served_text_is_trimmed s k r :
  served s ->
  books s !! k = Some r ->
  JS.trim (Row.title r) = Row.title r /\ JS.trim (Row.author r) = Row.author r.
Proof. intros Hs Hk. by destruct (served_rows s Hs k r Hk) as [_ H]. Qed.

Lemma served_example_served : served served_example.
Proof.
  unfold served_example.
  repeat (apply served_step; [first [by left | by right]|]).
  apply served_empty.
Qed.

Lemma served_ratings_in_range_witness :
  JS.Fin 4 = JS.Fin 0
  \/ (JS.le (JS.Fin 1) (JS.Fin 4) = true /\ JS.le (JS.Fin 4) (JS.Fin 5) = true).
Proof.
  apply (served_ratings_in_range served_example 1
           (Row.mk "Dune" "Herbert" UNREAD 0 (JS.Fin 4))).
  - apply served_example_served.
  - by vm_compute.
Defined.

Lemma served_text_is_trimmed_witness :
  JS.trim "Dune" = "Dune"%string /\ JS.trim "Herbert" = "Herbert"%string.
Proof.
  apply (served_text_is_trimmed served_example 1
           (Row.mk "Dune" "Herbert" UNREAD 0 (JS.Fin 4))).
  - apply served_example_served.
  - by vm_compute.
Defined.

(** ** The answers of the routes *)

Lemma invoke_response {A} call (p : Promise A) respond failure s :
  fst (fst (Api.invoke call p respond failure s))
  = match fst (p s) with
    | Resolve a => respond a
    | Reject _ => Api.mkResponse 500 (Api.JsonMessage failure)
    end.
Proof. unfold Api.invoke. by destruct (p s) as [[a|e] s']. Qed.

Lemma fst_answer {A} (f : A -> Answer) (p : Promise A) s :
  fst (answer f p s)
  = match fst (p s) with Resolve a => Resolve (f a) | Reject e => Reject e end.
Proof. unfold answer. by destruct (p s) as [[a|e] s']. Qed.

(** The status code of a route: 400 when it asks the store for nothing, and
    else the code for the way the operation settled. *)
Lemma handle_status db NumberToString now req s :
  Api.statusCode (fst (fst (Server.handle db NumberToString now req s)))
  = match requested NumberToString now req with
    | Some op => status_of (fst (run db op s))
    | None => 400
    end.
Proof.
  destruct req as [|title author|id|id rating|id];
    unfold Server.handle, requested.
  - unfold Api.get_books. cbn [run]. rewrite invoke_response, fst_answer.
    by destruct (fst (getAllBooks db s)).
  - unfold Api.post_books.
    destruct (JS.ToBoolean title), (JS.ToBoolean author); simpl; try done.
    rewrite invoke_response, fst_answer.
    match goal with |- context [fst (createBook db ?t ?a now s)] =>
      by destruct (fst (createBook db t a now s)) end.
  - unfold Api.patch_toggle, Api.refuse. cbv zeta.
    destruct (JS.isNaN (JS.Number (JS.Str id))); [done|]. cbn [run].
    rewrite invoke_response, fst_answer.
    by destruct (fst (toggleBookStatus db (JS.Number (JS.Str id)) s)) as [[b|]|].
  - unfold Api.patch_rating, Api.refuse. cbv zeta.
    destruct (JS.isNaN (JS.Number (JS.Str id))); [done|].
    rewrite !orb_false_l.
    destruct (JS.isNaN (JS.Number rating)) eqn:Hn; [done|].
    rewrite (rating_test _ Hn).
    destruct (JS.le (JS.Fin 1) (JS.Number rating) && JS.le (JS.Number rating) (JS.Fin 5));
      simpl; [|done].
    rewrite invoke_response, fst_answer.
    match goal with |- context [fst (updateBookRating db ?i ?r s)] =>
      by destruct (fst (updateBookRating db i r s)) as [[b|]|] end.
  - unfold Api.delete_book, Api.refuse. cbv zeta.
    destruct (JS.isNaN (JS.Number (JS.Str id))); [done|]. cbn [run].
    rewrite invoke_response, fst_answer.
    by destruct (fst (deleteBook db (JS.Number (JS.Str id)) s)) as [[]|].
Qed.

(** An operation that settles in a way the routes answer with an error code
    has left the store as it was. *)
Lemma run_quiet db op s :
  implementation db -> 400 <= status_of (fst (run db op s)) ->
  snd (run db op s) = s.
Proof.
  intros [-> | ->]; destruct op as [|title author now|id|id rating|id];
    layer_ops; unfold answer.
  - done.
  - rewrite Raw_createBook_eq. simpl. lia.
  - destruct (Sql.select_by_id id s) as [[k r]|] eqn:E.
    + rewrite (Raw_toggle_found _ _ _ _ E). simpl. lia.
    + by rewrite (Raw_toggle_missing _ _ E).
  - destruct (Sql.select_by_id id s) as [[k r]|] eqn:E.
    + destruct (JS.isNaN rating) eqn:Hn.
      * destruct rating; try done. by rewrite (Raw_rating_NaN _ _ _ _ E).
      * rewrite (Raw_rating_found _ _ _ _ _ E Hn). simpl. lia.
    + by rewrite (Raw_rating_missing _ _ _ E).
  - rewrite Raw_delete_eq. destruct (Sql.select_by_id id s) as [[k r]|] eqn:E.
    + simpl. lia.
    + done.
  - done.
  - rewrite Orm_createBook_eq. simpl. lia.
  - destruct id as [| |q]; [done..|].
    destruct (Sql.select_by_id (JS.Fin q) s) as [[k r]|] eqn:E.
    + rewrite (Orm_toggle_found _ _ _ _ E). simpl. lia.
    + by rewrite (Orm_toggle_missing _ _ E).
  - destruct id as [| |q]; [done..|].
    destruct (Sql.select_by_id (JS.Fin q) s) as [[k r]|] eqn:E.
    + destruct (Orm.validate_rating rating) eqn:Hv.
      * destruct (JS.isNaN rating) eqn:Hn.
        -- destruct rating; try done. by rewrite (Orm_rating_NaN _ _ _ _ E).
        -- rewrite (Orm_rating_found _ _ _ _ _ E Hn Hv). simpl. lia.
      * by rewrite (Orm_rating_refused _ _ _ _ _ E Hv).
    + by rewrite (Orm_rating_missing _ _ _ E).
  - destruct id as [| |q]; [done..|]. rewrite Orm_delete_eq.
    destruct (Sql.select_by_id (JS.Fin q) s) as [[k r]|] eqn:E.
    + simpl. lia.
    + done.
Qed.

Lemma status_of_codes a : status_of a ∈ status_codes.
Proof.
  unfold status_codes.
  destruct a as [[l|b|[b|]|[]]|e]; simpl; repeat constructor.
Qed.

(** With either layer behind the routes, every request is answered with one
    of six status codes after at most one call on the store; the code is 400
    exactly when there was no call; and an answer with a code from 400 on
    has left the store as it was. *)
Theorem error_answers_change_nothing db NumberToString now req s :
  implementation db ->
  Api.statusCode (fst (fst (Server.handle db NumberToString now req s))) ∈ status_codes
  /\ (length (snd (Server.handle db NumberToString now req s)) <= 1)%nat
  /\ (Api.statusCode (fst (fst (Server.handle db NumberToString now req s))) = 400
      <-> snd (Server.handle db NumberToString now req s) = [])
  /\ (400 <= Api.statusCode (fst (fst (Server.handle db NumberToString now req s))) ->
      snd (fst (Server.handle db NumberToString now req s)) = s).
Proof.
  intros Hdb.
  destruct (handle_store db NumberToString now req s) as [Hstore Hcalls].
  rewrite handle_status, Hstore.
  destruct (requested NumberToString now req) as [op|].
  - split; [apply status_of_codes|]. split; [lia|]. split.
    + split.
      * intros H. exfalso. revert H.
        destruct (fst (run db op s)) as [[l|b|[b|]|[]]|e]; simpl; lia.
      * intros H. rewrite H in Hcalls. done.
    + by apply run_quiet.
  - split; [unfold status_codes; repeat constructor|]. split; [lia|].
    split; [|done]. split; [|done]. intros _.
    by destruct (snd (Server.handle db NumberToString now req s)).
Qed.

Lemma error_answers_change_nothing_witness :
  Api.statusCode (fst (fst (Server.handle Orm.store (fun _ => "0"%string) 0
                              (Server.DELETE_book "7") one_book))) ∈ status_codes
  /\ (length (snd (Server.handle Orm.store (fun _ => "0"%string) 0
                     (Server.DELETE_book "7") one_book)) <= 1)%nat
  /\ (Api.statusCode (fst (fst (Server.handle Orm.store (fun _ => "0"%string) 0
                                  (Server.DELETE_book "7") one_book))) = 400
      <-> snd (Server.handle Orm.store (fun _ => "0"%string) 0
                 (Server.DELETE_book "7") one_book) = [])
  /\ (400 <= Api.statusCode (fst (fst (Server.handle Orm.store (fun _ => "0"%string) 0
                                         (Server.DELETE_book "7") one_book))) ->
      snd (fst (Server.handle Orm.store (fun _ => "0"%string) 0
                  (Server.DELETE_book "7") one_book)) = one_book).
Proof.
  apply (error_answers_change_nothing Orm.store (fun _ => "0"%string) 0
           (Server.DELETE_book "7") one_book).
  by right.
Defined.

(** ** The listing route *)

(** With either layer behind it, GET answers 200 with the books newest
    first, as many as the table has rows (none for the empty table), after
    one call on the store, and leaves the store as it is. *)
Theorem get_books_answers_the_listing db s :
  implementation db ->
  exists l,
    Api.get_books db s = (Api.mkResponse 200 (Api.JsonBooks l), s, [Api.getAllBooks_])
    /\ StronglySorted newest_first l
    /\ length l = size (books s)
    /\ (books s = ∅ -> l = []).
Proof.
  intros Hdb. destruct (implementation_contract db Hdb) as (render & new_row & C).
  destruct (listing_newest_first db render new_row s C) as (Hl & Hsorted & Hperm).
  exists (render <$> Sql.select_all_newest_first s).
  assert (length (render <$> Sql.select_all_newest_first s) = size (books s)) as Hlen.
  { rewrite <- length_map_to_list, <- Hperm. by rewrite !length_fmap. }
  split; [|split; [done|split; [done|]]].
  - unfold Api.get_books, Api.invoke. by rewrite Hl.
  - intros He. apply length_zero_iff_nil. rewrite Hlen. by apply map_size_empty_iff.
Qed.

Lemma get_books_answers_the_listing_witness :
  exists l,
    Api.get_books Raw.store three_books
    = (Api.mkResponse 200 (Api.JsonBooks l), three_books, [Api.getAllBooks_])
    /\ StronglySorted newest_first l
    /\ length l = size (books three_books)
    /\ (books three_books = ∅ -> l = []).
Proof.
  apply (get_books_answers_the_listing Raw.store three_books). by left.
Defined.

(** ** Toggle and rating in either order *)

(** With either layer and a rating of [0,5], a toggle of one id and a rating
    of another or the same id leave the same store in either order, and so do
    two toggles. *)
Theorem toggle_and_rating_commute db k1 k2 rating s :
  implementation db ->
  JS.le (JS.Fin 0) rating = true ->
  JS.le rating (JS.Fin 5) = true ->
  snd (updateBookRating db (JS.of_Z k2) rating (snd (toggleBookStatus db (JS.of_Z k1) s)))
  = snd (toggleBookStatus db (JS.of_Z k1) (snd (updateBookRating db (JS.of_Z k2) rating s)))
  /\ snd (toggleBookStatus db (JS.of_Z k2) (snd (toggleBookStatus db (JS.of_Z k1) s)))
     = snd (toggleBookStatus db (JS.of_Z k1) (snd (toggleBookStatus db (JS.of_Z k2) s))).
Proof.
  intros Hdb Hlo Hhi.
  destruct (implementation_contract db Hdb) as (render & new_row & C).
  pose proof (toggle_row _ _ _ C) as T. pose proof (rate_row _ _ _ C) as R.
  split.
  - rewrite (T k1 s), (R k2 rating s Hlo Hhi).
    destruct (books s !! k1) as [r1|] eqn:E1, (books s !! k2) as [r2|] eqn:E2;
      simpl; rewrite ?T, ?(R _ _ _ Hlo Hhi); simpl.
    + destruct (decide (k1 = k2)) as [->|Hne].
      * rewrite !lookup_insert_eq. simpl. unfold with_books. simpl.
        rewrite !insert_insert_eq. by simplify_eq.
      * rewrite !lookup_insert_ne, E1, E2 by done. simpl. unfold with_books. simpl.
        by rewrite (insert_insert_ne _ k2 k1) by done.
    + assert (k1 <> k2) as Hne by congruence.
      rewrite lookup_insert_ne by done. by rewrite E1, E2.
    + assert (k2 <> k1) as Hne by congruence.
      rewrite lookup_insert_ne by done. by rewrite E1, E2.
    + by rewrite E1, E2.
  - rewrite (T k1 s), (T k2 s).
    destruct (books s !! k1) as [r1|] eqn:E1, (books s !! k2) as [r2|] eqn:E2;
      simpl; rewrite ?T; simpl.
    + destruct (decide (k1 = k2)) as [->|Hne].
      * rewrite !lookup_insert_eq. simpl. by simplify_eq.
      * rewrite !lookup_insert_ne, E1, E2 by done. simpl. unfold with_books. simpl.
        by rewrite (insert_insert_ne _ k2 k1) by done.
    + assert (k1 <> k2) as Hne by congruence.
      rewrite lookup_insert_ne by done. by rewrite E1, E2.
    + assert (k2 <> k1) as Hne by congruence.
      rewrite lookup_insert_ne by done. by rewrite E1, E2.
    + by rewrite E1, E2.
Qed.

Lemma toggle_and_rating_commute_witness :
  snd (updateBookRating Orm.store (JS.of_Z 2) (JS.of_Z 3)
         (snd (toggleBookStatus Orm.store (JS.of_Z 1) three_books)))
  = snd (toggleBookStatus Orm.store (JS.of_Z 1)
           (snd (updateBookRating Orm.store (JS.of_Z 2) (JS.of_Z 3) three_books)))
  /\ snd (toggleBookStatus Orm.store (JS.of_Z 2)
            (snd (toggleBookStatus Orm.store (JS.of_Z 1) three_books)))
     = snd (toggleBookStatus Orm.store (JS.of_Z 1)
              (snd (toggleBookStatus Orm.store (JS.of_Z 2) three_books))).
Proof.
  apply (toggle_and_rating_commute Orm.store 1 2 (JS.of_Z 3) three_books);
    [by right | reflexivity | reflexivity].
Defined.

(** ** The two layers behind the routes *)

Lemma listing_in_iso_format s :
  in_iso_format <$> (Raw.mapRowToBook <$> Sql.select_all_newest_first s)
  = in_iso_format <$> (Orm.plain <$> Sql.select_all_newest_first s).
Proof.
  rewrite <- !list_fmap_compose. apply list_fmap_ext. intros _ row _. simpl.
  by rewrite in_iso_format_mapRowToBook, in_iso_format_plain.
Qed.

Lemma validate_rating_of_route rating :
  JS.le (JS.Fin 1) rating = true -> JS.le rating (JS.Fin 5) = true ->
  Orm.validate_rating rating = true.
Proof.
  intros Hlo Hhi. apply validate_rating_in_range; [|done].
  destruct rating as [|[]|q]; try done. simpl in *.
  apply Qle_bool_iff. apply Qle_bool_iff in Hlo.
  apply Qle_trans with (y := 1%Q); [|done]. by apply Qle_bool_iff.
Qed.

(** Behind the routes the two layers are interchangeable: for a request
    whose id is not an infinity, and a book created on a whole second, the
    routes over the driver and the routes over the model make the same calls,
    leave the same store and give the same answer, the timestamps written in
    one format.  The white space and the ratings on which the layers differ
    do not pass the routes. *)
Theorem layers_agree_behind_routes NumberToString now req s :
  comparable now req ->
  snd (fst (Server.handle Raw.store NumberToString now req s))
  = snd (fst (Server.handle Orm.store NumberToString now req s))
  /\ snd (Server.handle Raw.store NumberToString now req s)
     = snd (Server.handle Orm.store NumberToString now req s)
  /\ response_in_iso_format (fst (fst (Server.handle Raw.store NumberToString now req s)))
     = response_in_iso_format (fst (fst (Server.handle Orm.store NumberToString now req s))).
Proof.
  destruct req as [|title author|id|id rating|id];
    unfold comparable, Server.handle; intros Hc.
  - unfold Api.get_books, Api.invoke. layer_ops.
    unfold Raw.getAllBooks, Orm.getAllBooks, Orm.bind, Orm.findAll_newest_first,
      Orm.resolve, response_in_iso_format. simpl.
    by rewrite listing_in_iso_format.
  - unfold Api.post_books, Api.invoke, Api.refuse. layer_ops.
    destruct (negb (JS.ToBoolean title) || negb (JS.ToBoolean author)); [done|].
    cbv zeta. rewrite Raw_createBook_eq, Orm_createBook_eq, !trim_idempotent.
    by rewrite (CURRENT_TIMESTAMP_whole_second _ Hc).
  - unfold Api.patch_toggle, Api.invoke, Api.refuse. cbv zeta. layer_ops.
    destruct (JS.Number (JS.Str id)) as [|negative|q] eqn:Hid;
      [done | by destruct (Hc negative) |]. cbn [JS.isNaN].
    destruct (Sql.select_by_id (JS.Fin q) s) as [[k r]|] eqn:E.
    + by rewrite (Raw_toggle_found _ _ _ _ E), (Orm_toggle_found _ _ _ _ E).
    + by rewrite (Raw_toggle_missing _ _ E), (Orm_toggle_missing _ _ E).
  - unfold Api.patch_rating, Api.invoke, Api.refuse. cbv zeta. layer_ops.
    destruct (JS.Number (JS.Str id)) as [|negative|q] eqn:Hid;
      [done | by destruct (Hc negative) |]. cbn [JS.isNaN]. rewrite orb_false_l.
    destruct (JS.isNaN (JS.Number rating)) eqn:Hn; [done|].
    rewrite (rating_test _ Hn).
    destruct (JS.le (JS.Fin 1) (JS.Number rating)) eqn:Hlo; [|done].
    destruct (JS.le (JS.Number rating) (JS.Fin 5)) eqn:Hhi; [|done]. cbn [andb negb].
    pose proof (validate_rating_of_route _ Hlo Hhi) as Hv.
    destruct (Sql.select_by_id (JS.Fin q) s) as [[k r]|] eqn:E.
    + by rewrite (Raw_rating_found _ _ _ _ _ E Hn), (Orm_rating_found _ _ _ _ _ E Hn Hv).
    + by rewrite (Raw_rating_missing _ _ _ E), (Orm_rating_missing _ _ _ E).
  - unfold Api.delete_book, Api.invoke, Api.refuse. cbv zeta. layer_ops.
    destruct (JS.Number (JS.Str id)) as [|negative|q] eqn:Hid;
      [done | by destruct (Hc negative) |]. cbn [JS.isNaN].
    rewrite Raw_delete_eq, Orm_delete_eq.
    by destruct (Sql.select_by_id (JS.Fin q) s) as [[k r]|].
Qed.

Lemma layers_agree_behind_routes_witness :
  snd (fst (Server.handle Raw.store (fun _ => "0"%string) 2000
              (Server.POST_books (JS.Str "  Emma ") (JS.Str "Austen")) one_book))
  = snd (fst (Server.handle Orm.store (fun _ => "0"%string) 2000
                (Server.POST_books (JS.Str "  Emma ") (JS.Str "Austen")) one_book))
  /\ snd (Server.handle Raw.store (fun _ => "0"%string) 2000
            (Server.POST_books (JS.Str "  Emma ") (JS.Str "Austen")) one_book)
     = snd (Server.handle Orm.store (fun _ => "0"%string) 2000
              (Server.POST_books (JS.Str "  Emma ") (JS.Str "Austen")) one_book)
  /\ response_in_iso_format
       (fst (fst (Server.handle Raw.store (fun _ => "0"%string) 2000
                    (Server.POST_books (JS.Str "  Emma ") (JS.Str "Austen")) one_book)))
     = response_in_iso_format
         (fst (fst (Server.handle Orm.store (fun _ => "0"%string) 2000
                      (Server.POST_books (JS.Str "  Emma ") (JS.Str "Austen")) one_book))).
Proof.
  apply (layers_agree_behind_routes (fun _ => "0"%string) 2000
           (Server.POST_books (JS.Str "  Emma ") (JS.Str "Austen")) one_book).
  reflexivity.
Defined.

(** ** The port *)

(** The port is never [NaN] and never 0: it is 4000 when the variable is
    not set, is blank, is not the text of a number or is the text of zero,
    and else the number the text converts to, whichever number that is. *)
Theorem port_falls_back_to_4000 (env_PORT : option string) :
  JS.ToBoolean (JS.Num (Server.PORT env_PORT)) = true
  /\ (env_PORT = None -> Server.PORT env_PORT = JS.Fin 4000)
  /\ (forall text, env_PORT = Some text ->
      (JS.trim text = ""%string -> Server.PORT env_PORT = JS.Fin 4000)
      /\ (JS.ToBoolean (JS.Num (JS.StringToNumber text)) = false ->
          Server.PORT env_PORT = JS.Fin 4000)
      /\ (JS.ToBoolean (JS.Num (JS.StringToNumber text)) = true ->
          Server.PORT env_PORT = JS.StringToNumber text)).
Proof.
  split; [|split].
  - unfold Server.PORT. cbv zeta.
    destruct (JS.ToBoolean (JS.Num (JS.Number _))) eqn:E; [exact E | reflexivity].
  - by intros ->.
  - intros text ->. unfold Server.PORT. cbn [JS.Number]. split; [|split].
    + intros Hb. unfold JS.StringToNumber. by rewrite Hb.
    + by intros ->.
    + by intros ->.
Qed.

Lemma port_falls_back_to_4000_witness :
  Server.PORT (Some "  "%string) = JS.Fin 4000
  /\ Server.PORT (Some "abc"%string) = JS.Fin 4000
  /\ Server.PORT (Some "8080"%string) = JS.StringToNumber "8080".
Proof.
  destruct (port_falls_back_to_4000 (Some "  "%string)) as (_ & _ & H1).
  destruct (port_falls_back_to_4000 (Some "abc"%string)) as (_ & _ & H2).
  destruct (port_falls_back_to_4000 (Some "8080"%string)) as (_ & _ & H3).
  split; [|split].
  - by apply (H1 "  "%string eq_refl).
  - by apply (H2 "abc"%string eq_refl).
  - by apply (H3 "8080"%string eq_refl).
Defined.

(** ** The schema *)

(** Setting up the schema gives the table with the column [rating] in every
    case and, done again, changes nothing; it gives the empty table where
    there was none, keeps a table that has the column as it is, and keeps
    the key counter and every row of a table of the first schema, the row
    reading rating 0. *)
Theorem initialize_keeps_the_rows (d : Schema.Database) :
  exists s,
    Schema.initialize d = Schema.Current s
    /\ Schema.initialize (Schema.initialize d) = Schema.initialize d
    /\ (d = Schema.NoTable -> s = empty_store)
    /\ (forall s0, d = Schema.Current s0 -> s = s0)
    /\ (forall rows sequence, d = Schema.Legacy rows sequence ->
        sqlite_sequence s = sequence
        /\ size (books s) = size rows
        /\ forall k, books s !! k
                     = (fun r => Row.mk (Schema.title r) (Schema.author r)
                                        (Schema.status r) (Schema.createdAt r)
                                        (JS.Fin 0)) <$> rows !! k).
Proof.
  destruct d as [|rows sequence|s0].
  - exists empty_store. split.
    + unfold Schema.initialize. simpl. unfold empty_store. by rewrite fmap_empty.
    + split; [reflexivity|]. by repeat split.
  - eexists. split; [reflexivity|]. split; [reflexivity|].
    split; [done|]. split; [done|].
    intros rows' sequence' [= <- <-]. simpl. split; [done|]. split.
    + apply map_size_fmap.
    + intros k. apply lookup_fmap.
  - exists s0. split; [reflexivity|]. split; [reflexivity|].
    split; [done|]. split; [by intros ? [= <-] | done].
Qed.

(** ** The routes over a layer that meets the contract *)

Lemma le_0_of_le_1 rating :
  JS.le (JS.Fin 1) rating = true -> JS.le (JS.Fin 0) rating = true.
Proof.
  destruct rating as [|[]|q]; try done. simpl. intros Hlo.
  apply Qle_bool_iff. apply Qle_bool_iff in Hlo.
  apply Qle_trans with (y := 1%Q); [|done]. by apply Qle_bool_iff.
Qed.

Lemma render_title db render new_row k r :
  contract db render new_row -> Book.title (render (k, r)) = Row.title r.
Proof.
  intros C.
  exact (f_equal (fun x => Row.title (snd x)) (render_row _ _ _ C (k, r))).
Qed.

Lemma render_author db render new_row k r :
  contract db render new_row -> Book.author (render (k, r)) = Row.author r.
Proof.
  intros C.
  exact (f_equal (fun x => Row.author (snd x)) (render_row _ _ _ C (k, r))).
Qed.

(** Both layers write a title and an author that are trimmed as they are. *)
Lemma implementation_contract_text db :
  implementation db ->
  exists render new_row,
    contract db render new_row
    /\ forall title author now,
         JS.trim title = title -> JS.trim author = author ->
         Row.title (new_row title author now) = title
         /\ Row.author (new_row title author now) = author.
Proof.
  intros [-> | ->].
  - exists Raw.mapRowToBook, (fun title author now =>
      Row.mk title author UNREAD (Sql.CURRENT_TIMESTAMP now) (JS.Fin 0)).
    split; [apply Raw_contract | done].
  - exists Orm.plain, (fun title author now =>
      Row.mk (JS.trim title) (JS.trim author) UNREAD now (JS.Fin 0)).
    split; [apply Orm_contract | done].
Qed.

Lemma route_post db render new_row NumberToString title author now s :
  contract db render new_row ->
  JS.ToBoolean title = true -> JS.ToBoolean author = true ->
  Api.post_books db NumberToString title author now s
  = (Api.mkResponse 201
       (Api.JsonBook
          (render (Sql.next_rowid s,
                   new_row (JS.trim (JS.ToString NumberToString title))
                           (JS.trim (JS.ToString NumberToString author)) now))),
     mkStore (<[Sql.next_rowid s :=
                  new_row (JS.trim (JS.ToString NumberToString title))
                          (JS.trim (JS.ToString NumberToString author)) now]>
                (books s))
             (Sql.next_rowid s),
     [Api.createBook_ (JS.trim (JS.ToString NumberToString title))
                      (JS.trim (JS.ToString NumberToString author))]).
Proof.
  intros C Ht Ha. unfold Api.post_books. rewrite Ht, Ha. cbn [negb orb]. cbv zeta.
  unfold Api.invoke. by rewrite (create_row _ _ _ C).
Qed.

Lemma route_toggle db render new_row id_param k s :
  contract db render new_row ->
  JS.Number (JS.Str id_param) = JS.of_Z k ->
  Api.patch_toggle db id_param s
  = match books s !! k with
    | Some r =>
        (Api.mkResponse 200 (Api.JsonBook (render (k, Sql.flip_status r))),
         with_books s (<[k := Sql.flip_status r]> (books s)),
         [Api.toggleBookStatus_ (JS.of_Z k)])
    | None =>
        (Api.mkResponse 404 (Api.JsonMessage "Book not found"), s,
         [Api.toggleBookStatus_ (JS.of_Z k)])
    end.
Proof.
  intros C Hid. unfold Api.patch_toggle. rewrite Hid. cbv zeta.
  change (JS.isNaN (JS.of_Z k)) with false. cbv iota.
  unfold Api.invoke. rewrite (toggle_row _ _ _ C).
  by destruct (books s !! k).
Qed.

Lemma route_rating db render new_row id_param body_rating k s :
  contract db render new_row ->
  JS.Number (JS.Str id_param) = JS.of_Z k ->
  JS.le (JS.Fin 1) (JS.Number body_rating) = true ->
  JS.le (JS.Number body_rating) (JS.Fin 5) = true ->
  Api.patch_rating db id_param body_rating s
  = match books s !! k with
    | Some r =>
        (Api.mkResponse 200
           (Api.JsonBook (render (k, rated (JS.Number body_rating) r))),
         with_books s (<[k := rated (JS.Number body_rating) r]> (books s)),
         [Api.updateBookRating_ (JS.of_Z k) (JS.Number body_rating)])
    | None =>
        (Api.mkResponse 404 (Api.JsonMessage "Book not found"), s,
         [Api.updateBookRating_ (JS.of_Z k) (JS.Number body_rating)])
    end.
Proof.
  intros C Hid Hlo Hhi. unfold Api.patch_rating. rewrite Hid. cbv zeta.
  change (JS.isNaN (JS.of_Z k)) with false. rewrite orb_false_l.
  destruct (le_not_NaN _ _ Hhi) as [Hn _]. rewrite Hn.
  rewrite (rating_test _ Hn), Hlo, Hhi. cbn [andb negb].
  unfold Api.invoke. rewrite (rate_row _ _ _ C) by auto using le_0_of_le_1.
  by destruct (books s !! k).
Qed.

Lemma route_delete db render new_row id_param k s :
  contract db render new_row ->
  JS.Number (JS.Str id_param) = JS.of_Z k ->
  Api.delete_book db id_param s
  = match books s !! k with
    | Some _ =>
        (Api.mkResponse 204 Api.NoBody, with_books s (delete k (books s)),
         [Api.deleteBook_ (JS.of_Z k)])
    | None =>
        (Api.mkResponse 404 (Api.JsonMessage "Book not found"), s,
         [Api.deleteBook_ (JS.of_Z k)])
    end.
Proof.
  intros C Hid. unfold Api.delete_book. rewrite Hid. cbv zeta.
  change (JS.isNaN (JS.of_Z k)) with false. cbv iota.
  unfold Api.invoke. rewrite (delete_row _ _ _ C).
  by destruct (books s !! k).
Qed.

(** ** The life of a book, through the routes *)

(** With either layer behind the routes, on every store: a POST with a title
    and an author that are truthy answers 201 with a book that is UNREAD,
    rated 0, and carries the trimmed title and author.  With a path segment
    that reads as the id of that book: a toggle answers 200 with the book
    READ; a rating of 1..5 then answers 200 with that rating, the status and
    the text kept; a rating outside 1..5 is answered 400 without a call on
    the store; a delete answers 204 and leaves the table as it was before
    the POST, the key counter at the id of the book; a second delete answers
    404 and changes nothing. *)
Theorem book_lifecycle db NumberToString title author now id_param n m s :
  implementation db ->
  JS.ToBoolean title = true -> JS.ToBoolean author = true ->
  1 <= n <= 5 -> m < 1 \/ 5 < m ->
  exists b s1,
    Api.post_books db NumberToString title author now s
    = (Api.mkResponse 201 (Api.JsonBook b), s1,
       [Api.createBook_ (JS.trim (JS.ToString NumberToString title))
                        (JS.trim (JS.ToString NumberToString author))])
    /\ Book.title b = JS.trim (JS.ToString NumberToString title)
    /\ Book.author b = JS.trim (JS.ToString NumberToString author)
    /\ Book.status b = UNREAD /\ Book.rating b = JS.Fin 0
    /\ (JS.Number (JS.Str id_param) = JS.of_Z (Book.id b) ->
        exists b2 s2 b3 s3 s5,
          Api.patch_toggle db id_param s1
          = (Api.mkResponse 200 (Api.JsonBook b2), s2,
             [Api.toggleBookStatus_ (JS.of_Z (Book.id b))])
          /\ Book.id b2 = Book.id b /\ Book.status b2 = READ
          /\ Api.patch_rating db id_param (JS.Num (JS.of_Z n)) s2
             = (Api.mkResponse 200 (Api.JsonBook b3), s3,
                [Api.updateBookRating_ (JS.of_Z (Book.id b)) (JS.of_Z n)])
          /\ Book.id b3 = Book.id b /\ Book.rating b3 = JS.of_Z n
          /\ Book.status b3 = READ
          /\ Book.title b3 = Book.title b /\ Book.author b3 = Book.author b
          /\ refused_400 (Api.patch_rating db id_param (JS.Num (JS.of_Z m)) s3) s3
          /\ Api.delete_book db id_param s3
             = (Api.mkResponse 204 Api.NoBody, s5,
                [Api.deleteBook_ (JS.of_Z (Book.id b))])
          /\ books s5 = books s /\ sqlite_sequence s5 = Book.id b
          /\ Api.delete_book db id_param s5
             = (Api.mkResponse 404 (Api.JsonMessage "Book not found"), s5,
                [Api.deleteBook_ (JS.of_Z (Book.id b))])).
Proof.
  intros Hdb Ht Ha Hn Hm.
  destruct (implementation_contract_text db Hdb) as (render & new_row & C & Htext).
  set (T := JS.trim (JS.ToString NumberToString title)).
  set (A := JS.trim (JS.ToString NumberToString author)).
  destruct (Htext T A now) as [HT HA]; [apply trim_idempotent..|].
  destruct (new_row_defaults _ _ _ C T A now) as [Hstatus Hrating].
  set (k := Sql.next_rowid s). set (r := new_row T A now).
  exists (render (k, r)), (mkStore (<[k := r]> (books s)) k).
  rewrite (render_id _ _ _ k r C), (render_title _ _ _ k r C),
    (render_author _ _ _ k r C), (render_status _ _ _ k r C),
    (render_rating _ _ _ k r C).
  split; [by apply route_post|]. do 4 (split; [done|]).
  intros Hid.
  exists (render (k, Sql.flip_status r)),
    (mkStore (<[k := Sql.flip_status r]> (books s)) k),
    (render (k, rated (JS.of_Z n) (Sql.flip_status r))),
    (mkStore (<[k := rated (JS.of_Z n) (Sql.flip_status r)]> (books s)) k),
    (mkStore (books s) k).
  rewrite !(render_id _ _ _ _ _ C), !(render_title _ _ _ _ _ C),
    !(render_author _ _ _ _ _ C), !(render_status _ _ _ _ _ C),
    !(render_rating _ _ _ _ _ C).
  assert (JS.le (JS.Fin 1) (JS.of_Z n) = true /\ JS.le (JS.of_Z n) (JS.Fin 5) = true)
    as [Hlo Hhi].
  { change (JS.Fin 1) with (JS.of_Z 1). change (JS.Fin 5) with (JS.of_Z 5).
    rewrite !le_of_Z. lia. }
  split.
  { rewrite (route_toggle _ _ _ _ _ _ C Hid). simpl. rewrite lookup_insert_eq.
    unfold with_books. simpl. by rewrite insert_insert_eq. }
  split; [done|]. split; [simpl; unfold r; by rewrite Hstatus|].
  split.
  { rewrite (route_rating _ _ _ _ _ _ _ C Hid); [|done..]. simpl.
    rewrite lookup_insert_eq. unfold with_books. simpl. by rewrite insert_insert_eq. }
  split; [done|]. split; [done|]. split; [simpl; unfold r; by rewrite Hstatus|].
  split; [done|]. split; [done|].
  split.
  { apply rating_out_of_range_refused. right. cbn [JS.Number]. unfold JS.gt.
    change (JS.Fin 1) with (JS.of_Z 1). change (JS.Fin 5) with (JS.of_Z 5).
    rewrite !lt_of_Z. lia. }
  split.
  { rewrite (route_delete _ _ _ _ _ _ C Hid). simpl. rewrite lookup_insert_eq.
    unfold with_books. simpl.
    by rewrite delete_insert_id by apply next_rowid_fresh. }
  split; [done|]. split; [done|].
  rewrite (route_delete _ _ _ _ _ _ C Hid). cbn [books]. unfold k.
  by rewrite (next_rowid_fresh s).
Qed.

Lemma book_lifecycle_witness :
  exists b s1,
    Api.post_books Raw.store (fun _ => "0"%string) (JS.Str " Dune ") (JS.Str "Herbert")
                   0 one_book
    = (Api.mkResponse 201 (Api.JsonBook b), s1, [Api.createBook_ "Dune" "Herbert"])
    /\ Book.id b = 2 /\ Book.title b = "Dune"%string /\ Book.status b = UNREAD
    /\ exists s5,
         Api.delete_book Raw.store "2" s5
         = (Api.mkResponse 404 (Api.JsonMessage "Book not found"), s5,
            [Api.deleteBook_ (JS.of_Z 2)])
         /\ books s5 = books one_book.
Proof.
  destruct (book_lifecycle Raw.store (fun _ => "0"%string) (JS.Str " Dune ")
              (JS.Str "Herbert") 0 "2" 5 7 one_book)
    as (b & s1 & Hpost & Htitle & _ & Hstatus & _ & Hrest);
    [by left | reflexivity | reflexivity | lia | lia |].
  assert (Book.id b = 2) as Hid.
  { vm_compute in Hpost. by injection Hpost as <- _. }
  destruct Hrest as (_ & _ & _ & _ & s5 & _ & _ & _ & _ & _ & _ & _ & _ & _ & _ & _
                     & Hbooks & _ & Hgone).
  { by rewrite Hid. }
  exists b, s1. split; [exact Hpost|]. split; [exact Hid|].
  split; [exact Htitle|]. split; [exact Hstatus|].
  exists s5. rewrite Hid in Hgone. by split.
Defined.

(** ** The page and the table *)

Lemma List_filter_Permutation {A} (f : A -> bool) (l l' : list A) :
  l ≡ₚ l' -> List.filter f l ≡ₚ List.filter f l'.
Proof.
  induction 1 as [|x l l' _ IH|x y l|l l' l'' _ IH1 _ IH2]; simpl.
  - done.
  - destruct (f x); by rewrite IH.
  - destruct (f x), (f y); try done. apply perm_swap.
  - by rewrite IH1.
Qed.

Lemma List_filter_all {A} (f : A -> bool) (l : list A) :
  (forall x, x ∈ l -> f x = true) -> List.filter f l = l.
Proof.
  induction l as [|x l IH]; [done|]. intros H. simpl.
  rewrite (H x) by left. f_equal. apply IH. intros y Hy. apply H. by right.
Qed.

Lemma fmap_same_elements {A B} (f g : A -> B) (l : list A) :
  (forall x, x ∈ l -> f x = g x) -> f <$> l = g <$> l.
Proof.
  intros H. apply list_fmap_ext. intros i x Hx. apply H.
  by eapply list_elem_of_lookup_2.
Qed.

Lemma in_step_table db render new_row c s :
  contract db render new_row ->
  in_step db c s <-> Client.books c ≡ₚ render <$> map_to_list (books s).
Proof.
  intros C. unfold in_step. rewrite (list_all _ _ _ C). split.
  - intros (l & [= <-] & H). by rewrite H, select_all_Permutation.
  - intros H. eexists. split; [done|]. by rewrite H, select_all_Permutation.
Qed.

(** [prev.map((b) => (b.id === id ? updated : b))] on the books of a table
    gives the books of the table with the row of that id replaced. *)
Lemma replace_by_id_table (render : Z * Row.t -> Book.t) (m : gmap Z Row.t)
    k r r' l :
  (forall x, Book.id (render x) = fst x) ->
  m !! k = Some r ->
  l ≡ₚ render <$> map_to_list m ->
  Client.replace_by_id k (render (k, r')) l ≡ₚ render <$> map_to_list (<[k := r']> m).
Proof.
  intros Hid Hk Hl. unfold Client.replace_by_id. rewrite Hl.
  rewrite <- (insert_delete_eq m k r').
  rewrite map_to_list_insert by apply lookup_delete_eq.
  rewrite <- (map_to_list_delete m k r Hk). rewrite !fmap_cons.
  rewrite Hid. cbn [fst]. rewrite Z.eqb_refl. apply perm_skip.
  rewrite <- list_fmap_compose. apply eq_subrelation; [apply _|].
  apply fmap_same_elements. intros [k' r0] Hx. simpl.
  apply elem_of_map_to_list in Hx. rewrite Hid. simpl.
  destruct (Z.eqb_spec k' k) as [->|]; [|done].
  by rewrite lookup_delete_eq in Hx.
Qed.

(** [prev.filter((b) => b.id !== id)] on the books of a table gives the
    books of the table without the row of that id. *)
Lemma filter_by_id_table (render : Z * Row.t -> Book.t) (m : gmap Z Row.t) k l :
  (forall x, Book.id (render x) = fst x) ->
  l ≡ₚ render <$> map_to_list m ->
  List.filter (fun b => negb (Book.id b =? k)) l ≡ₚ render <$> map_to_list (delete k m).
Proof.
  intros Hid Hl. rewrite (List_filter_Permutation _ _ _ Hl).
  assert (List.filter (fun b => negb (Book.id b =? k))
            (render <$> map_to_list (delete k m))
          = render <$> map_to_list (delete k m)) as Hkept.
  { apply List_filter_all. intros b Hb.
    apply list_elem_of_fmap in Hb as ([k' r0] & -> & Hx).
    apply elem_of_map_to_list in Hx. rewrite Hid. simpl.
    destruct (Z.eqb_spec k' k) as [->|]; [|done].
    by rewrite lookup_delete_eq in Hx. }
  destruct (m !! k) as [r|] eqn:Hk.
  - rewrite (List_filter_Permutation _ _ _
               (fmap_Permutation render _ _ (symmetry (map_to_list_delete m k r Hk)))).
    rewrite fmap_cons. simpl. rewrite Hid. simpl. rewrite Z.eqb_refl. simpl.
    by rewrite Hkept.
  - rewrite (delete_id m k Hk) in *. by rewrite Hkept.
Qed.

(** The store after a handler of the page is the store after the request
    that the handler sent, if it sent one. *)
Lemma act_store db NumberToString now a c s c' s' :
  act db NumberToString now a (c, s) = Some (c', s') ->
  s' = s \/ exists req, s' = snd (fst (Server.handle db NumberToString now req s)).
Proof.
  destruct a as [| |id|id rating|id]; unfold act.
  - unfold Client.fetchBooks, Client.fetch. intros H. right.
    exists Server.GET_books.
    destruct (Server.handle db NumberToString now Server.GET_books s)
      as [[res s1] calls].
    cbv beta iota zeta in H. destruct (negb (Client.ok res)); [by injection H|].
    by destruct (Api.body res); try done; injection H.
  - unfold Client.handleAdd, Client.fetch. cbv beta iota zeta.
    match goal with |- context [if ?b then _ else _] => destruct b end;
      [intros [= _ <-]; by left|].
    intros H. right.
    match type of H with context [Server.handle db NumberToString now ?req s] =>
      exists req; destruct (Server.handle db NumberToString now req s)
        as [[res s1] calls] end.
    cbv beta iota zeta in H. destruct (negb (Client.ok res)); [by injection H|].
    by destruct (Api.body res); try done; injection H.
  - unfold Client.handleToggle, Client.fetch. intros H. right.
    match type of H with context [Server.handle db NumberToString now ?req s] =>
      exists req; destruct (Server.handle db NumberToString now req s)
        as [[res s1] calls] end.
    cbv beta iota zeta in H. destruct (negb (Client.ok res)); [by injection H|].
    by destruct (Api.body res); try done; injection H.
  - unfold Client.handleRate, Client.fetch. intros H. right.
    match type of H with context [Server.handle db NumberToString now ?req s] =>
      exists req; destruct (Server.handle db NumberToString now req s)
        as [[res s1] calls] end.
    cbv beta iota zeta in H. destruct (negb (Client.ok res)); [by injection H|].
    by destruct (Api.body res); try done; injection H.
  - unfold Client.handleDelete, Client.fetch. intros H. right.
    match type of H with context [Server.handle db NumberToString now ?req s] =>
      exists req; destruct (Server.handle db NumberToString now req s)
        as [[res s1] calls] end.
    cbv beta iota zeta in H.
    by destruct (negb (Client.ok res) && negb (Api.statusCode res =? 204));
      injection H.
Qed.

(** With either layer behind the routes, and ids that are read back from the
    path as they were written, every handler of the page keeps the list of
    the page in step with the table: if the list held the books of the store
    before, in some order, it holds the books of the store afterwards,
    whether the server answered with a success or with an error.  [Load]
    brings the list in step whatever the list was: of the list before it
    nothing is assumed.  The store is one that the routes have served, and
    stays one. *)
Theorem page_stays_in_step db NumberToString now a c s c' s' :
  implementation db -> served s ->
  path_round_trip NumberToString a ->
  a = Load \/ in_step db c s ->
  act db NumberToString now a (c, s) = Some (c', s') ->
  in_step db c' s' /\ served s'.
Proof.
  intros Hdb Hs Hrt Hstep Hact. split; cycle 1.
  { destruct (act_store _ _ _ _ _ _ _ _ Hact) as [-> | [req ->]];
      [done | by apply served_step]. }
  destruct (implementation_contract db Hdb) as (render & new_row & C).
  rewrite (in_step_table _ _ _ c s C) in Hstep.
  rewrite (in_step_table _ _ _ c' s' C).
  assert (forall x, Book.id (render x) = fst x) as Hid.
  { intros [k r]. apply (render_id _ _ _ _ _ C). }
  destruct a as [| |id|id rating|id]; unfold act in Hact; cbn [path_round_trip] in Hrt.
  - clear Hstep.
    unfold Client.fetchBooks, Client.fetch in Hact. cbn [Server.handle] in Hact.
    unfold Api.get_books, Api.invoke in Hact. rewrite (list_all _ _ _ C) in Hact.
    simpl in Hact. injection Hact as <- <-. simpl.
    by rewrite select_all_Permutation.
  - destruct Hstep as [Hstep|Hstep]; [done|].
    unfold Client.handleAdd in Hact. cbv beta iota zeta in Hact.
    cbn [Client.title Client.author Client.setError] in Hact.
    destruct (JS.ToBoolean (JS.Str (JS.trim (Client.title c)))) eqn:Ht;
      [|by injection Hact as <- <-].
    destruct (JS.ToBoolean (JS.Str (JS.trim (Client.author c)))) eqn:Ha;
      [|by injection Hact as <- <-].
    unfold Client.fetch in Hact. cbn [Server.handle negb orb] in Hact.
    rewrite (route_post _ _ _ _ _ _ _ _ C Ht Ha) in Hact.
    pose proof (next_rowid_fresh s) as Hfresh.
    set (k := Sql.next_rowid s) in *. clearbody k.
    match type of Hact with context [new_row ?t ?u now] =>
      set (r := new_row t u now) in *; clearbody r end.
    simpl in Hact. injection Hact as <- <-. simpl.
    by rewrite map_to_list_insert, fmap_cons, Hstep.
  - destruct Hstep as [Hstep|Hstep]; [done|].
    unfold Client.handleToggle, Client.fetch in Hact. cbn [Server.handle] in Hact.
    rewrite (route_toggle _ _ _ _ _ _ C Hrt) in Hact.
    destruct (books s !! id) as [r|] eqn:E; simpl in Hact; injection Hact as <- <-;
      [|done].
    simpl. by apply (replace_by_id_table render (books s) id r).
  - destruct Hstep as [Hstep|Hstep]; [done|].
    unfold Client.handleRate, Client.fetch in Hact. cbn [Server.handle] in Hact.
    destruct (JS.le (JS.Fin 1) (JS.Number (Client.stringify_number rating))
              && JS.le (JS.Number (Client.stringify_number rating)) (JS.Fin 5))
      eqn:Hrange.
    + apply andb_prop in Hrange as [Hlo Hhi].
      rewrite (route_rating _ _ _ _ _ _ _ C Hrt Hlo Hhi) in Hact.
      destruct (books s !! id) as [r|] eqn:E; simpl in Hact;
        injection Hact as <- <-; [|done].
      simpl. by apply (replace_by_id_table render (books s) id r).
    + assert (refused_400
                (Api.patch_rating db (NumberToString (JS.of_Z id))
                   (Client.stringify_number rating) s) s) as (H400 & _ & _ & Hsame).
      { apply rating_out_of_range_refused.
        destruct (JS.isNaN (JS.Number (Client.stringify_number rating))) eqn:Hn;
          [by left | right].
        by rewrite (rating_test _ Hn), Hrange. }
      destruct (Api.patch_rating db (NumberToString (JS.of_Z id))
                  (Client.stringify_number rating) s) as [[[code body] s1] calls].
      simpl in H400, Hsame. subst code s1. simpl in Hact.
      by injection Hact as <- <-.
  - destruct Hstep as [Hstep|Hstep]; [done|].
    unfold Client.handleDelete, Client.fetch in Hact. cbn [Server.handle] in Hact.
    rewrite (route_delete _ _ _ _ _ _ C Hrt) in Hact.
    destruct (books s !! id) as [r|] eqn:E; simpl in Hact; injection Hact as <- <-;
      [|done].
    simpl. by apply filter_by_id_table.
Qed.

(** A toggle on a list in step, and a load on a list that shows a book the
    table does not have. *)
Lemma page_stays_in_step_witness :
  (in_step Orm.store
     (Client.mk [Book.mk 1 "Dune" "Herbert" READ (ISOString 0) (JS.Fin 0)]
                false (Client.Text "") "" "" None "")
     (mkStore {[ 1 := Row.mk "Dune" "Herbert" READ 0 (JS.Fin 0) ]} 1)
   /\ served (mkStore {[ 1 := Row.mk "Dune" "Herbert" READ 0 (JS.Fin 0) ]} 1))
  /\ (in_step Orm.store
        (Client.mk [Book.mk 1 "Dune" "Herbert" UNREAD (ISOString 0) (JS.Fin 0)]
                   false (Client.Text "") "" "" None "")
        one_book
      /\ served one_book).
Proof.
  split.
  - apply (page_stays_in_step Orm.store (fun _ => "1"%string) 0 (Toggle 1)
             (Client.mk [Book.mk 1 "Dune" "Herbert" UNREAD (ISOString 0) (JS.Fin 0)]
                        false (Client.Text "") "" "" None "")
             one_book).
    + by right.
    + exact (served_step Orm.store (fun _ => "1"%string) 0
               (Server.POST_books (JS.Str "Dune") (JS.Str "Herbert")) empty_store
               (or_intror eq_refl) served_empty).
    + reflexivity.
    + right. exists [Book.mk 1 "Dune" "Herbert" UNREAD (ISOString 0) (JS.Fin 0)].
      split; reflexivity.
    + reflexivity.
  - apply (page_stays_in_step Orm.store (fun _ => "1"%string) 0 Load
             (Client.mk [Book.mk 7 "Emma" "Austen" READ (ISOString 0) (JS.Fin 3)]
                        true (Client.Text "") "" "" None "")
             one_book).
    + by right.
    + exact (served_step Orm.store (fun _ => "1"%string) 0
               (Server.POST_books (JS.Str "Dune") (JS.Str "Herbert")) empty_store
               (or_intror eq_refl) served_empty).
    + exact I.
    + by left.
    + reflexivity.
Defined.

(** ** Adding a book from the page *)

Lemma truthy_string x : JS.ToBoolean (JS.Str x) = true <-> x <> ""%string.
Proof.
  simpl. by destruct (String.eqb_spec x ""); split.
Qed.

(** With either layer behind the routes, the page creates no book whose
    title or author is blank: when the title or the author of the form is
    empty once trimmed, [handleAdd] shows its error text and sends no
    request, the list and the store staying as they are; otherwise it adds
    one book at the head of the list, UNREAD and rated 0, whose title and
    author are the trimmed texts of the form, written to the table under a
    key that was not in use, and clears the form. *)
Theorem page_adds_no_blank_book db NumberToString now c s :
  implementation db ->
  (JS.trim (Client.title c) = ""%string \/ JS.trim (Client.author c) = ""%string ->
   Client.handleAdd db NumberToString now (c, s)
   = Some (Client.setError (Client.Text "請輸入書名與作者") c, s))
  /\ (JS.trim (Client.title c) <> ""%string ->
      JS.trim (Client.author c) <> ""%string ->
      exists b r,
        Client.handleAdd db NumberToString now (c, s)
        = Some (Client.setAuthor "" (Client.setTitle ""
                  (Client.setBooks (cons b) (Client.setError (Client.Text "") c))),
                mkStore (<[Book.id b := r]> (books s)) (Book.id b))
        /\ books s !! Book.id b = None
        /\ Book.title b = JS.trim (Client.title c) /\ Row.title r = Book.title b
        /\ Book.author b = JS.trim (Client.author c) /\ Row.author r = Book.author b
        /\ Book.status b = UNREAD /\ Book.rating b = JS.Fin 0).
Proof.
  intros Hdb. split.
  - intros Hblank. unfold Client.handleAdd. cbv beta iota zeta.
    cbn [Client.title Client.author Client.setError].
    assert (negb (JS.ToBoolean (JS.Str (JS.trim (Client.title c))))
            || negb (JS.ToBoolean (JS.Str (JS.trim (Client.author c)))) = true) as ->;
      [|done].
    destruct Hblank as [-> | ->]; [done|]. apply orb_true_r.
  - intros Ht Ha. apply truthy_string in Ht, Ha.
    destruct (implementation_contract_text db Hdb) as (render & new_row & C & Htext).
    destruct (Htext (JS.trim (Client.title c)) (JS.trim (Client.author c)) now)
      as [HT HA]; [apply trim_idempotent..|].
    destruct (new_row_defaults _ _ _ C (JS.trim (Client.title c))
                (JS.trim (Client.author c)) now) as [Hstatus Hrating].
    exists (render (Sql.next_rowid s,
                    new_row (JS.trim (Client.title c)) (JS.trim (Client.author c)) now)),
      (new_row (JS.trim (Client.title c)) (JS.trim (Client.author c)) now).
    rewrite (render_id _ _ _ _ _ C), (render_title _ _ _ _ _ C),
      (render_author _ _ _ _ _ C), (render_status _ _ _ _ _ C),
      (render_rating _ _ _ _ _ C).
    split; [|split; [apply next_rowid_fresh | done]].
    unfold Client.handleAdd. cbv beta iota zeta.
    cbn [Client.title Client.author Client.setError].
    rewrite Ht, Ha. cbn [negb orb]. unfold Client.fetch. cbn [Server.handle].
    rewrite (route_post _ _ _ _ _ _ _ _ C Ht Ha).
    cbn [JS.ToString]. by rewrite !trim_idempotent.
Qed.

Lemma page_adds_no_blank_book_witness :
  Client.handleAdd Raw.store (fun _ => "0"%string) 0
    (Client.mk [] false (Client.Text "") "　" "Herbert" None "", empty_store)
  = Some (Client.setError (Client.Text "請輸入書名與作者")
            (Client.mk [] false (Client.Text "") "　" "Herbert" None ""),
          empty_store).
Proof.
  apply (page_adds_no_blank_book Raw.store (fun _ => "0"%string) 0
           (Client.mk [] false (Client.Text "") "　" "Herbert" None "") empty_store).
  - by left.
  - by left.
Defined.

(** ** What the page reads from the routes *)

(** When the request of a handler is answered by the routes, whatever store
    is behind them, the handler finds in a response that is ok a body of the
    type it casts the body to: [res.json()] is read as a list of books only
    on the 200 of GET, and as a book only on a 201 or a 200 that carries one,
    never on a message or on an empty body.  So the handler ends, and the
    error line is left as it was or is set to a text of the page.  (A request
    that the network does not deliver makes [fetch] reject; such a request is
    not a value of [Client.fetch].) *)
Theorem page_reads_what_the_routes_write (db : RecordStore) NumberToString now a c s :
  exists c' s',
    act db NumberToString now a (c, s) = Some (c', s')
    /\ (Client.error c' = Client.error c \/ page_text (Client.error c')).
Proof.
  destruct a as [| |id|id rating|id]; unfold act.
  - unfold Client.fetchBooks, Client.fetch. cbn [Server.handle].
    unfold Api.get_books, Api.invoke.
    destruct (getAllBooks db s) as [[l|e] s1]; simpl; eauto.
    do 2 eexists. split; [done|]. unfold page_text. eauto.
  - unfold Client.handleAdd. cbv beta iota zeta.
    cbn [Client.title Client.author Client.setError].
    unfold Client.fetch. cbn [Server.handle]. unfold Api.post_books, Api.invoke.
    destruct (negb (JS.ToBoolean (JS.Str (JS.trim (Client.title c))))
              || negb (JS.ToBoolean (JS.Str (JS.trim (Client.author c)))));
      [do 2 eexists; split; [done|]; unfold page_text; simpl; eauto|].
    cbv zeta.
    match goal with |- context [createBook db ?t ?u now s] =>
      destruct (createBook db t u now s) as [[b|e] s1] end;
      simpl; do 2 eexists; (split; [done|]); unfold page_text; simpl; eauto.
  - unfold Client.handleToggle, Client.fetch. cbn [Server.handle].
    unfold Api.patch_toggle, Api.invoke, Api.refuse. cbv zeta.
    destruct (JS.isNaN (JS.Number (JS.Str (NumberToString (JS.of_Z id)))));
      [simpl; do 2 eexists; split; [done|]; unfold page_text; simpl; eauto|].
    match goal with |- context [toggleBookStatus db ?i s] =>
      destruct (toggleBookStatus db i s) as [[[b|]|e] s1] end;
      simpl; do 2 eexists; (split; [done|]); unfold page_text; simpl; eauto.
  - unfold Client.handleRate, Client.fetch. cbn [Server.handle].
    unfold Api.patch_rating, Api.invoke, Api.refuse. cbv zeta.
    match goal with |- context [if ?b then _ else _] => destruct b end;
      [simpl; do 2 eexists; split; [done|]; unfold page_text; simpl; eauto|].
    match goal with |- context [if ?b then _ else _] => destruct b end;
      [simpl; do 2 eexists; split; [done|]; unfold page_text; simpl; eauto|].
    match goal with |- context [updateBookRating db ?i ?r s] =>
      destruct (updateBookRating db i r s) as [[[b|]|e] s1] end;
      simpl; do 2 eexists; (split; [done|]); unfold page_text; simpl; eauto.
  - unfold Client.handleDelete, Client.fetch.
    destruct (Server.handle db NumberToString now
                (Server.DELETE_book (NumberToString (JS.of_Z id))) s)
      as [[res s1] calls].
    cbv beta iota zeta.
    destruct (negb (Client.ok res) && negb (Api.statusCode res =? 204));
      do 2 eexists; (split; [done|]); unfold page_text; simpl; eauto.
Qed.

(** ** Loading the list *)

(** With either layer behind the routes, [fetchBooks] replaces the list of
    the page by the books of the table, newest first and one per row, ends
    the loading state, and leaves the store as it is. *)
Theorem load_shows_the_listing db NumberToString now c s :
  implementation db ->
  exists l,
    Client.fetchBooks db NumberToString now (c, s)
    = Some (Client.setLoading false (Client.setBooks (fun _ => l) c), s)
    /\ StronglySorted newest_first l
    /\ row_of_book <$> l ≡ₚ map_to_list (books s).
Proof.
  intros Hdb. destruct (implementation_contract db Hdb) as (render & new_row & C).
  destruct (listing_newest_first db render new_row s C) as (Hl & Hsorted & Hperm).
  exists (render <$> Sql.select_all_newest_first s). split; [|done].
  unfold Client.fetchBooks, Client.fetch. cbn [Server.handle].
  unfold Api.get_books, Api.invoke. by rewrite Hl.
Qed.

Lemma load_shows_the_listing_witness :
  exists l,
    Client.fetchBooks Raw.store (fun _ => "0"%string) 0 (Client.initial, three_books)
    = Some (Client.setLoading false (Client.setBooks (fun _ => l) Client.initial),
            three_books)
    /\ StronglySorted newest_first l
    /\ row_of_book <$> l ≡ₚ map_to_list (books three_books).
Proof.
  apply (load_shows_the_listing Raw.store (fun _ => "0"%string) 0 Client.initial
           three_books).
  by left.
Defined.


(** ** The index that [Math.random] gives *)

Lemma floor_log2_lower n d :
  0 < n -> 0 <= JS.floor_log2 n d -> 2 ^ JS.floor_log2 n d * Z.pos d <= n.
Proof.
  intros Hn. unfold JS.floor_log2, JS.div_pow2.
  set (e0 := Z.log2 n - Z.log2 (Z.pos d)).
  destruct (0 <=? e0) eqn:He0.
  - apply Z.leb_le in He0.
    destruct (Z.pos d * 2 ^ e0 <=? n) eqn:Hc; intros He.
    + apply Z.leb_le in Hc. lia.
    + destruct (Z.log2_spec n Hn) as [Hl _].
      destruct (Z.log2_spec (Z.pos d)) as [_ Hu]; [lia|].
      pose proof (Z.log2_nonneg (Z.pos d)) as Hd.
      assert (2 ^ (e0 - 1) * 2 ^ Z.succ (Z.log2 (Z.pos d)) = 2 ^ Z.log2 n) as Hpow.
      { rewrite <- Z.pow_add_r by lia. f_equal. unfold e0. lia. }
      assert (0 < 2 ^ (e0 - 1)) by (apply Z.pow_pos_nonneg; lia).
      nia.
  - apply Z.leb_gt in He0.
    destruct (Z.pos d <=? n * 2 ^ (- e0)); lia.
Qed.

Lemma round_half_even_bounds n d :
  0 <= n -> 0 < d ->
  0 <= JS.round_half_even n d /\ 2 * JS.round_half_even n d * d <= 2 * n + d.
Proof.
  intros Hn Hd. unfold JS.round_half_even.
  pose proof (Z.div_mod n d ltac:(lia)) as Hdm.
  pose proof (Z.mod_pos_bound n d Hd) as Hm.
  pose proof (Z.div_pos n d Hn Hd) as Hq.
  destruct (2 * (n mod d) ?= d) eqn:E.
  - apply Z.compare_eq in E. destruct (Z.even (n / d)); nia.
  - nia.
  - apply Z.compare_gt_iff in E. nia.
Qed.

Lemma Qfloor_scale2 m p : p <= 0 -> Qfloor (JS.scale2 m p) = m / 2 ^ (- p).
Proof.
  intros Hp. unfold JS.scale2. destruct (0 <=? p) eqn:E.
  - apply Z.leb_le in E. assert (p = 0) as -> by lia.
    rewrite Qfloor_Z. simpl. by rewrite Z.mul_1_r, Z.div_1_r.
  - apply Z.leb_gt in E. rewrite (Qfloor_comp _ _ (Qred_correct _)).
    unfold Qfloor. rewrite Z2Pos.id; [done|]. apply Z.pow_pos_nonneg; lia.
Qed.

(** For a number that [Math.random] can return, from 0 to [1 - 2^-53], and a
    length from 1 to [2^53 - 1], the index is one of the array: the rounding
    of the product never reaches the length. *)
Lemma random_index_in_range (random : Q) (n : nat) :
  (0 <= random)%Q -> (random <= 9007199254740991 # 9007199254740992)%Q ->
  (0 < n)%nat -> Z.of_nat n < 2 ^ 53 ->
  exists i, Client.random_index random n = Some i /\ 0 <= i < Z.of_nat n.
Proof.
  destruct random as [a b]. unfold Qle. cbn [Qnum Qden].
  intros Ha Hb Hn Hlen. rewrite Z.mul_1_r in Ha.
  unfold Client.random_index, JS.ToDouble. unfold Qmult, inject_Z. cbn [Qnum Qden].
  rewrite Pos.mul_1_r.
  set (N := Z.of_nat n) in *. assert (1 <= N) as HN by lia.
  assert ((a * N <? 0) = false) as -> by (apply Z.ltb_ge; nia).
  unfold JS.round_magnitude.
  destruct (a * N =? 0) eqn:E0.
  { exists 0. split; [done | lia]. }
  apply Z.eqb_neq in E0. assert (0 < a * N) as Hpos by nia.
  pose proof (floor_log2_lower (a * N) b Hpos) as Hfl.
  set (e := JS.floor_log2 (a * N) b) in *.
  assert (a < Z.pos b) as Hab by lia.
  (* the binary exponent of the product is below that of the length *)
  assert (e <= 52 /\ 2 ^ 52 < 2 ^ (- Z.max (e - 52) (-1074)) * N) as [He HP].
  { destruct (Z.le_gt_cases 0 e) as [He0|He0].
    - specialize (Hfl He0).
      assert (2 ^ e < N) as HeN.
      { assert (2 ^ e * Z.pos b < N * Z.pos b) by nia. nia. }
      assert (e < 53) as He53.
      { apply (Z.pow_lt_mono_r_iff 2); lia. }
      split; [lia|]. rewrite Z.max_l by lia.
      replace (- (e - 52)) with (52 - e) by lia.
      assert (2 ^ (52 - e) * 2 ^ e = 2 ^ 52) as Hpow.
      { rewrite <- Z.pow_add_r by lia. f_equal. lia. }
      assert (0 < 2 ^ (52 - e)) by (apply Z.pow_pos_nonneg; lia).
      nia.
    - split; [lia|].
      assert (2 ^ 53 <= 2 ^ (- Z.max (e - 52) (-1074))).
      { apply Z.pow_le_mono_r; lia. }
      assert (2 ^ 52 < 2 ^ 53) by (apply Z.pow_lt_mono_r; lia).
      nia. }
  assert ((1024 <=? e) = false) as -> by (apply Z.leb_gt; lia).
  set (p := Z.max (e - 52) (-1074)) in *.
  assert (p <= 0) as Hp by (unfold p; lia).
  assert (0 < 2 ^ (- p)) as HPpos by (apply Z.pow_pos_nonneg; lia).
  assert (exists a' b', JS.div_pow2 (a * N) b p = (a', b') /\ 0 <= a' /\ 0 < b'
                        /\ a' * Z.pos b = a * N * 2 ^ (- p) * b') as (a' & b' & -> & Ha' & Hb' & Hab').
  { unfold JS.div_pow2. destruct (0 <=? p) eqn:Ep.
    - apply Z.leb_le in Ep. assert (p = 0) as -> by lia.
      exists (a * N), (Z.pos b * 2 ^ 0). split; [done|]. simpl. lia.
    - exists (a * N * 2 ^ (- p)), (Z.pos b). split; [done|]. nia. }
  destruct (round_half_even_bounds a' b' Ha' Hb') as [Hm0 Hm].
  set (m := JS.round_half_even a' b') in *.
  assert ((p =? 971) && (m =? 2 ^ 53) = false) as ->.
  { assert ((p =? 971) = false) as -> by (apply Z.eqb_neq; lia). done. }
  exists (m / 2 ^ (- p)). split; [by rewrite Qfloor_scale2|].
  split; [by apply Z.div_pos|].
  apply Z.div_lt_upper_bound; [done|].
  (* m < 2^(-p) * N *)
  assert (2 ^ 53 = 9007199254740992) as H53 by reflexivity.
  assert (2 ^ 52 = 4503599627370496) as H52 by reflexivity.
  rewrite H52 in HP.
  set (P := 2 ^ (- p)) in *.
  (* 2 m b' <= 2 a' + b', a' b = a N P b', and (b - a) 2^53 >= b *)
  assert (2 * m * b' * Z.pos b <= (2 * a * N * P + Z.pos b) * b') as H1 by nia.
  assert (2 * m * Z.pos b <= 2 * a * N * P + Z.pos b) as H2 by nia.
  assert (Z.pos b <= (Z.pos b - a) * 9007199254740992) as H3 by lia.
  assert (Z.pos b * (P * N) <= (Z.pos b - a) * N * P * 9007199254740992) as H4 by nia.
  nia.
Qed.

(** ** Surprise me *)

Lemma elem_of_List_filter {A} (f : A -> bool) (l : list A) x :
  x ∈ List.filter f l <-> x ∈ l /\ f x = true.
Proof. rewrite !list_elem_of_In. apply filter_In. Qed.

(** [handleSurprise] never changes the list.  When no book of the list is
    UNREAD it only shows the toast that says so.  When there is one, and
    [Math.random] returned a number from 0 to [1 - 2^-53] (every double below
    1 is one), it highlights the id of a book of the list that is UNREAD and
    names the title of that book in the toast: the index it computes is
    never outside the array of the unread books. *)
Theorem surprise_highlights_an_unread_book random c :
  Client.books (Client.handleSurprise random c) = Client.books c
  /\ ((forall b, b ∈ Client.books c -> Book.status b <> UNREAD) ->
      Client.handleSurprise random c = Client.setToast "沒有未讀的書籍了！" c)
  /\ ((exists b, b ∈ Client.books c /\ Book.status b = UNREAD) ->
      (0 <= random)%Q -> (random <= 9007199254740991 # 9007199254740992)%Q ->
      Z.of_nat (length (Client.books c)) < 2 ^ 53 ->
      exists pick,
        pick ∈ Client.books c /\ Book.status pick = UNREAD
        /\ Client.handleSurprise random c
           = Client.setToast (Client.perfect_read pick)
               (Client.setHighlightedId (Some (Book.id pick)) c)).
Proof.
  unfold Client.handleSurprise. cbv zeta.
  pose proof (filter_length_le (fun b => bool_decide (Book.status b = UNREAD))
                (Client.books c)) as Hlen.
  set (unread := List.filter (fun b => bool_decide (Book.status b = UNREAD))
                   (Client.books c)) in *.
  assert (forall b, b ∈ unread <-> b ∈ Client.books c /\ Book.status b = UNREAD)
    as Hunread.
  { intros b. unfold unread. rewrite elem_of_List_filter.
    by rewrite bool_decide_eq_true. }
  split; [|split].
  - destruct (length unread =? 0)%nat; [done|].
    by destruct (Client.element unread _).
  - intros Hnone. destruct unread as [|b l]; [done|].
    destruct (Hnone b); by apply (Hunread b); left.
  - intros (b & Hb) H0 H1 Hsize. apply Hunread in Hb.
    assert (0 < length unread)%nat as Hpos.
    { destruct unread; [by apply elem_of_nil in Hb | simpl; lia]. }
    destruct (random_index_in_range random (length unread) H0 H1 Hpos)
      as (i & -> & Hi); [lia|].
    destruct (Nat.eqb_spec (length unread) 0) as [Hz|_]; [lia|].
    unfold Client.element.
    assert ((i <? 0) = false) as -> by (apply Z.ltb_ge; lia).
    destruct (lookup_lt_is_Some_2 unread (Z.to_nat i)) as [pick Hpick]; [lia|].
    rewrite Hpick. exists pick. split; [|split; [|done]].
    + apply (Hunread pick). by eapply list_elem_of_lookup_2.
    + apply (Hunread pick). by eapply list_elem_of_lookup_2.
Qed.

(** Half way through the two unread books of the shelf is the second of
    them. *)
Example surprise_on_the_shelf :
  Client.handleSurprise (1 # 2) shelf
  = Client.setToast "Today's perfect read: Dune"
      (Client.setHighlightedId (Some 1) shelf).
Proof. reflexivity. Qed.

(** ** The buttons of a card *)

Lemma listed_book db render new_row c s b :
  contract db render new_row -> in_step db c s -> b ∈ Client.books c ->
  exists r, books s !! Book.id b = Some r /\ b = render (Book.id b, r).
Proof.
  intros C Hstep Hb. rewrite (in_step_table _ _ _ c s C) in Hstep.
  rewrite Hstep in Hb. apply list_elem_of_fmap in Hb as ([k r] & -> & Hx).
  apply elem_of_map_to_list in Hx. rewrite (render_id _ _ _ _ _ C). eauto.
Qed.

Lemma stars_of_rating b star :
  Book.rating b = JS.of_Z star ->
  Client.stars b = (fun i => i <=? star) <$> [1; 2; 3; 4; 5].
Proof.
  intros Hr. unfold Client.stars, JS.ge. rewrite Hr.
  apply fmap_same_elements. intros i _. apply le_of_Z.
Qed.

(** With either layer behind the routes, a store that the routes have served
    (the numbers of its books are finite, and the JSON text of a book reads
    back as the book), a list that is in step with the table, and ids that
    are read back from the path as they were written, the buttons of the
    card of a listed book never fail.  The toggle puts in
    the place of the book the book with the other status; the star [n] puts
    in its place the book rated [n], whose card then shows the stars up to
    [n] lit and the others not; in both the rest of the book is kept and the
    error line is not touched.  The delete button removes the row from the
    table and leaves no book of that id in the list. *)
Theorem card_buttons_succeed db NumberToString now c s b :
  implementation db -> served s -> in_step db c s ->
  b ∈ Client.books c ->
  JS.Number (JS.Str (NumberToString (JS.of_Z (Book.id b)))) = JS.of_Z (Book.id b) ->
  (exists b' s',
     Client.handleToggle db NumberToString (Book.id b) now (c, s)
     = Some (Client.setBooks (Client.replace_by_id (Book.id b) b') c, s')
     /\ Book.id b' = Book.id b /\ Book.status b' <> Book.status b
     /\ Book.title b' = Book.title b /\ Book.author b' = Book.author b
     /\ Book.rating b' = Book.rating b)
  /\ (forall star, 1 <= star <= 5 ->
      exists b' s',
        Client.handleRate db NumberToString (Book.id b) (JS.of_Z star) now (c, s)
        = Some (Client.setBooks (Client.replace_by_id (Book.id b) b') c, s')
        /\ Book.id b' = Book.id b /\ Book.rating b' = JS.of_Z star
        /\ Client.stars b' = (fun i => i <=? star) <$> [1; 2; 3; 4; 5]
        /\ Book.title b' = Book.title b /\ Book.author b' = Book.author b
        /\ Book.status b' = Book.status b)
  /\ (exists s',
        Client.handleDelete db NumberToString (Book.id b) now (c, s)
        = Some (Client.setBooks
                  (List.filter (fun x => negb (Book.id x =? Book.id b))) c, s')
        /\ books s' = delete (Book.id b) (books s)
        /\ forall x, x ∈ List.filter (fun x => negb (Book.id x =? Book.id b))
                           (Client.books c) -> Book.id x <> Book.id b).
Proof.
  intros Hdb _ Hstep Hb Hrt.
  destruct (implementation_contract db Hdb) as (render & new_row & C).
  destruct (listed_book _ _ _ _ _ _ C Hstep Hb) as (r & E & Hbr).
  set (k := Book.id b) in *.
  assert (Book.title b = Row.title r /\ Book.author b = Row.author r
          /\ Book.status b = Row.status r /\ Book.rating b = Row.rating r)
    as (Htitle & Hauthor & Hstatus & Hrating).
  { rewrite Hbr. by rewrite (render_title _ _ _ _ _ C), (render_author _ _ _ _ _ C),
      (render_status _ _ _ _ _ C), (render_rating _ _ _ _ _ C). }
  split; [|split].
  - exists (render (k, Sql.flip_status r)),
      (with_books s (<[k := Sql.flip_status r]> (books s))).
    rewrite (render_id _ _ _ _ _ C), (render_title _ _ _ _ _ C),
      (render_author _ _ _ _ _ C), (render_status _ _ _ _ _ C),
      (render_rating _ _ _ _ _ C).
    split; [|split; [done|split; [|done]]].
    + unfold Client.handleToggle, Client.fetch. cbn [Server.handle].
      by rewrite (route_toggle _ _ _ _ _ _ C Hrt), E.
    + rewrite Hstatus. apply flipped_changes.
  - intros star Hstar.
    assert (JS.le (JS.Fin 1) (JS.of_Z star) = true
            /\ JS.le (JS.of_Z star) (JS.Fin 5) = true) as [Hlo Hhi].
    { change (JS.Fin 1) with (JS.of_Z 1). change (JS.Fin 5) with (JS.of_Z 5).
      rewrite !le_of_Z. lia. }
    exists (render (k, rated (JS.of_Z star) r)),
      (with_books s (<[k := rated (JS.of_Z star) r]> (books s))).
    assert (Book.rating (render (k, rated (JS.of_Z star) r)) = JS.of_Z star) as Hr.
    { by rewrite (render_rating _ _ _ _ _ C). }
    rewrite (stars_of_rating _ star Hr).
    rewrite (render_id _ _ _ _ _ C), (render_title _ _ _ _ _ C),
      (render_author _ _ _ _ _ C), (render_status _ _ _ _ _ C),
      (render_rating _ _ _ _ _ C).
    split; [|done].
    unfold Client.handleRate, Client.fetch. cbn [Server.handle].
    rewrite (route_rating _ _ _ _ (Client.stringify_number (JS.of_Z star)) _ _ C Hrt Hlo Hhi).
    by rewrite E.
  - exists (with_books s (delete k (books s))). split; [|split; [done|]].
    + unfold Client.handleDelete, Client.fetch. cbn [Server.handle].
      by rewrite (route_delete _ _ _ _ _ _ C Hrt), E.
    + intros x Hx. apply elem_of_List_filter in Hx as [_ Hx].
      apply negb_true_iff, Z.eqb_neq in Hx. done.
Qed.

Lemma card_buttons_succeed_witness :
  exists b' s',
    Client.handleRate Orm.store (fun _ => "1"%string) 1 (JS.of_Z 4) 0
      (Client.mk [Book.mk 1 "Dune" "Herbert" UNREAD (ISOString 0) (JS.Fin 0)]
                 false (Client.Text "") "" "" None "", one_book)
    = Some (Client.setBooks (Client.replace_by_id 1 b')
              (Client.mk [Book.mk 1 "Dune" "Herbert" UNREAD (ISOString 0) (JS.Fin 0)]
                         false (Client.Text "") "" "" None ""), s')
    /\ Client.stars b' = [true; true; true; true; false].
Proof.
  destruct (card_buttons_succeed Orm.store (fun _ => "1"%string) 0
              (Client.mk [Book.mk 1 "Dune" "Herbert" UNREAD (ISOString 0) (JS.Fin 0)]
                         false (Client.Text "") "" "" None "")
              one_book
              (Book.mk 1 "Dune" "Herbert" UNREAD (ISOString 0) (JS.Fin 0)))
    as (_ & Hrate & _).
  - by right.
  - exact (served_step Orm.store (fun _ => "1"%string) 0
             (Server.POST_books (JS.Str "Dune") (JS.Str "Herbert")) empty_store
             (or_intror eq_refl) served_empty).
  - exists [Book.mk 1 "Dune" "Herbert" UNREAD (ISOString 0) (JS.Fin 0)].
    split; reflexivity.
  - by left.
  - reflexivity.
  - destruct (Hrate 4) as (b' & s' & H & _ & _ & Hstars & _); [lia|].
    exists b', s'. split; [exact H | exact Hstars].
Defined.
